(** * OpsWorks layer attribute projection and IPAM pool lookup

    A shallow embedding of
      - internal/service/opsworks/layers.go
      - internal/service/ec2/vpc_ipam_pool_data_source.go
    together with the properties of the attribute-bag projection, the
    volume-configuration expansion, the load-balancer reconciliation of
    [Update] and the pool data source read.

    The file has three parts: the embedding (the Go library functions the
    adapters call, [ResourceData], the SDK structures, the adapters
    themselves), the vocabulary of the properties with the layer types,
    states and services they are evaluated on, and the properties. *)

From Stdlib Require Import ZArith String Ascii List Lia.
From Stdlib Require OrderedTypeEx Sorted.
From stdpp Require Import base option list gmap strings.

Local Open Scope string_scope.
#[local] Set Warnings "-clear-no-such-hyp".

(** ** strconv *)

Module Strconv.
Local Open Scope Z_scope.

(** Go's [int] on the 64-bit platforms the provider is built for. *)
Definition int_min : Z := - 2 ^ 63.
Definition int_max : Z := 2 ^ 63 - 1.
Definition is_int (n : Z) : Prop := int_min <= n <= int_max.
Definition is_intb (n : Z) : bool := (int_min <=? n) && (n <=? int_max).

(** The byte ['0' + d]. *)
Definition digit_char (d : Z) : ascii := ascii_of_N (Z.to_N (48 + d)).

(** [ch -= '0'; if ch > 9 { syntax error }] on a byte. *)
Definition digit_val (c : ascii) : option Z :=
  let n := Z.of_N (N_of_ascii c) in
  if (48 <=? n) && (n <=? 57) then Some (n - 48) else None.

(** [formatBits] in base 10: the digits of [u] are written in front of
    [acc], least significant first.  A [uint64] has 64 bits and every
    round divides by ten, so 64 rounds always suffice. *)
Fixpoint format_digits (fuel : nat) (u : Z) (acc : string) : string :=
  match fuel with
  | O => acc
  | S fuel' =>
      let acc' := String (digit_char (u mod 10)) acc in
      if u <? 10 then acc' else format_digits fuel' (u / 10) acc'
  end.

(** [strconv.Itoa]: [FormatInt(int64(i), 10)]. *)
Definition Itoa (i : Z) : string :=
  if i <? 0 then String "-" (format_digits 64 (- i) "")
  else format_digits 64 i "".

(** The digit loop of [Atoi] / [ParseUint]: [n = n*10 + int(ch)], a
    syntax error at the first byte that is not a decimal digit. *)
Fixpoint parse_digits (s : string) (n : Z) : option Z :=
  match s with
  | EmptyString => Some n
  | String ch rest =>
      match digit_val ch with
      | Some d => parse_digits rest (n * 10 + d)
      | None => None
      end
  end.

(** [strconv.Atoi]: an optional sign, then at least one decimal digit and
    nothing else; a value outside [int] is a range error.  [None] stands
    for a non-nil [error]. *)
Definition Atoi (s : string) : option Z :=
  match s with
  | EmptyString => None
  | String c rest =>
      let neg := Ascii.eqb c "-" in
      let body := if neg || Ascii.eqb c "+" then rest else s in
      match body with
      | EmptyString => None
      | _ =>
          match parse_digits body 0 with
          | Some un =>
              let n := if neg then - un else un in
              if is_intb n then Some n else None
          | None => None
          end
      end
  end.

End Strconv.

(** ** strings *)

Module Strings.

(** [strings.Count(s, sep)] for a one-byte separator. *)
Fixpoint Count (s : string) (sep : ascii) : nat :=
  match s with
  | EmptyString => 0
  | String c rest => (if Ascii.eqb c sep then 1 else 0) + Count rest sep
  end.

(** [m := strings.Index(s, sep)] for a one-byte separator, returned as the
    two slices [s[:m]] and [s[m+len(sep):]] that [genSplit] takes at that
    index; [None] is [m < 0]. *)
Fixpoint cut (s : string) (sep : ascii) : option (string * string) :=
  match s with
  | EmptyString => None
  | String c rest =>
      if Ascii.eqb c sep then Some (EmptyString, rest)
      else match cut rest sep with
           | Some (before, after) => Some (String c before, after)
           | None => None
           end
  end.

(** The loop of [genSplit(s, sep, 0, -1)]: [rounds] is [n - 1], and the
    remainder of the string is the last element. *)
Fixpoint genSplit (rounds : nat) (s : string) (sep : ascii) : list string :=
  match rounds with
  | O => [s]
  | S rounds' =>
      match cut s sep with
      | None => [s]
      | Some (before, after) => before :: genSplit rounds' after sep
      end
  end.

(** [strings.Split(s, sep)] with a separator of one byte, the only way the
    adapter calls it: [n := Count(s, sep) + 1] elements. *)
Definition Split (s : string) (sep : ascii) : list string :=
  genSplit (Count s sep) s sep.

End Strings.

(** ** helper/schema: typed values and [ResourceData] *)

Module Schema.

(** [schema.ValueType]. *)
Inductive ValueType : Type :=
| TypeInvalid | TypeBool | TypeInt | TypeFloat | TypeString
| TypeList | TypeMap | TypeSet | typeObject.

(** The primitive [interface{}] values a field or a nested object holds. *)
Inductive value : Type :=
| VString (s : string)
| VInt (n : Z)
| VBool (b : bool).

(** An element of a list or set field: a primitive, or a nested
    [map[string]interface{}] as the elements of [ebs_volume] are. *)
Inductive elem : Type :=
| EValue (v : value)
| EObject (m : gmap string value).

(** What [d.Get] returns: a primitive, the elements of a [TypeList] or a
    [TypeSet] field in the order [List()] gives them, a [TypeMap] of
    strings, or a value of a kind the adapter never looks into. *)
Inductive field : Type :=
| FValue (v : value)
| FList (l : list elem)
| FMap (m : gmap string string)
| FOther.

#[global] Instance ValueType_eq_dec : EqDecision ValueType.
Proof. solve_decision. Defined.
#[global] Instance value_eq_dec : EqDecision value.
Proof. solve_decision. Defined.
#[global] Instance elem_eq_dec : EqDecision elem.
Proof. solve_decision. Defined.
#[global] Instance field_eq_dec : EqDecision field.
Proof. solve_decision. Defined.

(** The zero value [d.Get] returns for a field that is not set. *)
Definition zero_value (t : ValueType) : field :=
  match t with
  | TypeString => FValue (VString "")
  | TypeInt => FValue (VInt 0)
  | TypeBool => FValue (VBool false)
  | TypeList | TypeSet => FList []
  | TypeMap => FMap ∅
  | TypeInvalid | TypeFloat | typeObject => FOther
  end.

(** [schema.ResourceData]: the identifier, whether the resource is being
    created, the prior state ([GetChange]'s old side) and the current
    values, which [Set] writes and [Get] reads.  A field that is absent from
    a map is unset (null). *)
Record ResourceData : Type := mkResourceData {
  rd_id : string;
  rd_isNew : bool;
  rd_state : gmap string field;
  rd_fields : gmap string field;
}.

Definition Id (d : ResourceData) : string := rd_id d.

Definition SetId (d : ResourceData) (id : string) : ResourceData :=
  mkResourceData id (rd_isNew d) (rd_state d) (rd_fields d).

Definition IsNewResource (d : ResourceData) : bool := rd_isNew d.

(** [d.Get(key)] for a key whose schema type is [t]: the schema decides
    the zero value, so the embedding passes the type the schema declares
    for the key. *)
Definition Get (d : ResourceData) (t : ValueType) (key : string) : field :=
  default (zero_value t) (rd_fields d !! key).

(** [d.GetOk(key)]: the value and whether it differs from the zero value. *)
Definition GetOk (d : ResourceData) (t : ValueType) (key : string) : field * bool :=
  let v := Get d t key in (v, bool_decide (v ≠ zero_value t)).

(** [d.GetChange(key)]: the old and the new value. *)
Definition GetChange (d : ResourceData) (t : ValueType) (key : string) : field * field :=
  (default (zero_value t) (rd_state d !! key), Get d t key).

(** [d.HasChange(key)]. *)
Definition HasChange (d : ResourceData) (t : ValueType) (key : string) : bool :=
  let '(o, n) := GetChange d t key in bool_decide (o ≠ n).

(** [d.Set(key, v)]; [None] is [d.Set(key, nil)] (or a nil pointer), which
    clears the field. *)
Definition Set_ (d : ResourceData) (key : string) (v : option field) : ResourceData :=
  mkResourceData (rd_id d) (rd_isNew d) (rd_state d)
    (match v with
     | Some x => <[key := x]> (rd_fields d)
     | None => delete key (rd_fields d)
     end).

Definition SetString (d : ResourceData) (key : string) (v : option string) : ResourceData :=
  Set_ d key (FValue ∘ VString <$> v).
Definition SetInt (d : ResourceData) (key : string) (v : option Z) : ResourceData :=
  Set_ d key (FValue ∘ VInt <$> v).
Definition SetBool (d : ResourceData) (key : string) (v : option bool) : ResourceData :=
  Set_ d key (FValue ∘ VBool <$> v).

End Schema.

(** ** Errors and outcomes of a Go call *)

Inductive error : Type :=
| AwsError (code message : string)
    (* an [awserr.Error] returned by the SDK *)
| UnsupportedAttributeType (t : Schema.ValueType)
    (* [fmt.Errorf("Unsupported OpsWorks layer attribute type: %s", def.Type)] *)
| Wrapf (context : string) (cause : error)
    (* [fmt.Errorf("<context>: %w", err)] *)
| OtherError (message : string).

(** The run-time panics of the adapter. *)
Inductive panic : Type :=
| TypeAssertion     (* interface conversion: the value is not of the asserted type *)
| IndexOutOfRange   (* index out of range *)
| NilDereference.   (* invalid memory address or nil pointer dereference *)

(** A call returns a value, returns a non-nil [error], or panics. *)
Inductive outcome (A : Type) : Type :=
| Ok (a : A)
| Err (e : error)
| Panic (p : panic).
Arguments Ok {A} a.
Arguments Err {A} e.
Arguments Panic {A} p.

Definition obind {A B : Type} (m : outcome A) (k : A -> outcome B) : outcome B :=
  match m with
  | Ok a => k a
  | Err e => Err e
  | Panic p => Panic p
  end.

Notation "x <-! m ; k" := (obind m (fun x => k))
  (at level 100, m at next level, right associativity, only parsing).

(** Type assertions [v.(string)], [v.(int)], [v.(bool)],
    [v.([]interface{})], the [List()] of a set, and
    [v.(map[string]interface{})]: a mismatch panics. *)
Module Assert.
Import Schema.

Definition asString (f : field) : outcome string :=
  match f with FValue (VString s) => Ok s | _ => Panic TypeAssertion end.
Definition asInt (f : field) : outcome Z :=
  match f with FValue (VInt n) => Ok n | _ => Panic TypeAssertion end.
Definition asBool (f : field) : outcome bool :=
  match f with FValue (VBool b) => Ok b | _ => Panic TypeAssertion end.
Definition asList (f : field) : outcome (list elem) :=
  match f with FList l => Ok l | _ => Panic TypeAssertion end.
Definition asObject (e : elem) : outcome (gmap string value) :=
  match e with EObject m => Ok m | _ => Panic TypeAssertion end.

(** [m[key].(T)] on a [map[string]interface{}]: a missing key yields the
    nil interface, on which the assertion panics as well. *)
Definition keyString (m : gmap string value) (key : string) : outcome string :=
  match m !! key with Some (VString s) => Ok s | _ => Panic TypeAssertion end.
Definition keyInt (m : gmap string value) (key : string) : outcome Z :=
  match m !! key with Some (VInt n) => Ok n | _ => Panic TypeAssertion end.
Definition keyBool (m : gmap string value) (key : string) : outcome bool :=
  match m !! key with Some (VBool b) => Ok b | _ => Panic TypeAssertion end.

End Assert.

(** ** [schema.Set] of the plugin SDK

    A set keeps each element under the decimal string of its hash code
    made non-negative; [Add] leaves a code that is taken as it is, so that
    of the elements of one code the first stays;
    [List] returns the elements in the order of the sorted codes.  [d.Set]
    of a slice on a [TypeSet] field adds the elements in the order of the
    slice, and [d.Get] returns the set. *)
Module SchemaSet.
Import Schema.

(** [s.hash]: [code := s.F(item); if code < 0 { code = -code }] on Go's
    [int], where the opposite of the least value is that value again, and
    then [strconv.Itoa(code)]. *)
Definition code (hash : Z) : string :=
  Strconv.Itoa
    (if (hash <? 0)%Z
     then if (hash =? Strconv.int_min)%Z then hash else (- hash)%Z
     else hash).

(** The codes and elements of a set, in the order of the codes. *)
Fixpoint add (c : string) (item : elem) (m : list (string * elem))
    : list (string * elem) :=
  match m with
  | [] => [(c, item)]
  | (c', item') :: rest =>
      match String.compare c c' with
      | Eq => m
      | Lt => (c, item) :: m
      | Gt => (c', item') :: add c item rest
      end
  end.

(** The set of the coded elements, added one after the other. *)
Definition of_list (coded : list (string * elem)) : list (string * elem) :=
  foldl (fun m '(c, item) => add c item m) [] coded.

Definition List (m : list (string * elem)) : list elem := m.*2.

(** The hash function of the set on every element, in their order; one
    that panics ends the write. *)
Fixpoint hashes (F : elem -> outcome Z) (items : list elem)
    : outcome (list (string * elem)) :=
  match items with
  | [] => Ok []
  | item :: rest =>
      hash <-! F item;
      coded <-! hashes F rest;
      Ok ((code hash, item) :: coded)
  end.

(** What [List()] gives after [d.Set] of the slice [items] on a set with
    the hash function [F]. *)
Definition written (F : elem -> outcome Z) (items : list elem) : outcome (list elem) :=
  coded <-! hashes F items;
  Ok (List (of_list coded)).

End SchemaSet.

(** ** aws-sdk-go/service/opsworks: the structures the adapter exchanges

    A pointer field of a response is an [option]; the pointer fields of a
    request are filled with [aws.String], [aws.Bool] and [aws.Int64], so
    they carry the value itself, except the fields the adapter leaves nil on
    purpose. *)

Module SDK.

Record VolumeConfiguration : Type := mkVolumeConfiguration {
  MountPoint : option string;
  NumberOfDisks : option Z;
  Size : option Z;
  VolumeType : option string;
  Encrypted : option bool;
  Iops : option Z;
  RaidLevel : option Z;
}.

Record Recipes : Type := mkRecipes {
  Configure : list string;
  Deploy : list string;
  Setup : list string;
  Shutdown : list string;
  Undeploy : list string;
}.

Record ShutdownEventConfiguration : Type := mkShutdownEventConfiguration {
  DelayUntilElbConnectionsDrained : option bool;
  ExecutionTimeout : option Z;
}.

Record LifecycleEventConfiguration : Type := mkLifecycleEventConfiguration {
  lec_Shutdown : option ShutdownEventConfiguration;
}.

Record ElasticLoadBalancer : Type := mkElasticLoadBalancer {
  ElasticLoadBalancerName : option string;
}.

Module Layer.
Record t : Type := mk {
  Arn : option string;
  Attributes : gmap string (option string);
  AutoAssignElasticIps : option bool;
  AutoAssignPublicIps : option bool;
  CustomInstanceProfileArn : option string;
  CustomJson : option string;
  CustomRecipes : option Recipes;
  CustomSecurityGroupIds : list string;
  EnableAutoHealing : option bool;
  InstallUpdatesOnBoot : option bool;
  LayerId : option string;
  LifecycleEventConfiguration : option SDK.LifecycleEventConfiguration;
  Name : option string;
  Packages : list string;
  Shortname : option string;
  StackId : option string;
  UseEbsOptimizedInstances : option bool;
  VolumeConfigurations : list (option VolumeConfiguration);
}.
End Layer.

Module UpdateLayerInput.
Record t : Type := mk {
  LayerId : string;
  AutoAssignElasticIps : bool;
  AutoAssignPublicIps : bool;
  CustomInstanceProfileArn : string;
  CustomRecipes : Recipes;
  CustomSecurityGroupIds : list string;
  EnableAutoHealing : bool;
  InstallUpdatesOnBoot : bool;
  LifecycleEventConfiguration : SDK.LifecycleEventConfiguration;
  Name : string;
  Packages : list string;
  UseEbsOptimizedInstances : bool;
  Attributes : gmap string (option string);
  VolumeConfigurations : list VolumeConfiguration;
  Shortname : string;
  CustomJson : string;
}.
End UpdateLayerInput.

(** The requests the layer adapter sends, with what identifies each. *)
Inductive call : Type :=
| DescribeLayers (LayerIds : list string)
| DescribeElasticLoadBalancers (LayerIds : list string)
| AttachElasticLoadBalancer (ElasticLoadBalancerName LayerId : string)
| DetachElasticLoadBalancer (ElasticLoadBalancerName LayerId : string)
| UpdateLayer (req : UpdateLayerInput.t)
| ListTags (arn : string)
| UpdateTags (arn : string) (oldTags newTags : Schema.field).

(** The remote service: what it answers to a request, given the requests
    it has received so far.  [inl] and [Some] carry the [error] of a failed
    call. *)
Record OpsWorks : Type := mkOpsWorks {
  onDescribeLayers :
    list call -> list string -> error + list (option Layer.t);
  onDescribeElasticLoadBalancers :
    list call -> list string -> error + list (option ElasticLoadBalancer);
  onAttachElasticLoadBalancer : list call -> string -> string -> option error;
  onDetachElasticLoadBalancer : list call -> string -> string -> option error;
  onUpdateLayer : list call -> UpdateLayerInput.t -> option error;
  onListTags : list call -> string -> error + gmap string string;
  onUpdateTags :
    list call -> string -> Schema.field -> Schema.field -> option error;
}.

Definition ErrCodeResourceNotFoundException : string := "ResourceNotFoundException".

(** [aws.StringValue]. *)
Definition StringValue (p : option string) : string := default "" p.

End SDK.

(** [tfawserr.ErrMessageContains(err, code, "")]: an SDK error with that
    code (every message contains the empty string). *)
Definition ErrCodeEquals (err : error) (code : string) : bool :=
  match err with
  | AwsError c _ => String.eqb c code
  | _ => false
  end.

(** ** The adapter's effects

    A method of the layer adapter reads and writes the [ResourceData] it is
    given and sends requests to the service; [world] holds both, the
    requests in the order they were sent. *)

Module Effects.
Import Schema.

Record world : Type := mkWorld {
  w_d : ResourceData;
  w_calls : list SDK.call;
}.

Definition M (A : Type) : Type := world -> world * outcome A.

Definition ret {A : Type} (a : A) : M A := fun w => (w, Ok a).

Definition bind {A B : Type} (m : M A) (k : A -> M B) : M B :=
  fun w =>
    let '(w', r) := m w in
    match r with
    | Ok a => k a w'
    | Err e => (w', Err e)
    | Panic p => (w', Panic p)
    end.

(** [return err] with a non-nil error. *)
Definition fail {A : Type} (e : error) : M A := fun w => (w, Err e).

Definition lift {A : Type} (o : outcome A) : M A := fun w => (w, o).

Definition getD : M ResourceData := fun w => (w, Ok (w_d w)).

Definition modD (f : ResourceData -> ResourceData) : M unit :=
  fun w => (mkWorld (f (w_d w)) (w_calls w), Ok tt).

(** Send request [c]; [answer] is the service's reply given the requests
    sent before it. *)
Definition send {A : Type} (c : SDK.call) (answer : list SDK.call -> A) : M A :=
  fun w => (mkWorld (w_d w) (w_calls w ++ [c]), Ok (answer (w_calls w))).

(** [if err != nil { return err }]. *)
Definition check (e : option error) : M unit :=
  match e with
  | Some err => fail err
  | None => ret tt
  end.

Definition when (b : bool) (m : M unit) : M unit := if b then m else ret tt.

End Effects.

Declare Scope go_scope.
Delimit Scope go_scope with go.
Notation "x <- m ;; k" := (Effects.bind m (fun x => k))
  (at level 100, m at next level, right associativity) : go_scope.
Notation "m ;; k" := (Effects.bind m (fun _ => k))
  (at level 100, right associativity) : go_scope.

(** ** internal/service/opsworks/layers.go *)

Module OpsWorks.
Import Schema Assert Effects.

Record opsworksLayerTypeAttribute : Type := mkAttribute {
  AttrName : string;
  Type_ : ValueType;
  Default : option field;
  Required : bool;
  WriteOnly : bool;
}.

(** [Attributes] is a Go map from the local key to its definition.  A
    [range] over a Go map visits every entry once, in an order the language
    leaves open, so the embedding holds the entries as the list of pairs in
    the order the [range] visits them: a statement over every such list is
    a statement over every map and every iteration order.  That a key
    occurs once is [Spec.wf_attributes] below. *)
Record opsworksLayerType : Type := mkLayerType {
  TypeName : string;
  DefaultLayerName : string;
  Attributes : list (string * opsworksLayerTypeAttribute);
  CustomShortName : bool;
}.

Definition opsworksTrueString : string := "true".
Definition opsworksFalseString : string := "false".

(** The remote attribute bag, [map[string]*string]. *)
Abbreviation bag := (gmap string (option string)).

(** The body of [for key, def := range lt.Attributes] in [AttributeMap]. *)
Fixpoint AttributeMap_range (entries : list (string * opsworksLayerTypeAttribute))
    (d : ResourceData) (attrs : bag) : outcome bag :=
  match entries with
  | [] => Ok attrs
  | (key, def) :: rest =>
      let value := Get d (Type_ def) key in
      match Type_ def with
      | TypeString =>
          strValue <-! asString value;
          AttributeMap_range rest d (<[AttrName def := Some strValue]> attrs)
      | TypeInt =>
          intValue <-! asInt value;
          let strValue := Strconv.Itoa intValue in
          AttributeMap_range rest d (<[AttrName def := Some strValue]> attrs)
      | TypeBool =>
          boolValue <-! asBool value;
          if boolValue : bool
          then AttributeMap_range rest d (<[AttrName def := Some opsworksTrueString]> attrs)
          else AttributeMap_range rest d (<[AttrName def := Some opsworksFalseString]> attrs)
      | t =>
          (* should never happen *)
          Err (UnsupportedAttributeType t)
      end
  end.

Definition AttributeMap (lt : opsworksLayerType) (d : ResourceData) : outcome bag :=
  AttributeMap_range (Attributes lt) d ∅.

(** The body of [for key, def := range lt.Attributes] in [SetAttributeMap];
    the result is the [ResourceData] as the method leaves it and the error
    it returns.  In the branch of a present, non-nil bag entry the method
    returns right after the [switch]. *)
Fixpoint SetAttributeMap_range (entries : list (string * opsworksLayerTypeAttribute))
    (d : ResourceData) (attrs : bag) : ResourceData * option error :=
  match entries with
  | [] => (d, None)
  | (key, def) :: rest =>
      if WriteOnly def then
        (* continue *)
        SetAttributeMap_range rest d attrs
      else
        match attrs !! AttrName def with
        | Some (Some strValue) =>
            match Type_ def with
            | TypeString =>
                (Set_ d key (Some (FValue (VString strValue))), None)
            | TypeInt =>
                match Strconv.Atoi strValue with
                | Some intValue => (Set_ d key (Some (FValue (VInt intValue))), None)
                | None => (Set_ d key None, None)
                end
            | TypeBool =>
                let boolValue :=
                  if String.eqb strValue opsworksFalseString then false else true in
                (Set_ d key (Some (FValue (VBool boolValue))), None)
            | t => (d, Some (UnsupportedAttributeType t))
            end
        | _ => SetAttributeMap_range rest (Set_ d key None) attrs
        end
  end.

Definition SetAttributeMap (lt : opsworksLayerType) (d : ResourceData) (attrs : bag)
    : ResourceData * option error :=
  SetAttributeMap_range (Attributes lt) d attrs.

Definition LifecycleEventConfiguration (d : ResourceData)
    : outcome SDK.LifecycleEventConfiguration :=
  drain <-! asBool (Get d TypeBool "drain_elb_on_shutdown");
  timeout <-! asInt (Get d TypeInt "instance_shutdown_timeout");
  Ok (SDK.mkLifecycleEventConfiguration
        (Some (SDK.mkShutdownEventConfiguration (Some drain) (Some timeout)))).

Definition SetLifecycleEventConfiguration (d : ResourceData)
    (v : option SDK.LifecycleEventConfiguration) : ResourceData :=
  match v ≫= SDK.lec_Shutdown with
  | None =>
      let d := Set_ d "drain_elb_on_shutdown" None in
      Set_ d "instance_shutdown_timeout" None
  | Some shutdown =>
      let d := SetBool d "drain_elb_on_shutdown" (SDK.DelayUntilElbConnectionsDrained shutdown) in
      SetInt d "instance_shutdown_timeout" (SDK.ExecutionTimeout shutdown)
  end.

(** One round of the loop of [VolumeConfigurations]: [result[i]] from
    [configuredVolumes[i]]. *)
Definition VolumeConfigurations_at (configuredVolume : elem)
    : outcome SDK.VolumeConfiguration :=
  volumeData <-! asObject configuredVolume;
  mount_point <-! keyString volumeData "mount_point";
  number_of_disks <-! keyInt volumeData "number_of_disks";
  size <-! keyInt volumeData "size";
  type <-! keyString volumeData "type";
  encrypted <-! keyBool volumeData "encrypted";
  iops <-! keyInt volumeData "iops";
  raidLevelStr <-! keyString volumeData "raid_level";
  Ok {| SDK.MountPoint := Some mount_point;
        SDK.NumberOfDisks := Some number_of_disks;
        SDK.Size := Some size;
        SDK.VolumeType := Some type;
        SDK.Encrypted := Some encrypted;
        SDK.Iops := if (iops =? 0)%Z then None else Some iops;
        SDK.RaidLevel :=
          if String.eqb raidLevelStr "" then None
          else Strconv.Atoi raidLevelStr |}.

Fixpoint VolumeConfigurations_loop (configuredVolumes : list elem)
    : outcome (list SDK.VolumeConfiguration) :=
  match configuredVolumes with
  | [] => Ok []
  | v :: rest =>
      c <-! VolumeConfigurations_at v;
      cs <-! VolumeConfigurations_loop rest;
      Ok (c :: cs)
  end.

Definition VolumeConfigurations (d : ResourceData)
    : outcome (list SDK.VolumeConfiguration) :=
  configuredVolumes <-! asList (Get d TypeSet "ebs_volume");
  VolumeConfigurations_loop configuredVolumes.

(** One round of the loop of [SetVolumeConfigurations], for an element
    [config] of [v] that is not nil. *)
Definition SetVolumeConfigurations_at (config : SDK.VolumeConfiguration)
    : gmap string value :=
  let data : gmap string value := ∅ in
  let data := <["iops" := VInt (default 0%Z (SDK.Iops config))]> data in
  let data := from_option (fun x => <["mount_point" := VString x]> data) data
                (SDK.MountPoint config) in
  let data := from_option (fun x => <["number_of_disks" := VInt x]> data) data
                (SDK.NumberOfDisks config) in
  let data := from_option (fun x => <["raid_level" := VString (Strconv.Itoa x)]> data) data
                (SDK.RaidLevel config) in
  let data := from_option (fun x => <["size" := VInt x]> data) data
                (SDK.Size config) in
  let data := from_option (fun x => <["type" := VString x]> data) data
                (SDK.VolumeType config) in
  let data := from_option (fun x => <["encrypted" := VBool x]> data) data
                (SDK.Encrypted config) in
  data.

(** The loop of [SetVolumeConfigurations]: [config.Iops] on a nil element
    of [v] is a nil dereference. *)
Fixpoint SetVolumeConfigurations_loop (v : list (option SDK.VolumeConfiguration))
    : outcome (list (gmap string value)) :=
  match v with
  | [] => Ok []
  | None :: _ => Panic NilDereference
  | Some config :: rest =>
      newValue <-! SetVolumeConfigurations_loop rest;
      Ok (SetVolumeConfigurations_at config :: newValue)
  end.

(** What the set of [ebs_volume] holds for the record [data]: the SDK
    writes and reads back every field of the nested resource
    ([SchemaResource], the [Elem] of [ebs_volume]), so that a field [data]
    has no entry for has the zero value of its type. *)
Definition ebsVolumeItem (data : gmap string value) : gmap string value :=
  <["iops" := default (VInt 0) (data !! "iops")]>
  (<["mount_point" := default (VString "") (data !! "mount_point")]>
  (<["number_of_disks" := default (VInt 0) (data !! "number_of_disks")]>
  (<["raid_level" := default (VString "") (data !! "raid_level")]>
  (<["size" := default (VInt 0) (data !! "size")]>
  (<["type" := default (VString "") (data !! "type")]>
  (<["encrypted" := default (VBool false) (data !! "encrypted")]> ∅)))))).

(** Collaborators of the adapter that live in other packages of the
    provider: the [flex] conversions between a field's elements and the
    SDK's string lists, [structure.NormalizeJsonString], the tag policy of
    the provider configuration, and the connection to the service. *)
Section Adapter.

Variable ExpandStringList : list elem -> list string.
Variable ExpandStringSet : list elem -> list string.
Variable FlattenStringList : list string -> list elem.
Variable NormalizeJsonString : string -> error + string.
Variable IgnoreTags : gmap string string -> gmap string string.
Variable RemoveDefaultConfig : gmap string string -> gmap string string.
Variable conn : SDK.OpsWorks.

(** [create.StringHashcode] of the provider, and [schema.HashString] of
    the SDK on the elements [FlattenStringList] returns. *)
Variable StringHashcode : string -> Z.
Variable HashString : elem -> Z.

(** The [Set] function of [ebs_volume] in [SchemaResource]. *)
Definition ebsVolumeHash (v : elem) : outcome Z :=
  m <-! asObject v;
  mount_point <-! keyString m "mount_point";
  Ok (StringHashcode mount_point).

(** [d.Set] of a list of strings on a set of strings. *)
Definition SetStringSet (d : ResourceData) (key : string) (items : list elem)
    : ResourceData :=
  Set_ d key
    (Some (FList (SchemaSet.List
                    (SchemaSet.of_list
                       ((fun item => (SchemaSet.code (HashString item), item)) <$> items))))).

Definition SetVolumeConfigurations (d : ResourceData)
    (v : list (option SDK.VolumeConfiguration)) : outcome ResourceData :=
  newValue <-! SetVolumeConfigurations_loop v;
  volumes <-! SchemaSet.written ebsVolumeHash ((EObject ∘ ebsVolumeItem) <$> newValue);
  Ok (Set_ d "ebs_volume" (Some (FList volumes))).

Definition CustomRecipes (d : ResourceData) : outcome SDK.Recipes :=
  configure <-! asList (Get d TypeList "custom_configure_recipes");
  deploy <-! asList (Get d TypeList "custom_deploy_recipes");
  setup <-! asList (Get d TypeList "custom_setup_recipes");
  shutdown <-! asList (Get d TypeList "custom_shutdown_recipes");
  undeploy <-! asList (Get d TypeList "custom_undeploy_recipes");
  Ok {| SDK.Configure := ExpandStringList configure;
        SDK.Deploy := ExpandStringList deploy;
        SDK.Setup := ExpandStringList setup;
        SDK.Shutdown := ExpandStringList shutdown;
        SDK.Undeploy := ExpandStringList undeploy |}.

Definition SetCustomRecipes (d : ResourceData) (v : option SDK.Recipes) : ResourceData :=
  (* Null out everything first, and then we'll consider what to put back. *)
  let d := Set_ d "custom_configure_recipes" None in
  let d := Set_ d "custom_deploy_recipes" None in
  let d := Set_ d "custom_setup_recipes" None in
  let d := Set_ d "custom_shutdown_recipes" None in
  let d := Set_ d "custom_undeploy_recipes" None in
  match v with
  | None => d
  | Some v =>
      let d := Set_ d "custom_configure_recipes" (Some (FList (FlattenStringList (SDK.Configure v)))) in
      let d := Set_ d "custom_deploy_recipes" (Some (FList (FlattenStringList (SDK.Deploy v)))) in
      let d := Set_ d "custom_setup_recipes" (Some (FList (FlattenStringList (SDK.Setup v)))) in
      let d := Set_ d "custom_shutdown_recipes" (Some (FList (FlattenStringList (SDK.Shutdown v)))) in
      Set_ d "custom_undeploy_recipes" (Some (FList (FlattenStringList (SDK.Undeploy v))))
  end.

(** [resp.Layers[0]] followed by the first access to a field of [layer]:
    an empty list is an index out of range, a nil element a nil
    dereference. *)
Definition firstLayer (layers : list (option SDK.Layer.t)) : outcome SDK.Layer.t :=
  match layers with
  | [] => Panic IndexOutOfRange
  | None :: _ => Panic NilDereference
  | Some layer :: _ => Ok layer
  end.

Definition Read (lt : opsworksLayerType) : M unit :=
  (d <- getD ;;
   resp <- send (SDK.DescribeLayers [Id d])
                (fun sent => SDK.onDescribeLayers conn sent [Id d]) ;;
   match resp with
   | inl err =>
       if negb (IsNewResource d) && ErrCodeEquals err SDK.ErrCodeResourceNotFoundException
       then modD (fun d => SetId d "")
       else fail (Wrapf ("error reading OpsWorks layer (" ++ Id d ++ ")") err)
   | inr layers =>
       layer <- lift (firstLayer layers) ;;
       modD (fun d => SetId d (SDK.StringValue (SDK.Layer.LayerId layer))) ;;
       modD (fun d => SetBool d "auto_assign_elastic_ips" (SDK.Layer.AutoAssignElasticIps layer)) ;;
       modD (fun d => SetBool d "auto_assign_public_ips" (SDK.Layer.AutoAssignPublicIps layer)) ;;
       modD (fun d => SetString d "custom_instance_profile_arn" (SDK.Layer.CustomInstanceProfileArn layer)) ;;
       modD (fun d => SetStringSet d "custom_security_group_ids"
                        (FlattenStringList (SDK.Layer.CustomSecurityGroupIds layer))) ;;
       modD (fun d => SetBool d "auto_healing" (SDK.Layer.EnableAutoHealing layer)) ;;
       modD (fun d => SetBool d "install_updates_on_boot" (SDK.Layer.InstallUpdatesOnBoot layer)) ;;
       modD (fun d => SetString d "name" (SDK.Layer.Name layer)) ;;
       modD (fun d => SetStringSet d "system_packages"
                        (FlattenStringList (SDK.Layer.Packages layer))) ;;
       modD (fun d => SetString d "stack_id" (SDK.Layer.StackId layer)) ;;
       modD (fun d => SetBool d "use_ebs_optimized_instances" (SDK.Layer.UseEbsOptimizedInstances layer)) ;;
       when (CustomShortName lt)
         (modD (fun d => SetString d "short_name" (SDK.Layer.Shortname layer))) ;;
       match SDK.Layer.CustomJson layer with
       | None => modD (fun d => SetString d "custom_json" (Some ""))
       | Some json =>
           match NormalizeJsonString json with
           | inl err => fail (Wrapf "policy contains an invalid JSON" err)
           | inr policy => modD (fun d => SetString d "custom_json" (Some policy))
           end
       end ;;
       d <- getD ;;
       let '(d', err) := SetAttributeMap lt d (SDK.Layer.Attributes layer) in
       modD (fun _ => d') ;;
       check err ;;
       modD (fun d => SetLifecycleEventConfiguration d (SDK.Layer.LifecycleEventConfiguration layer)) ;;
       modD (fun d => SetCustomRecipes d (SDK.Layer.CustomRecipes layer)) ;;
       d <- getD ;;
       d' <- lift (SetVolumeConfigurations d (SDK.Layer.VolumeConfigurations layer)) ;;
       modD (fun _ => d') ;;
       (* get ELB *)
       d <- getD ;;
       loadBalancers <- send (SDK.DescribeElasticLoadBalancers [Id d])
                             (fun sent => SDK.onDescribeElasticLoadBalancers conn sent [Id d]) ;;
       match loadBalancers with
       | inl err => fail err
       | inr [] => modD (fun d => SetString d "elastic_load_balancer" (Some ""))
       | inr (Some loadBalancer :: _) =>
           modD (fun d => SetString d "elastic_load_balancer"
                            (SDK.ElasticLoadBalancerName loadBalancer))
       | inr (None :: _) => ret tt
       end ;;
       let arn := SDK.StringValue (SDK.Layer.Arn layer) in
       modD (fun d => SetString d "arn" (Some arn)) ;;
       tags <- send (SDK.ListTags arn) (fun sent => SDK.onListTags conn sent arn) ;;
       match tags with
       | inl err =>
           fail (Wrapf ("error listing tags for Opsworks Layer (" ++ arn ++ ")") err)
       | inr tags =>
           let tags := IgnoreTags tags in
           modD (fun d => Set_ d "tags" (Some (FMap (RemoveDefaultConfig tags)))) ;;
           modD (fun d => Set_ d "tags_all" (Some (FMap tags)))
       end
   end)%go.

(** The [UpdateLayerInput] that [Update] builds from the local state and
    the attribute bag. *)
Definition UpdateLayerRequest (lt : opsworksLayerType) (d : ResourceData)
    (attributes : bag) : outcome SDK.UpdateLayerInput.t :=
  autoAssignElasticIps <-! asBool (Get d TypeBool "auto_assign_elastic_ips");
  autoAssignPublicIps <-! asBool (Get d TypeBool "auto_assign_public_ips");
  customInstanceProfileArn <-! asString (Get d TypeString "custom_instance_profile_arn");
  customRecipes <-! CustomRecipes d;
  customSecurityGroupIds <-! asList (Get d TypeSet "custom_security_group_ids");
  enableAutoHealing <-! asBool (Get d TypeBool "auto_healing");
  installUpdatesOnBoot <-! asBool (Get d TypeBool "install_updates_on_boot");
  lifecycleEventConfiguration <-! LifecycleEventConfiguration d;
  name <-! asString (Get d TypeString "name");
  packages <-! asList (Get d TypeSet "system_packages");
  useEbsOptimizedInstances <-! asBool (Get d TypeBool "use_ebs_optimized_instances");
  volumeConfigurations <-! VolumeConfigurations d;
  shortname <-! (if CustomShortName lt
                 then asString (Get d TypeString "short_name")
                 else Ok (TypeName lt));
  customJson <-! asString (Get d TypeString "custom_json");
  Ok {| SDK.UpdateLayerInput.LayerId := Id d;
        SDK.UpdateLayerInput.AutoAssignElasticIps := autoAssignElasticIps;
        SDK.UpdateLayerInput.AutoAssignPublicIps := autoAssignPublicIps;
        SDK.UpdateLayerInput.CustomInstanceProfileArn := customInstanceProfileArn;
        SDK.UpdateLayerInput.CustomRecipes := customRecipes;
        SDK.UpdateLayerInput.CustomSecurityGroupIds := ExpandStringSet customSecurityGroupIds;
        SDK.UpdateLayerInput.EnableAutoHealing := enableAutoHealing;
        SDK.UpdateLayerInput.InstallUpdatesOnBoot := installUpdatesOnBoot;
        SDK.UpdateLayerInput.LifecycleEventConfiguration := lifecycleEventConfiguration;
        SDK.UpdateLayerInput.Name := name;
        SDK.UpdateLayerInput.Packages := ExpandStringSet packages;
        SDK.UpdateLayerInput.UseEbsOptimizedInstances := useEbsOptimizedInstances;
        SDK.UpdateLayerInput.Attributes := attributes;
        SDK.UpdateLayerInput.VolumeConfigurations := volumeConfigurations;
        SDK.UpdateLayerInput.Shortname := shortname;
        SDK.UpdateLayerInput.CustomJson := customJson |}.

Definition Update (lt : opsworksLayerType) : M unit :=
  (d <- getD ;;
   attributes <- lift (AttributeMap lt d) ;;
   req <- lift (UpdateLayerRequest lt d attributes) ;;
   when (HasChange d TypeString "elastic_load_balancer")
     (let '(lbo, lbn) := GetChange d TypeString "elastic_load_balancer" in
      loadBalancerOld <- lift (asString lbo) ;;
      loadBalancerNew <- lift (asString lbn) ;;
      when (negb (String.eqb loadBalancerOld ""))
        (err <- send (SDK.DetachElasticLoadBalancer loadBalancerOld (Id d))
                     (fun sent => SDK.onDetachElasticLoadBalancer conn sent loadBalancerOld (Id d)) ;;
         check err) ;;
      when (negb (String.eqb loadBalancerNew ""))
        (err <- send (SDK.AttachElasticLoadBalancer loadBalancerNew (Id d))
                     (fun sent => SDK.onAttachElasticLoadBalancer conn sent loadBalancerNew (Id d)) ;;
         check err)) ;;
   err <- send (SDK.UpdateLayer req) (fun sent => SDK.onUpdateLayer conn sent req) ;;
   check err ;;
   when (HasChange d TypeMap "tags_all")
     (let '(o, n) := GetChange d TypeMap "tags_all" in
      arn <- lift (asString (Get d TypeString "arn")) ;;
      err <- send (SDK.UpdateTags arn o n) (fun sent => SDK.onUpdateTags conn sent arn o n) ;;
      match err with
      | Some err => fail (Wrapf ("error updating Opsworks Layer (" ++ arn ++ ") tags") err)
      | None => ret tt
      end) ;;
   Read lt)%go.

End Adapter.

End OpsWorks.

(** ** internal/service/ec2/vpc_ipam_pool_data_source.go *)

Module EC2.
Import Schema Assert.

Record IpamResourceTag : Type := mkIpamResourceTag {
  Key : option string;
  Value : option string;
}.

(** [ec2.IpamPool], the fields the data source reads. *)
Record IpamPool : Type := mkIpamPool {
  AllocationResourceTags : list IpamResourceTag;
  AutoImport : option bool;
  AwsService : option string;
  Description : option string;
  IpamPoolArn : option string;
  IpamPoolId : option string;
  IpamScopeArn : option string;
  IpamScopeType : option string;
  Locale : option string;
  PoolDepth : option Z;
  PubliclyAdvertisable : option bool;
  SourceIpamPoolId : option string;
  State : option string;
}.

Section DataSource.

(** [ec2.Filter] and [BuildFiltersDataSource], and the conversion of the
    allocation tags to a map of strings
    ([KeyValueTags(ec2TagsFromIpamAllocationTags(...)).Map()]), are defined
    elsewhere in the package. *)
Variable Filter : Type.
Variable BuildFiltersDataSource : list elem -> list Filter.
Variable AllocationTagsMap : list IpamResourceTag -> gmap string string.

Record DescribeIpamPoolsInput : Type := mkDescribeIpamPoolsInput {
  IpamPoolIds : list string;
  Filters : list Filter;
}.

(** [conn.DescribeIpamPools]: an error, or the output, which may be nil
    and whose [IpamPools] are pointers in the order the service returned
    the records. *)
Variable DescribeIpamPools :
  DescribeIpamPoolsInput -> error + option (list (option IpamPool)).

(** The request [dataSourceVPCIpamPoolRead] builds from the configuration. *)
Definition describeInput (d : ResourceData) : outcome DescribeIpamPoolsInput :=
  ids <-! (let '(v, ok) := GetOk d TypeString "ipam_pool_id" in
           if ok then (s <-! asString v; Ok [s]) else Ok []);
  fs <-! (let '(filters, filtersOk) := GetOk d TypeSet "filter" in
          if filtersOk then (l <-! asList filters; Ok (BuildFiltersDataSource l))
          else Ok []);
  Ok (mkDescribeIpamPoolsInput ids fs).

(** Element [1] of [strings.Split] of the dereferenced [pool.IpamScopeArn]
    on the separator ["/"]: a nil pointer and an index out of range both
    panic. *)
Definition scopeIdOf (pool : IpamPool) : outcome string :=
  match IpamScopeArn pool with
  | None => Panic NilDereference
  | Some arn =>
      match Strings.Split arn "/" !! 1%nat with
      | Some scopeId => Ok scopeId
      | None => Panic IndexOutOfRange
      end
  end.

(** The read: the [ResourceData] as it is left, and how the call ends. *)
Definition dataSourceVPCIpamPoolRead (d : ResourceData) : ResourceData * outcome unit :=
  match describeInput d with
  | Panic p => (d, Panic p)
  | Err e => (d, Err e)
  | Ok input =>
      match DescribeIpamPools input with
      | inl err => (d, Err err)
      | inr None | inr (Some []) | inr (Some (None :: _)) => (d, Ok tt)
      | inr (Some (Some pool :: _)) =>
          let d := SetId d (SDK.StringValue (IpamPoolId pool)) in
          let d := match PubliclyAdvertisable pool with
                   | Some b => SetBool d "publicly_advertisable" (Some b)
                   | None => d
                   end in
          match scopeIdOf pool with
          | Panic p => (d, Panic p)
          | Err e => (d, Err e)
          | Ok scopeId =>
              let d := Set_ d "allocation_resource_tags"
                         (Some (FMap (AllocationTagsMap (AllocationResourceTags pool)))) in
              let d := SetBool d "auto_import" (AutoImport pool) in
              let d := SetString d "arn" (IpamPoolArn pool) in
              let d := SetString d "description" (Description pool) in
              let d := SetString d "ipam_scope_id" (Some scopeId) in
              let d := SetString d "ipam_scope_type" (IpamScopeType pool) in
              let d := SetString d "locale" (Locale pool) in
              let d := SetInt d "pool_depth" (PoolDepth pool) in
              let d := SetString d "aws_service" (AwsService pool) in
              let d := SetString d "source_ipam_pool_id" (SourceIpamPoolId pool) in
              let d := SetString d "state" (State pool) in
              (d, Ok tt)
          end
      end
  end.

End DataSource.

End EC2.

(** * The vocabulary of the properties *)

Module Spec.
Import Schema Assert Effects OpsWorks.

(** ** Strings *)

(** The segments put back together with the separator between them. *)
Fixpoint Join (segments : list string) (sep : ascii) : string :=
  match segments with
  | [] => ""
  | [s] => s
  | s :: rest => s ++ String sep (Join rest sep)
  end.

(** [sep] occurs in [s]. *)
Definition Contains (s : string) (sep : ascii) : Prop :=
  In sep (list_ascii_of_string s).

(** ** Layer type descriptors and local states *)

(** The value types the projection handles. *)
Definition supported (t : ValueType) : Prop :=
  t = TypeString \/ t = TypeInt \/ t = TypeBool.

#[global] Instance supported_dec (t : ValueType) : Decision (supported t).
Proof. unfold supported. apply _. Defined.

(** A field holds a value of the Go type its schema type stands for: a
    [string], an [int] or a [bool]. *)
Definition has_type (t : ValueType) (f : field) : Prop :=
  match t with
  | TypeString => exists s, f = FValue (VString s)
  | TypeInt => exists n, f = FValue (VInt n) /\ Strconv.is_int n
  | TypeBool => exists b, f = FValue (VBool b)
  | _ => True
  end.

(** The local state gives every attribute of the descriptor a value of its
    declared type, as a [ResourceData] built for the schema of
    [SchemaResource] does. *)
Definition state_typed (lt : opsworksLayerType) (d : ResourceData) : Prop :=
  forall key def, (key, def) ∈ Attributes lt ->
                  has_type (Type_ def) (Get d (Type_ def) key).

(** The local and the remote keys of a descriptor, in iteration order. *)
Definition local_keys (entries : list (string * opsworksLayerTypeAttribute))
    : list string :=
  (fun e => e.1) <$> entries.

Definition remote_names (entries : list (string * opsworksLayerTypeAttribute))
    : list string :=
  (fun e => AttrName e.2) <$> entries.

(** The local keys of a descriptor are the keys of a Go map: each occurs
    once. *)
Definition wf_attributes (lt : opsworksLayerType) : Prop :=
  NoDup (local_keys (Attributes lt)).

(** The data model's invariant: one local key maps to one remote key. *)
Definition one_to_one (lt : opsworksLayerType) : Prop :=
  NoDup (remote_names (Attributes lt)).

(** The serialisation the write direction is specified to perform: a
    string unchanged, an integer in decimal, a boolean as one of the two
    literal tokens. *)
Definition encode (v : value) : string :=
  match v with
  | VString s => s
  | VInt n => Strconv.Itoa n
  | VBool true => "true"
  | VBool false => "false"
  end.

(** What the read direction is specified to leave in a field of type [t]
    whose bag entry is [strValue]; [None] is a cleared field. *)
Definition decoded (t : ValueType) (strValue : string) : option field :=
  match t with
  | TypeString => Some (FValue (VString strValue))
  | TypeInt => FValue ∘ VInt <$> Strconv.Atoi strValue
  | TypeBool => Some (FValue (VBool (bool_decide (strValue <> "false"))))
  | _ => None
  end.

(** A bag entry that is present and non-nil. *)
Definition present (attrs : bag) (def : opsworksLayerTypeAttribute) : Prop :=
  exists strValue, attrs !! AttrName def = Some (Some strValue).

(** An entry after which the [range] of [SetAttributeMap] goes on to the
    next: a write-only attribute, or one the bag has no value for. *)
Definition passed_over (attrs : bag) (e : string * opsworksLayerTypeAttribute) : Prop :=
  WriteOnly e.2 = true \/ ~ present attrs e.2.

(** An element of [ebs_volume] as the schema of [SchemaResource] types
    it: a map with the seven keys, each holding a value of its type. *)
Definition volume_typed (v : elem) : Prop :=
  exists m mount_point number_of_disks size type encrypted iops raid_level,
    v = EObject m /\
    m !! "mount_point" = Some (VString mount_point) /\
    m !! "number_of_disks" = Some (VInt number_of_disks) /\
    m !! "size" = Some (VInt size) /\
    m !! "type" = Some (VString type) /\
    m !! "encrypted" = Some (VBool encrypted) /\
    m !! "iops" = Some (VInt iops) /\
    m !! "raid_level" = Some (VString raid_level).

(** ** Requests *)

(** The load-balancer requests: attach and detach. *)
Definition is_lb_call (c : SDK.call) : bool :=
  match c with
  | SDK.AttachElasticLoadBalancer _ _ | SDK.DetachElasticLoadBalancer _ _ => true
  | _ => false
  end.

(** The load-balancer requests among those sent. *)
Definition lb_calls (w : world) : list SDK.call :=
  List.filter is_lb_call (w_calls w).

(** [m] sends no load-balancer request: the requests it adds are all of
    another kind. *)
Definition sends_no_lb {A : Type} (m : M A) : Prop :=
  forall w, exists others,
    w_calls (m w).1 = (w_calls w ++ others)%list /\
    Forall (fun c => is_lb_call c = false) others.

(** On [conn], after the requests [sent], the detach request for the
    non-empty identifier [old] fails. *)
Definition detach_fails (conn : SDK.OpsWorks) (sent : list SDK.call)
    (id old : string) : bool :=
  if decide (old = "") then false
  else bool_decide (is_Some (SDK.onDetachElasticLoadBalancer conn sent old id)).

End Spec.

(** * Layer types, local states and services to evaluate the adapter on *)

Module Fixtures.
Import Schema Assert Effects OpsWorks EC2.

(** ** An HAProxy-like layer type with a memory setting: a boolean, two
    strings (one of them write-only) and an integer attribute *)

Definition stats_enabled : opsworksLayerTypeAttribute :=
  mkAttribute "EnableHaproxyStats" TypeBool (Some (FValue (VBool true))) false false.
Definition stats_url : opsworksLayerTypeAttribute :=
  mkAttribute "HaproxyStatsUrl" TypeString (Some (FValue (VString "/haproxy?stats"))) false false.
Definition stats_password : opsworksLayerTypeAttribute :=
  mkAttribute "HaproxyStatsPassword" TypeString None true true.
Definition allocated_memory : opsworksLayerTypeAttribute :=
  mkAttribute "MemcachedMemory" TypeInt (Some (FValue (VInt 512))) false false.

Definition example_layer : opsworksLayerType :=
  mkLayerType "lb" "HAProxy"
    [("stats_enabled", stats_enabled); ("stats_url", stats_url);
     ("stats_password", stats_password); ("allocated_memory", allocated_memory)]
    false.

(** The same attribute map when the [range] visits [stats_url] first. *)
Definition example_layer_url_first : opsworksLayerType :=
  mkLayerType "lb" "HAProxy"
    [("stats_url", stats_url); ("stats_enabled", stats_enabled);
     ("stats_password", stats_password); ("allocated_memory", allocated_memory)]
    false.

(** A layer type whose descriptor declares a type the projection does not
    handle. *)
Definition broken_layer : opsworksLayerType :=
  mkLayerType "custom" "" [("ratio", mkAttribute "Ratio" TypeFloat None false false)] true.

Definition example_state : ResourceData :=
  mkResourceData "layer-1" false ∅
    (<["stats_enabled" := FValue (VBool true)]>
       (<["stats_url" := FValue (VString "/stats")]>
          (<["stats_password" := FValue (VString "hunter2")]>
             (<["allocated_memory" := FValue (VInt 256)]> ∅)))).

(** The state of a layer that is being imported: nothing but its id. *)
Definition imported_state : ResourceData :=
  mkResourceData "layer-1" false ∅ ∅.

(** What the service returns for the layer after its settings were changed
    remotely: every attribute present, the write-only one as a placeholder. *)
Definition remote_bag : bag :=
  <["EnableHaproxyStats" := Some "false"]>
    (<["HaproxyStatsUrl" := Some "/new"]>
       (<["HaproxyStatsPassword" := Some "*****FILTERED*****"]>
          (<["MemcachedMemory" := Some "1024"]> ∅))).

(** A bag whose integer attribute is not a number. *)
Definition garbage_bag : bag :=
  <["EnableHaproxyStats" := Some "true"]>
    (<["MemcachedMemory" := Some "lots"]> ∅).

(** ** Volumes: one on provisioned IOPS with a RAID level, and one with
    neither (an IOPS of 0, a RAID level that is no number) *)

Definition volume (mount_point : string) (iops : Z) (raid_level : string)
    : gmap string value :=
  <["mount_point" := VString mount_point]>
    (<["number_of_disks" := VInt 2]>
       (<["size" := VInt 100]>
          (<["type" := VString "io1"]>
             (<["encrypted" := VBool false]>
                (<["iops" := VInt iops]>
                   (<["raid_level" := VString raid_level]> ∅)))))).

Definition example_volumes : list elem :=
  [EObject (volume "/data" 100 "5"); EObject (volume "/scratch" 0 "invalid")].

Definition volumes_state : ResourceData :=
  mkResourceData "layer-1" false ∅ (<["ebs_volume" := FList example_volumes]> ∅).

(** ** An OpsWorks service *)

(** Stand-ins for the [flex] conversions, [NormalizeJsonString] and the
    tag policy. *)
Definition strings_of (l : list elem) : list string :=
  omap (fun e => match e with EValue (VString s) => Some s | _ => None end) l.
Definition elems_of (l : list string) : list elem :=
  (fun s => EValue (VString s)) <$> l.
Definition json_ok (s : string) : error + string := inr s.
(** Stand-ins for the two hash functions. *)
Definition hash_of_string (s : string) : Z := Z.of_nat (String.length s).
Definition hash_of_elem (e : elem) : Z :=
  match e with
  | EValue (VString s) => hash_of_string s
  | _ => 0
  end.
Definition all_tags (tags : gmap string string) : gmap string string := tags.

Definition remote_layer : SDK.Layer.t :=
  {| SDK.Layer.Arn := Some "arn:aws:opsworks:us-east-1:123456789012:layer/layer-1";
     SDK.Layer.Attributes := remote_bag;
     SDK.Layer.AutoAssignElasticIps := Some false;
     SDK.Layer.AutoAssignPublicIps := Some true;
     SDK.Layer.CustomInstanceProfileArn := None;
     SDK.Layer.CustomJson := None;
     SDK.Layer.CustomRecipes := None;
     SDK.Layer.CustomSecurityGroupIds := [];
     SDK.Layer.EnableAutoHealing := Some true;
     SDK.Layer.InstallUpdatesOnBoot := Some true;
     SDK.Layer.LayerId := Some "layer-1";
     SDK.Layer.LifecycleEventConfiguration := None;
     SDK.Layer.Name := Some "HAProxy";
     SDK.Layer.Packages := [];
     SDK.Layer.Shortname := Some "lb";
     SDK.Layer.StackId := Some "stack-1";
     SDK.Layer.UseEbsOptimizedInstances := Some false;
     SDK.Layer.VolumeConfigurations := [] |}.

(** A service on which every request succeeds. *)
Definition healthy : SDK.OpsWorks :=
  {| SDK.onDescribeLayers := fun _ _ => inr [Some remote_layer];
     SDK.onDescribeElasticLoadBalancers := fun _ _ => inr [];
     SDK.onAttachElasticLoadBalancer := fun _ _ _ => None;
     SDK.onDetachElasticLoadBalancer := fun _ _ _ => None;
     SDK.onUpdateLayer := fun _ _ => None;
     SDK.onListTags := fun _ _ => inr ∅;
     SDK.onUpdateTags := fun _ _ _ _ => None |}.

Definition detach_error : error :=
  AwsError "ValidationException" "load balancer is not attached to the layer".

(** The same service, except that it refuses to detach. *)
Definition refusing_detach : SDK.OpsWorks :=
  {| SDK.onDescribeLayers := SDK.onDescribeLayers healthy;
     SDK.onDescribeElasticLoadBalancers := SDK.onDescribeElasticLoadBalancers healthy;
     SDK.onAttachElasticLoadBalancer := SDK.onAttachElasticLoadBalancer healthy;
     SDK.onDetachElasticLoadBalancer := fun _ _ _ => Some detach_error;
     SDK.onUpdateLayer := SDK.onUpdateLayer healthy;
     SDK.onListTags := SDK.onListTags healthy;
     SDK.onUpdateTags := SDK.onUpdateTags healthy |}.

(** The local state of a layer whose load balancer is changed from [old]
    to [new], every other field unset. *)
Definition lb_change (old new : string) : ResourceData :=
  mkResourceData "layer-1" false
    (<["elastic_load_balancer" := FValue (VString old)]> ∅)
    (<["elastic_load_balancer" := FValue (VString new)]> ∅).

(** [Update] of a layer of type [lt] on [conn], no request sent before. *)
Definition update_on (conn : SDK.OpsWorks) (lt : opsworksLayerType)
    (d : ResourceData) : world * outcome unit :=
  Update strings_of strings_of elems_of json_ok all_tags all_tags conn
    hash_of_string hash_of_elem lt (mkWorld d []).

(** The bag and the request of an update of [lb_change old new]. *)
Definition unset_attributes : bag :=
  <["EnableHaproxyStats" := Some "false"]>
    (<["HaproxyStatsUrl" := Some ""]>
       (<["HaproxyStatsPassword" := Some ""]>
          (<["MemcachedMemory" := Some "0"]> ∅))).

Definition unset_request : SDK.UpdateLayerInput.t :=
  {| SDK.UpdateLayerInput.LayerId := "layer-1";
     SDK.UpdateLayerInput.AutoAssignElasticIps := false;
     SDK.UpdateLayerInput.AutoAssignPublicIps := false;
     SDK.UpdateLayerInput.CustomInstanceProfileArn := "";
     SDK.UpdateLayerInput.CustomRecipes := SDK.mkRecipes [] [] [] [] [];
     SDK.UpdateLayerInput.CustomSecurityGroupIds := [];
     SDK.UpdateLayerInput.EnableAutoHealing := false;
     SDK.UpdateLayerInput.InstallUpdatesOnBoot := false;
     SDK.UpdateLayerInput.LifecycleEventConfiguration :=
       SDK.mkLifecycleEventConfiguration
         (Some (SDK.mkShutdownEventConfiguration (Some false) (Some 0%Z)));
     SDK.UpdateLayerInput.Name := "";
     SDK.UpdateLayerInput.Packages := [];
     SDK.UpdateLayerInput.UseEbsOptimizedInstances := false;
     SDK.UpdateLayerInput.Attributes := unset_attributes;
     SDK.UpdateLayerInput.VolumeConfigurations := [];
     SDK.UpdateLayerInput.Shortname := "lb";
     SDK.UpdateLayerInput.CustomJson := "" |}.

(** ** Pools and a lookup *)

Definition pool (id arn : string) : IpamPool :=
  {| AllocationResourceTags := [];
     AutoImport := Some false;
     AwsService := None;
     Description := Some ("pool " ++ id);
     IpamPoolArn := Some ("arn:aws:ec2::123456789012:ipam-pool/" ++ id);
     IpamPoolId := Some id;
     IpamScopeArn := Some arn;
     IpamScopeType := Some "private";
     Locale := Some "us-east-1";
     PoolDepth := Some 1%Z;
     PubliclyAdvertisable := None;
     SourceIpamPoolId := None;
     State := Some "create-complete" |}.

Definition first_pool : IpamPool :=
  pool "ipam-pool-1" "arn:aws:ec2::123456789012:ipam-scope/ipam-scope-0a1b2c".
Definition second_pool : IpamPool :=
  pool "ipam-pool-2" "arn:aws:ec2::123456789012:ipam-scope/ipam-scope-9z8y7x".
(** A record whose scope ARN has no path separator. *)
Definition malformed_pool : IpamPool :=
  pool "ipam-pool-3" "ipam-scope-0a1b2c".

(** A configuration with no [ipam_pool_id] and no [filter]. *)
Definition no_filters : ResourceData := mkResourceData "" true ∅ ∅.

(** Stand-ins for [BuildFiltersDataSource] and the tag conversion. *)
Definition filter_values (l : list elem) : list (string * list string) := [].
Definition no_tags (l : list IpamResourceTag) : gmap string string := ∅.

(** A service that answers every query with the given records. *)
Definition returning (pools : list (option IpamPool))
    (input : DescribeIpamPoolsInput (string * list string))
    : error + option (list (option IpamPool)) :=
  inr (Some pools).

(** The lookup with no filter on a service that returns [pools]. *)
Definition lookup (pools : list (option IpamPool)) : ResourceData * outcome unit :=
  dataSourceVPCIpamPoolRead (string * list string) filter_values no_tags
    (returning pools) no_filters.

End Fixtures.
(** * The rest of layers.go: the schema, [Create] and [Delete] *)

Module LayerResource.
Import Schema Assert Effects OpsWorks.

(** ** [SchemaResource] *)

(** A field of the nested resource of a set: its type, whether it is
    optional or required, and its default. *)
Record nestedSchema : Type := mkNested {
  n_Type : ValueType;
  n_Optional : bool;
  n_Required : bool;
  n_Default : option field;
}.

(** [Elem]: the schema of the elements of a list or set, or the resource
    they are. *)
Inductive elemSchema : Type :=
| ElemSchema (t : ValueType)
| ElemResource (fields : gmap string nestedSchema).

(** [schema.Schema], the fields [SchemaResource] gives by value; the
    functions it attaches to some ([ValidateFunc], [StateFunc], [Set]) are
    not part of the embedding.  A field the literal leaves out has its Go
    zero value: [false], or nil for [Default] and [Elem]. *)
Record schema : Type := mkSchema {
  s_Type : ValueType;
  s_Optional : bool;
  s_Required : bool;
  s_Computed : bool;
  s_ForceNew : bool;
  s_Default : option field;
  s_Elem : option elemSchema;
}.

Definition optional (t : ValueType) (default : option field) (elem : option elemSchema)
    : schema :=
  mkSchema t true false false false default elem.

(** The nested resource of [ebs_volume]. *)
Definition ebs_volume_fields : gmap string nestedSchema :=
  <["iops" := mkNested TypeInt true false (Some (FValue (VInt 0)))]>
  (<["mount_point" := mkNested TypeString false true None]>
  (<["number_of_disks" := mkNested TypeInt false true None]>
  (<["raid_level" := mkNested TypeString true false (Some (FValue (VString "")))]>
  (<["size" := mkNested TypeInt false true None]>
  (<["type" := mkNested TypeString true false (Some (FValue (VString "standard")))]>
  (<["encrypted" := mkNested TypeBool true false (Some (FValue (VBool false)))]> ∅)))))).

Section Schema.

(** [tftags.TagsSchema()] and [tftags.TagsSchemaComputed()], of the
    provider's tags package. *)
Variable TagsSchema : schema.
Variable TagsSchemaComputed : schema.

(** The map literal [resourceSchema] starts from. *)
Definition resourceSchema : gmap string schema :=
  <["auto_assign_elastic_ips" := optional TypeBool (Some (FValue (VBool false))) None]>
  (<["auto_assign_public_ips" := optional TypeBool (Some (FValue (VBool false))) None]>
  (<["custom_instance_profile_arn" := optional TypeString None None]>
  (<["elastic_load_balancer" := optional TypeString None None]>
  (<["custom_setup_recipes" := optional TypeList None (Some (ElemSchema TypeString))]>
  (<["custom_configure_recipes" := optional TypeList None (Some (ElemSchema TypeString))]>
  (<["custom_deploy_recipes" := optional TypeList None (Some (ElemSchema TypeString))]>
  (<["custom_undeploy_recipes" := optional TypeList None (Some (ElemSchema TypeString))]>
  (<["custom_shutdown_recipes" := optional TypeList None (Some (ElemSchema TypeString))]>
  (<["custom_security_group_ids" := optional TypeSet None (Some (ElemSchema TypeString))]>
  (<["custom_json" := optional TypeString None None]>
  (<["auto_healing" := optional TypeBool (Some (FValue (VBool true))) None]>
  (<["install_updates_on_boot" := optional TypeBool (Some (FValue (VBool true))) None]>
  (<["instance_shutdown_timeout" := optional TypeInt (Some (FValue (VInt 120))) None]>
  (<["drain_elb_on_shutdown" := optional TypeBool (Some (FValue (VBool true))) None]>
  (<["system_packages" := optional TypeSet None (Some (ElemSchema TypeString))]>
  (<["stack_id" := mkSchema TypeString false true false true None None]>
  (<["use_ebs_optimized_instances" := optional TypeBool (Some (FValue (VBool false))) None]>
  (<["ebs_volume" := optional TypeSet None (Some (ElemResource ebs_volume_fields))]>
  (<["arn" := mkSchema TypeString false false true false None None]>
  (<["tags" := TagsSchema]>
  (<["tags_all" := TagsSchemaComputed]> ∅))))))))))))))))))))).

(** The schema entry the loop builds for an attribute. *)
Definition attributeSchema (def : opsworksLayerTypeAttribute) : schema :=
  {| s_Type := Type_ def;
     s_Default := Default def;
     s_Required := Required def;
     s_Optional := negb (Required def);
     s_Computed := false;
     s_ForceNew := false;
     s_Elem := None |}.

(** The [Schema] of the resource [SchemaResource] returns; its [Read],
    [Create], [Update] and [Delete] are the methods of the layer type. *)
Definition SchemaResource (lt : opsworksLayerType) : gmap string schema :=
  let resourceSchema := resourceSchema in
  let resourceSchema :=
    if CustomShortName lt
    then <["short_name" := mkSchema TypeString false true false false None None]> resourceSchema
    else resourceSchema in
  let resourceSchema :=
    if negb (String.eqb (DefaultLayerName lt) "")
    then <["name" := optional TypeString (Some (FValue (VString (DefaultLayerName lt)))) None]>
           resourceSchema
    else <["name" := mkSchema TypeString false true false false None None]> resourceSchema in
  foldl (fun resourceSchema '(key, def) => <[key := attributeSchema def]> resourceSchema)
    resourceSchema (Attributes lt).

End Schema.

(** ** [Create] *)

Module CreateLayerInput.
Record t : Type := mk {
  AutoAssignElasticIps : bool;
  AutoAssignPublicIps : bool;
  CustomInstanceProfileArn : string;
  CustomRecipes : SDK.Recipes;
  CustomSecurityGroupIds : list string;
  EnableAutoHealing : bool;
  InstallUpdatesOnBoot : bool;
  LifecycleEventConfiguration : SDK.LifecycleEventConfiguration;
  Name : string;
  Packages : list string;
  Type_ : string;
  StackId : string;
  UseEbsOptimizedInstances : bool;
  Attributes : gmap string (option string);
  VolumeConfigurations : list SDK.VolumeConfiguration;
  Shortname : string;
  CustomJson : string;
}.
End CreateLayerInput.

(** [v.(map[string]interface{})] on a field. *)
Definition asMap (f : field) : outcome (gmap string string) :=
  match f with FMap m => Ok m | _ => Panic TypeAssertion end.

(** [arn.ARN{...}.String()] of aws-sdk-go. *)
Definition ARN_String (partition service region accountID resource : string) : string :=
  "arn:" ++ partition ++ ":" ++ service ++ ":" ++ region ++ ":" ++ accountID
  ++ ":" ++ resource.

Section Adapter.

Variable ExpandStringList : list elem -> list string.
Variable ExpandStringSet : list elem -> list string.
Variable FlattenStringList : list string -> list elem.
Variable NormalizeJsonString : string -> error + string.
Variable IgnoreTags : gmap string string -> gmap string string.
Variable RemoveDefaultConfig : gmap string string -> gmap string string.
Variable conn : SDK.OpsWorks.
Variable StringHashcode : string -> Z.
Variable HashString : elem -> Z.

(** [defaultTagsConfig.MergeTags(tftags.New(...))] on the configured
    tags; the provider's partition, region and account; and the two
    requests of the service that [Create] and [Delete] alone send:
    [CreateLayer] answers with an error or with the [LayerId] pointer of its
    output, [DeleteLayer] with its error. *)
Variable MergeTags : gmap string string -> gmap string string.
Variable Partition Region AccountID : string.
Variable CreateLayer : CreateLayerInput.t -> error + option string.
Variable DeleteLayer : string -> option error.

(** The [CreateLayerInput] that [Create] builds. *)
Definition CreateLayerRequest (lt : opsworksLayerType) (d : ResourceData)
    (attributes : bag) : outcome CreateLayerInput.t :=
  autoAssignElasticIps <-! asBool (Get d TypeBool "auto_assign_elastic_ips");
  autoAssignPublicIps <-! asBool (Get d TypeBool "auto_assign_public_ips");
  customInstanceProfileArn <-! asString (Get d TypeString "custom_instance_profile_arn");
  customRecipes <-! CustomRecipes ExpandStringList d;
  customSecurityGroupIds <-! asList (Get d TypeSet "custom_security_group_ids");
  enableAutoHealing <-! asBool (Get d TypeBool "auto_healing");
  installUpdatesOnBoot <-! asBool (Get d TypeBool "install_updates_on_boot");
  lifecycleEventConfiguration <-! LifecycleEventConfiguration d;
  name <-! asString (Get d TypeString "name");
  packages <-! asList (Get d TypeSet "system_packages");
  stackId <-! asString (Get d TypeString "stack_id");
  useEbsOptimizedInstances <-! asBool (Get d TypeBool "use_ebs_optimized_instances");
  volumeConfigurations <-! VolumeConfigurations d;
  shortname <-! (if CustomShortName lt
                 then asString (Get d TypeString "short_name")
                 else Ok (TypeName lt));
  customJson <-! asString (Get d TypeString "custom_json");
  Ok {| CreateLayerInput.AutoAssignElasticIps := autoAssignElasticIps;
        CreateLayerInput.AutoAssignPublicIps := autoAssignPublicIps;
        CreateLayerInput.CustomInstanceProfileArn := customInstanceProfileArn;
        CreateLayerInput.CustomRecipes := customRecipes;
        CreateLayerInput.CustomSecurityGroupIds := ExpandStringSet customSecurityGroupIds;
        CreateLayerInput.EnableAutoHealing := enableAutoHealing;
        CreateLayerInput.InstallUpdatesOnBoot := installUpdatesOnBoot;
        CreateLayerInput.LifecycleEventConfiguration := lifecycleEventConfiguration;
        CreateLayerInput.Name := name;
        CreateLayerInput.Packages := ExpandStringSet packages;
        CreateLayerInput.Type_ := TypeName lt;
        CreateLayerInput.StackId := stackId;
        CreateLayerInput.UseEbsOptimizedInstances := useEbsOptimizedInstances;
        CreateLayerInput.Attributes := attributes;
        CreateLayerInput.VolumeConfigurations := volumeConfigurations;
        CreateLayerInput.Shortname := shortname;
        CreateLayerInput.CustomJson := customJson |}.

(** [Create].  The request to create the layer is the first the method
    sends; the requests that follow it are recorded as those of [Read] and
    [Update] are.  The old tags of the tag request are nil: no tags. *)
Definition Create (lt : opsworksLayerType) : M unit :=
  (d <- getD ;;
   configured <- lift (asMap (Get d TypeMap "tags")) ;;
   let tags := MergeTags configured in
   attributes <- lift (AttributeMap lt d) ;;
   req <- lift (CreateLayerRequest lt d attributes) ;;
   match CreateLayer req with
   | inl err => fail err
   | inr resp =>
       layerId <- lift (match resp with
                        | Some layerId => Ok layerId
                        | None => Panic NilDereference
                        end) ;;
       modD (fun d => SetId d layerId) ;;
       d <- getD ;;
       loadBalancer <- lift (asString (Get d TypeString "elastic_load_balancer")) ;;
       when (negb (String.eqb loadBalancer ""))
         (err <- send (SDK.AttachElasticLoadBalancer loadBalancer layerId)
                      (fun sent => SDK.onAttachElasticLoadBalancer conn sent loadBalancer layerId) ;;
          check err) ;;
       let arn := ARN_String Partition "opsworks" Region AccountID ("layer/" ++ Id d) in
       when (negb (size tags =? 0)%nat)
         (err <- send (SDK.UpdateTags arn (FMap ∅) (FMap tags))
                      (fun sent => SDK.onUpdateTags conn sent arn (FMap ∅) (FMap tags)) ;;
          match err with
          | Some err => fail (Wrapf ("error updating Opsworks stack (" ++ arn ++ ") tags") err)
          | None => ret tt
          end) ;;
       Read FlattenStringList NormalizeJsonString IgnoreTags RemoveDefaultConfig conn
         StringHashcode HashString lt
   end)%go.

(** [Delete]: the error of the one request, for the id of the state. *)
Definition Delete (d : ResourceData) : option error :=
  DeleteLayer (Id d).

End Adapter.

End LayerResource.

(** * The schema of the pool data source *)

Module PoolResource.
Import Schema LayerResource.

Section Schema.

(** [DataSourceFiltersSchema()] of the package, and the two tag schemas of
    the provider's tags package. *)
Variable DataSourceFiltersSchema : schema.
Variable TagsSchema : schema.
Variable TagsSchemaComputed : schema.

Definition computed (t : ValueType) : schema :=
  mkSchema t false false true false None None.

(** The [Schema] of the resource [DataSourceVPCIpamPool] returns; its
    [Read] is [dataSourceVPCIpamPoolRead]. *)
Definition DataSourceVPCIpamPool : gmap string schema :=
  <["filter" := DataSourceFiltersSchema]>
  (<["ipam_pool_id" := optional TypeString None None]>
  (<["arn" := computed TypeString]>
  (<["address_family" := computed TypeString]>
  (<["publicly_advertisable" := computed TypeBool]>
  (<["allocation_default_netmask_length" := computed TypeInt]>
  (<["allocation_max_netmask_length" := computed TypeInt]>
  (<["allocation_min_netmask_length" := computed TypeInt]>
  (<["allocation_resource_tags" := TagsSchema]>
  (<["auto_import" := computed TypeBool]>
  (<["aws_service" := computed TypeString]>
  (<["description" := computed TypeString]>
  (<["id" := optional TypeString None None]>
  (<["ipam_scope_id" := computed TypeString]>
  (<["ipam_scope_type" := computed TypeString]>
  (<["locale" := computed TypeString]>
  (<["pool_depth" := computed TypeInt]>
  (<["source_ipam_pool_id" := computed TypeString]>
  (<["state" := computed TypeString]>
  (<["tags" := TagsSchemaComputed]> ∅))))))))))))))))))).

End Schema.

End PoolResource.


(** * More vocabulary: what a method writes and sends *)

Module Coverage.
Import Schema Assert Effects OpsWorks LayerResource EC2 Spec Fixtures.

(** The local keys whose fields a read of the bag may write: those of the
    attributes that are not write-only. *)
Definition readable_keys (entries : list (string * opsworksLayerTypeAttribute))
    : list string :=
  local_keys (List.filter (fun e => negb (WriteOnly e.2)) entries).

(** [d.Set(key, nil)] for each of [keys]. *)
Definition clear_all (keys : list string) (d : ResourceData) : ResourceData :=
  foldl (fun d key => Set_ d key None) d keys.

(** A round of [AttributeMap] passes at this entry: the declared type is
    one of the three and the local value is of that Go type. *)
Definition encodable (d : ResourceData) (e : string * opsworksLayerTypeAttribute)
    : Prop :=
  match Type_ e.2 with
  | TypeString => exists s, Get d TypeString e.1 = FValue (VString s)
  | TypeInt => exists n, Get d TypeInt e.1 = FValue (VInt n)
  | TypeBool => exists b, Get d TypeBool e.1 = FValue (VBool b)
  | _ => False
  end.

(** The configuration [VolumeConfigurations] builds from the record the
    set of [ebs_volume] holds for [c]: a field that was nil comes back as
    the zero value of its type, but for the IOPS, where nil and 0 both come
    back as nil, and the RAID level, which stays nil. *)
Definition read_back (c : SDK.VolumeConfiguration) : SDK.VolumeConfiguration :=
  {| SDK.MountPoint := Some (default "" (SDK.MountPoint c));
     SDK.NumberOfDisks := Some (default 0%Z (SDK.NumberOfDisks c));
     SDK.Size := Some (default 0%Z (SDK.Size c));
     SDK.VolumeType := Some (default "" (SDK.VolumeType c));
     SDK.Encrypted := Some (default false (SDK.Encrypted c));
     SDK.Iops := match SDK.Iops c with
                 | Some 0%Z | None => None
                 | Some iops => Some iops
                 end;
     SDK.RaidLevel := SDK.RaidLevel c |}.

(** The RAID level of [c], when it has one, is a Go [int]. *)
Definition raid_level_int (c : SDK.VolumeConfiguration) : Prop :=
  forall raid_level, SDK.RaidLevel c = Some raid_level -> Strconv.is_int raid_level.

(** The code under which the set of [ebs_volume] keeps the record of [c]:
    that of the hash of its mount point. *)
Definition volume_code (StringHashcode : string -> Z) (c : SDK.VolumeConfiguration)
    : string :=
  SchemaSet.code (StringHashcode (default "" (SDK.MountPoint c))).

(** The five recipe lists. *)
Definition recipe_keys : list string :=
  ["custom_configure_recipes"; "custom_deploy_recipes"; "custom_setup_recipes";
   "custom_shutdown_recipes"; "custom_undeploy_recipes"].

(** The fields [Read] writes from the layer record before it turns to the
    custom JSON, and all the fields it may write. *)
Definition layer_keys (lt : opsworksLayerType) : list string :=
  ["auto_assign_elastic_ips"; "auto_assign_public_ips"; "custom_instance_profile_arn";
   "custom_security_group_ids"; "auto_healing"; "install_updates_on_boot"; "name";
   "system_packages"; "stack_id"; "use_ebs_optimized_instances"]
  ++ (if CustomShortName lt then ["short_name"] else []).

Definition read_keys (lt : opsworksLayerType) : list string :=
  layer_keys lt ++ ["custom_json"] ++ readable_keys (Attributes lt)
  ++ ["drain_elb_on_shutdown"; "instance_shutdown_timeout"] ++ recipe_keys
  ++ ["ebs_volume"; "elastic_load_balancer"; "arn"; "tags"; "tags_all"].

(** ** States that conform to a schema *)

(** The keys of the fields every layer type has. *)
Definition base_keys : list string :=
  ["auto_assign_elastic_ips"; "auto_assign_public_ips"; "custom_instance_profile_arn";
   "elastic_load_balancer"; "custom_setup_recipes"; "custom_configure_recipes";
   "custom_deploy_recipes"; "custom_undeploy_recipes"; "custom_shutdown_recipes";
   "custom_security_group_ids"; "custom_json"; "auto_healing";
   "install_updates_on_boot"; "instance_shutdown_timeout"; "drain_elb_on_shutdown";
   "system_packages"; "stack_id"; "use_ebs_optimized_instances"; "ebs_volume"; "arn";
   "tags"; "tags_all"; "short_name"; "name"].

(** A primitive of the Go type a schema type stands for. *)
Definition value_kind (t : ValueType) (v : value) : Prop :=
  match t, v with
  | TypeBool, VBool _ | TypeInt, VInt _ | TypeString, VString _ => True
  | _, _ => False
  end.

(** An element of a list or set as its [Elem] types it: a primitive, or a
    map that gives every field of the nested resource a value of its
    type. *)
Definition elem_conforms (es : elemSchema) (e : elem) : Prop :=
  match es with
  | ElemSchema t => exists v, e = EValue v /\ value_kind t v
  | ElemResource fields =>
      exists m, e = EObject m /\
        forall key n, fields !! key = Some n ->
          exists v, m !! key = Some v /\ value_kind (n_Type n) v
  end.

(** What [d.Get] returns for a field of schema [sch]. *)
Definition field_conforms (sch : schema) (f : field) : Prop :=
  match s_Type sch with
  | TypeBool => exists b, f = FValue (VBool b)
  | TypeInt => exists n, f = FValue (VInt n)
  | TypeString => exists s, f = FValue (VString s)
  | TypeList | TypeSet =>
      exists l, f = FList l /\
        forall es, s_Elem sch = Some es -> Forall (elem_conforms es) l
  | TypeMap => exists m, f = FMap m
  | _ => True
  end.

(** The local state conforms to the schema [s]: every field [s] declares
    reads as a value of its type. *)
Definition conforms (s : gmap string schema) (d : ResourceData) : Prop :=
  forall key sch, s !! key = Some sch -> field_conforms sch (Get d (s_Type sch) key).

(** The tag schemas of the provider, as far as the embedding holds
    them. *)
Definition tags_schema : schema := optional TypeMap None (Some (ElemSchema TypeString)).
Definition tags_schema_computed : schema :=
  mkSchema TypeMap true false true false None (Some (ElemSchema TypeString)).

(** The requests that read from the service and change nothing. *)
Definition is_read_call (c : SDK.call) : bool :=
  match c with
  | SDK.DescribeLayers _ | SDK.DescribeElasticLoadBalancers _ | SDK.ListTags _ => true
  | _ => false
  end.

Definition is_tag_update (c : SDK.call) : bool :=
  match c with
  | SDK.UpdateTags _ _ _ => true
  | _ => false
  end.

(** Every request [m] sends satisfies [allowed]. *)
Definition sends_only {A : Type} (allowed : SDK.call -> Prop) (m : M A) : Prop :=
  forall w, exists sent,
    w_calls (m w).1 = (w_calls w ++ sent)%list /\ Forall allowed sent.

(** [m] leaves the local state as it is and sends only requests that
    satisfy [allowed]. *)
Definition quiet {A : Type} (allowed : SDK.call -> Prop) (m : M A) : Prop :=
  forall w, exists sent,
    (m w).1 = mkWorld (w_d w) (w_calls w ++ sent) /\ Forall allowed sent.

(** [d'] is [d] but for the id and the fields [keys]. *)
Definition untouched (keys : list string) (d d' : ResourceData) : Prop :=
  rd_isNew d' = rd_isNew d /\ rd_state d' = rd_state d /\
  forall k, k ∉ keys -> rd_fields d' !! k = rd_fields d !! k.

(** [m] keeps the invariant [I] of the local state. *)
Definition preserves {A : Type} (I : ResourceData -> Prop) (m : M A) : Prop :=
  forall w, I (w_d w) -> I (w_d (m w).1).

(** A service that no longer has the layer, and one whose layer carries a
    custom JSON that [invalid_json] rejects. *)
Definition gone_error : error :=
  AwsError "ResourceNotFoundException" "Unable to find layer with ID layer-1".

Definition without_layer : SDK.OpsWorks :=
  {| SDK.onDescribeLayers := fun _ _ => inl gone_error;
     SDK.onDescribeElasticLoadBalancers := SDK.onDescribeElasticLoadBalancers healthy;
     SDK.onAttachElasticLoadBalancer := SDK.onAttachElasticLoadBalancer healthy;
     SDK.onDetachElasticLoadBalancer := SDK.onDetachElasticLoadBalancer healthy;
     SDK.onUpdateLayer := SDK.onUpdateLayer healthy;
     SDK.onListTags := SDK.onListTags healthy;
     SDK.onUpdateTags := SDK.onUpdateTags healthy |}.

Definition json_layer : SDK.Layer.t :=
  {| SDK.Layer.Arn := SDK.Layer.Arn remote_layer;
     SDK.Layer.Attributes := SDK.Layer.Attributes remote_layer;
     SDK.Layer.AutoAssignElasticIps := SDK.Layer.AutoAssignElasticIps remote_layer;
     SDK.Layer.AutoAssignPublicIps := SDK.Layer.AutoAssignPublicIps remote_layer;
     SDK.Layer.CustomInstanceProfileArn := SDK.Layer.CustomInstanceProfileArn remote_layer;
     SDK.Layer.CustomJson := Some "{";
     SDK.Layer.CustomRecipes := SDK.Layer.CustomRecipes remote_layer;
     SDK.Layer.CustomSecurityGroupIds := SDK.Layer.CustomSecurityGroupIds remote_layer;
     SDK.Layer.EnableAutoHealing := SDK.Layer.EnableAutoHealing remote_layer;
     SDK.Layer.InstallUpdatesOnBoot := SDK.Layer.InstallUpdatesOnBoot remote_layer;
     SDK.Layer.LayerId := SDK.Layer.LayerId remote_layer;
     SDK.Layer.LifecycleEventConfiguration :=
       SDK.Layer.LifecycleEventConfiguration remote_layer;
     SDK.Layer.Name := SDK.Layer.Name remote_layer;
     SDK.Layer.Packages := SDK.Layer.Packages remote_layer;
     SDK.Layer.Shortname := SDK.Layer.Shortname remote_layer;
     SDK.Layer.StackId := SDK.Layer.StackId remote_layer;
     SDK.Layer.UseEbsOptimizedInstances := SDK.Layer.UseEbsOptimizedInstances remote_layer;
     SDK.Layer.VolumeConfigurations := SDK.Layer.VolumeConfigurations remote_layer |}.

Definition with_json_layer : SDK.OpsWorks :=
  {| SDK.onDescribeLayers := fun _ _ => inr [Some json_layer];
     SDK.onDescribeElasticLoadBalancers := SDK.onDescribeElasticLoadBalancers healthy;
     SDK.onAttachElasticLoadBalancer := SDK.onAttachElasticLoadBalancer healthy;
     SDK.onDetachElasticLoadBalancer := SDK.onDetachElasticLoadBalancer healthy;
     SDK.onUpdateLayer := SDK.onUpdateLayer healthy;
     SDK.onListTags := SDK.onListTags healthy;
     SDK.onUpdateTags := SDK.onUpdateTags healthy |}.

(** The layer of [healthy] with a nil element among its volumes. *)
Definition nil_volume_layer : SDK.Layer.t :=
  {| SDK.Layer.Arn := SDK.Layer.Arn remote_layer;
     SDK.Layer.Attributes := SDK.Layer.Attributes remote_layer;
     SDK.Layer.AutoAssignElasticIps := SDK.Layer.AutoAssignElasticIps remote_layer;
     SDK.Layer.AutoAssignPublicIps := SDK.Layer.AutoAssignPublicIps remote_layer;
     SDK.Layer.CustomInstanceProfileArn := SDK.Layer.CustomInstanceProfileArn remote_layer;
     SDK.Layer.CustomJson := SDK.Layer.CustomJson remote_layer;
     SDK.Layer.CustomRecipes := SDK.Layer.CustomRecipes remote_layer;
     SDK.Layer.CustomSecurityGroupIds := SDK.Layer.CustomSecurityGroupIds remote_layer;
     SDK.Layer.EnableAutoHealing := SDK.Layer.EnableAutoHealing remote_layer;
     SDK.Layer.InstallUpdatesOnBoot := SDK.Layer.InstallUpdatesOnBoot remote_layer;
     SDK.Layer.LayerId := SDK.Layer.LayerId remote_layer;
     SDK.Layer.LifecycleEventConfiguration :=
       SDK.Layer.LifecycleEventConfiguration remote_layer;
     SDK.Layer.Name := SDK.Layer.Name remote_layer;
     SDK.Layer.Packages := SDK.Layer.Packages remote_layer;
     SDK.Layer.Shortname := SDK.Layer.Shortname remote_layer;
     SDK.Layer.StackId := SDK.Layer.StackId remote_layer;
     SDK.Layer.UseEbsOptimizedInstances := SDK.Layer.UseEbsOptimizedInstances remote_layer;
     SDK.Layer.VolumeConfigurations :=
       [Some (SDK.mkVolumeConfiguration (Some "/data") (Some 2%Z) (Some 100%Z)
                (Some "io1") (Some true) None None);
        None] |}.

Definition with_nil_volume : SDK.OpsWorks :=
  {| SDK.onDescribeLayers := fun _ _ => inr [Some nil_volume_layer];
     SDK.onDescribeElasticLoadBalancers := SDK.onDescribeElasticLoadBalancers healthy;
     SDK.onAttachElasticLoadBalancer := SDK.onAttachElasticLoadBalancer healthy;
     SDK.onDetachElasticLoadBalancer := SDK.onDetachElasticLoadBalancer healthy;
     SDK.onUpdateLayer := SDK.onUpdateLayer healthy;
     SDK.onListTags := SDK.onListTags healthy;
     SDK.onUpdateTags := SDK.onUpdateTags healthy |}.

Definition json_error : error := OtherError "unexpected end of JSON input".
Definition invalid_json (s : string) : error + string := inl json_error.

(** The attributes the pool data source writes. *)
Definition pool_keys : list string :=
  ["publicly_advertisable"; "allocation_resource_tags"; "auto_import"; "arn";
   "description"; "ipam_scope_id"; "ipam_scope_type"; "locale"; "pool_depth";
   "aws_service"; "source_ipam_pool_id"; "state"].

End Coverage.

(** * Properties *)

(** ** strconv: formatting and parsing agree *)

Module StrconvFacts.
Import Strconv.
Local Open Scope Z_scope.

Example Itoa_42 : Itoa 42 = "42". Proof. reflexivity. Qed.
Example Itoa_0 : Itoa 0 = "0". Proof. reflexivity. Qed.
Example Itoa_neg : Itoa (-1205) = "-1205". Proof. reflexivity. Qed.
Example Itoa_min : Itoa int_min = "-9223372036854775808". Proof. reflexivity. Qed.
Example Atoi_5 : Atoi "5" = Some 5. Proof. reflexivity. Qed.
Example Atoi_plus : Atoi "+17" = Some 17. Proof. reflexivity. Qed.
Example Atoi_invalid : Atoi "invalid" = None. Proof. reflexivity. Qed.
Example Atoi_empty : Atoi "" = None. Proof. reflexivity. Qed.
Example Atoi_sign_only : Atoi "-" = None. Proof. reflexivity. Qed.
Example Atoi_trailing : Atoi "12a" = None. Proof. reflexivity. Qed.
Example Atoi_range : Atoi "9223372036854775808" = None. Proof. reflexivity. Qed.
Example Atoi_min : Atoi "-9223372036854775808" = Some int_min. Proof. reflexivity. Qed.

Lemma digit_val_char (d : Z) : 0 <= d <= 9 -> digit_val (digit_char d) = Some d.
Proof.
  intros Hd. unfold digit_val, digit_char.
  rewrite N_ascii_embedding by lia.
  rewrite Z2N.id by lia.
  replace ((48 <=? 48 + d) && (48 + d <=? 57)) with true
    by (symmetry; apply andb_true_intro; split; apply Z.leb_le; lia).
  f_equal. lia.
Qed.

Lemma parse_digits_cons (d : Z) (rest : string) (n : Z) :
  0 <= d <= 9 ->
  parse_digits (String (digit_char d) rest) n = parse_digits rest (n * 10 + d).
Proof. intros Hd. simpl. by rewrite digit_val_char. Qed.

Lemma parse_format_digits (fuel : nat) :
  forall (u : Z) (acc : string),
    0 <= u < 2 ^ Z.of_nat fuel ->
    parse_digits (format_digits fuel u acc) 0 = parse_digits acc u.
Proof.
  induction fuel as [|fuel IH]; intros u acc Hu.
  - simpl in Hu. replace u with 0 by lia. reflexivity.
  - cbn [format_digits].
    assert (Hmod : 0 <= u mod 10 <= 9) by (pose proof (Z.mod_pos_bound u 10); lia).
    destruct (Z.ltb_spec u 10) as [Hlt|Hge].
    + rewrite parse_digits_cons by exact Hmod.
      rewrite Z.mod_small by lia. f_equal.
    + rewrite IH.
      * rewrite parse_digits_cons by exact Hmod.
        f_equal. pose proof (Z.div_mod u 10). lia.
      * rewrite Nat2Z.inj_succ, Z.pow_succ_r in Hu by lia.
        split; [apply Z.div_pos; lia|].
        apply Z.div_lt_upper_bound; lia.
Qed.

Lemma format_digits_head (fuel : nat) :
  forall (u : Z) (acc : string),
    0 <= u ->
    exists d s, 0 <= d <= 9 /\ format_digits (S fuel) u acc = String (digit_char d) s.
Proof.
  induction fuel as [|fuel IH]; intros u acc Hu.
  - exists (u mod 10), acc. split.
    + pose proof (Z.mod_pos_bound u 10). lia.
    + cbn [format_digits]. by destruct (u <? 10).
  - assert (Hmod : 0 <= u mod 10 <= 9) by (pose proof (Z.mod_pos_bound u 10); lia).
    change (format_digits (S (S fuel)) u acc)
      with (let acc' := String (digit_char (u mod 10)) acc in
            if u <? 10 then acc' else format_digits (S fuel) (u / 10) acc').
    cbv zeta. destruct (Z.ltb_spec u 10) as [Hlt|Hge].
    + by exists (u mod 10), acc.
    + apply IH. apply Z.div_pos; lia.
Qed.

Lemma digit_char_not_sign (d : Z) :
  0 <= d <= 9 ->
  Ascii.eqb (digit_char d) "-" = false /\ Ascii.eqb (digit_char d) "+" = false.
Proof.
  intros Hd.
  assert (Hcases : d = 0 \/ d = 1 \/ d = 2 \/ d = 3 \/ d = 4 \/ d = 5 \/
                   d = 6 \/ d = 7 \/ d = 8 \/ d = 9) by lia.
  destruct Hcases as [->|[->|[->|[->|[->|[->|[->|[->|[->| ->]]]]]]]]];
    split; reflexivity.
Qed.

(** Decimal formatting followed by parsing gives the integer back. *)
Lemma Atoi_Itoa (i : Z) : is_int i -> Atoi (Itoa i) = Some i.
Proof.
  unfold is_int, int_min, int_max. intros Hi.
  unfold Itoa. destruct (Z.ltb_spec i 0) as [Hneg|Hpos].
  - destruct (format_digits_head 63 (- i) "") as (d & s & Hd & Hs); [lia|].
    unfold Atoi. change (Ascii.eqb "-" "-") with true. cbn [orb].
    pose proof (parse_format_digits 64 (- i) "") as Hp.
    rewrite Hs in *. rewrite Hp by (change (2 ^ Z.of_nat 64) with (2 ^ 64); lia).
    cbn [parse_digits]. rewrite Z.opp_involutive.
    unfold is_intb, int_min, int_max.
    replace ((- 2 ^ 63 <=? i) && (i <=? 2 ^ 63 - 1)) with true; [done|].
    symmetry; apply andb_true_intro; split; apply Z.leb_le; lia.
  - destruct (format_digits_head 63 i "") as (d & s & Hd & Hs); [lia|].
    pose proof (parse_format_digits 64 i "") as Hp.
    rewrite Hs in *. unfold Atoi.
    destruct (digit_char_not_sign d Hd) as [-> ->]. cbn [orb].
    rewrite Hp by (change (2 ^ Z.of_nat 64) with (2 ^ 64); lia).
    cbn [parse_digits].
    unfold is_intb, int_min, int_max.
    replace ((- 2 ^ 63 <=? i) && (i <=? 2 ^ 63 - 1)) with true; [done|].
    symmetry; apply andb_true_intro; split; apply Z.leb_le; lia.
Qed.

End StrconvFacts.

(** ** strings: what [Split] returns *)

Module StringsFacts.
Import Strings Spec.

Lemma Count_zero_iff (s : string) (sep : ascii) :
  Count s sep = 0 <-> ~ Contains s sep.
Proof.
  unfold Contains. induction s as [|c s IH]; simpl.
  - tauto.
  - destruct (Ascii.eqb_spec c sep) as [->|Hne]; simpl.
    + split; [discriminate|]. intros H. exfalso. apply H. by left.
    + rewrite IH. split.
      * intros H [Heq|Hin]; [by apply Hne | by apply H].
      * intros H Hin. apply H. by right.
Qed.

Lemma cut_None (s : string) (sep : ascii) :
  cut s sep = None <-> Count s sep = 0.
Proof.
  induction s as [|c s IH]; simpl; [tauto|].
  destruct (Ascii.eqb c sep); simpl.
  - split; discriminate.
  - destruct (cut s sep) as [[before after]|].
    + split; [discriminate|]. intros H. apply IH in H. discriminate.
    + split; [intros _; by apply IH | done].
Qed.

Lemma cut_Some (s : string) (sep : ascii) (before after : string) :
  cut s sep = Some (before, after) ->
  s = before ++ String sep after /\
  Count before sep = 0 /\
  Count s sep = S (Count after sep).
Proof.
  revert before. induction s as [|c s IH]; intros before; simpl; [discriminate|].
  destruct (Ascii.eqb_spec c sep) as [->|Hne].
  - intros [= <- <-]. simpl. done.
  - destruct (cut s sep) as [[b a]|] eqn:Hcut; [|discriminate].
    intros [= <- <-]. destruct (IH b eq_refl) as (Hs & Hb & Hc).
    simpl. destruct (Ascii.eqb_spec c sep) as [->|_]; [done|].
    change (String c b ++ String sep a) with (String c (b ++ String sep a)).
    repeat split; [congruence | done | done].
Qed.

Lemma genSplit_length (rounds : nat) :
  forall (s : string) (sep : ascii),
    rounds = Count s sep -> length (genSplit rounds s sep) = S rounds.
Proof.
  induction rounds as [|rounds IH]; intros s sep Hrounds; simpl; [done|].
  destruct (cut s sep) as [[before after]|] eqn:Hcut.
  - apply cut_Some in Hcut as (_ & _ & Hc). simpl. f_equal.
    apply IH. lia.
  - apply cut_None in Hcut. lia.
Qed.

(** [Split] returns one more element than there are separators. *)
Lemma Split_length (s : string) (sep : ascii) :
  length (Split s sep) = S (Count s sep).
Proof. by apply genSplit_length. Qed.

Lemma genSplit_Join (rounds : nat) :
  forall (s : string) (sep : ascii), Join (genSplit rounds s sep) sep = s.
Proof.
  induction rounds as [|rounds IH]; intros s sep; simpl; [done|].
  destruct (cut s sep) as [[before after]|] eqn:Hcut; [|done].
  apply cut_Some in Hcut as (-> & _ & _).
  specialize (IH after sep).
  destruct (genSplit rounds after sep) as [|x xs] eqn:Hg.
  - destruct rounds; simpl in Hg; [discriminate|].
    destruct (cut after sep) as [[? ?]|]; discriminate.
  - cbn [Join]. cbn [Join] in IH. by rewrite IH.
Qed.

(** Joining the segments with the separator gives the string back. *)
Lemma Split_Join (s : string) (sep : ascii) : Join (Split s sep) sep = s.
Proof. apply genSplit_Join. Qed.

Lemma genSplit_segments (rounds : nat) :
  forall (s : string) (sep : ascii),
    rounds = Count s sep ->
    Forall (fun seg => ~ Contains seg sep) (genSplit rounds s sep).
Proof.
  induction rounds as [|rounds IH]; intros s sep Hrounds; simpl.
  - constructor; [|constructor]. by apply Count_zero_iff.
  - destruct (cut s sep) as [[before after]|] eqn:Hcut.
    + apply cut_Some in Hcut as (_ & Hb & Hc). constructor.
      * by apply Count_zero_iff.
      * apply IH. lia.
    + apply cut_None in Hcut. lia.
Qed.

(** No segment contains the separator. *)
Lemma Split_segments (s : string) (sep : ascii) :
  Forall (fun seg => ~ Contains seg sep) (Split s sep).
Proof. by apply genSplit_segments. Qed.

(** Element [1] exists exactly when the string contains the separator. *)
Lemma Split_second (s : string) (sep : ascii) :
  Split s sep !! 1%nat = None <-> ~ Contains s sep.
Proof.
  rewrite <- Count_zero_iff, lookup_ge_None, Split_length. lia.
Qed.

Example Split_arn :
  Split "arn:aws:ec2::123456789012:ipam-scope/ipam-scope-0a1b2c" "/"
  = ["arn:aws:ec2::123456789012:ipam-scope"; "ipam-scope-0a1b2c"].
Proof. reflexivity. Qed.

Example Split_none : Split "ipam-scope-0a1b2c" "/" = ["ipam-scope-0a1b2c"].
Proof. reflexivity. Qed.

Example Split_empty : Split "" "/" = [""].
Proof. reflexivity. Qed.

Example Split_three : Split "a/b/c" "/" = ["a"; "b"; "c"].
Proof. reflexivity. Qed.

End StringsFacts.

(** ** [ResourceData]: reading a field after a write *)

Module SchemaFacts.
Import Schema.

Lemma Set_other_key (d : ResourceData) (key k : string) (v : option field) :
  key <> k -> rd_fields (Set_ d key v) !! k = rd_fields d !! k.
Proof.
  intros Hne. destruct v; cbn.
  - by rewrite lookup_insert_ne.
  - by rewrite lookup_delete_ne.
Qed.

Lemma Set_same_key (d : ResourceData) (key : string) (v : option field) :
  rd_fields (Set_ d key v) !! key = v.
Proof.
  destruct v; cbn.
  - by rewrite lookup_insert_eq.
  - by rewrite lookup_delete_eq.
Qed.

End SchemaFacts.

(** ** The attribute-bag projection of a layer type *)

Module AttributeBagFacts.
Import Schema Assert OpsWorks Spec Fixtures SchemaFacts.

(** *** The write direction *)

(** Case analysis on one round of [AttributeMap]'s loop, in a hypothesis
    [H] about the result of the rounds from [(key, def)] on. *)
Ltac attribute_round H d key def :=
  cbn [AttributeMap_range] in H;
  let Ht := fresh "Ht" in
  let Hg := fresh "Hg" in
  destruct (Type_ def) eqn:Ht; try discriminate H;
  try (destruct (Get d _ key) as [[?s|?n|[|]]|?l|?m|] eqn:Hg;
       cbn [obind asString asInt asBool] in H; try discriminate H).

Section AttributeMapFacts.

Variable d : ResourceData.

Lemma AttributeMap_range_Ok (entries : list (string * opsworksLayerTypeAttribute)) :
  forall (acc attrs : bag),
    AttributeMap_range entries d acc = Ok attrs ->
    Forall (fun e => supported (Type_ e.2)) entries /\
    dom attrs = dom acc ∪ list_to_set (remote_names entries) /\
    (forall k, k ∉ remote_names entries -> attrs !! k = acc !! k) /\
    (NoDup (remote_names entries) ->
     forall key def, (key, def) ∈ entries ->
       exists v, Get d (Type_ def) key = FValue v /\
                 attrs !! AttrName def = Some (Some (encode v))).
Proof.
  induction entries as [|[key def] rest IH]; intros acc attrs H.
  - injection H as <-. repeat split.
    + constructor.
    + set_solver.
    + intros _ key def Hin. by apply elem_of_nil in Hin.
  - assert (Hstep : exists v,
               Get d (Type_ def) key = FValue v /\ supported (Type_ def) /\
               AttributeMap_range rest d (<[AttrName def := Some (encode v)]> acc)
               = Ok attrs).
    { unfold supported. attribute_round H d key def; eexists; eauto. }
    destruct Hstep as (v & Hv & Hsup & Hrest).
    destruct (IH _ _ Hrest) as (Hall & Hdom & Hother & Hentry).
    cbn [remote_names fmap list_fmap] in *. repeat split.
    + by constructor.
    + rewrite Hdom, dom_insert_L. set_solver.
    + intros k Hk. apply not_elem_of_cons in Hk as [Hne Hk].
      rewrite Hother by done. by rewrite lookup_insert_ne.
    + intros Hnodup key' def' Hin. apply NoDup_cons in Hnodup as [Hfresh Hnodup].
      apply elem_of_cons in Hin as [[= -> ->]|Hin].
      * exists v. split; [done|].
        rewrite Hother by done. by rewrite lookup_insert_eq.
      * by apply Hentry.
Qed.

Lemma AttributeMap_range_Err (entries : list (string * opsworksLayerTypeAttribute)) :
  forall (acc : bag) (e : error),
    AttributeMap_range entries d acc = Err e ->
    exists key def, (key, def) ∈ entries /\ ~ supported (Type_ def) /\
                    e = UnsupportedAttributeType (Type_ def).
Proof.
  induction entries as [|[key def] rest IH]; intros acc e H; [discriminate|].
  destruct (decide (supported (Type_ def))) as [Hsup|Hsup].
  - assert (Hrest : exists acc', AttributeMap_range rest d acc' = Err e).
    { attribute_round H d key def; try (eexists; exact H);
        exfalso; unfold supported in Hsup; naive_solver. }
    destruct Hrest as [acc' Hrest].
    destruct (IH _ _ Hrest) as (key' & def' & Hin & Hrest').
    exists key', def'. split; [apply elem_of_cons; by right | done].
  - exists key, def. split; [apply elem_of_cons; by left|]. split; [done|].
    unfold supported in Hsup.
    cbn [AttributeMap_range] in H.
    destruct (Type_ def); try (by injection H as <-); exfalso; naive_solver.
Qed.

Lemma AttributeMap_range_no_panic (entries : list (string * opsworksLayerTypeAttribute)) :
  forall acc : bag,
    (forall key def, (key, def) ∈ entries ->
                     has_type (Type_ def) (Get d (Type_ def) key)) ->
    forall p, AttributeMap_range entries d acc <> Panic p.
Proof.
  induction entries as [|[key def] rest IH]; intros acc Htyped; [done|].
  assert (Hhead : has_type (Type_ def) (Get d (Type_ def) key))
    by (apply Htyped, elem_of_cons; by left).
  assert (Hrest : forall acc' p, AttributeMap_range rest d acc' <> Panic p).
  { intros acc'. apply IH. intros k df Hin. apply Htyped, elem_of_cons. by right. }
  cbn [AttributeMap_range].
  destruct (Type_ def); cbn [has_type] in Hhead; try done.
  - destruct Hhead as [b ->]. cbn. destruct b; apply Hrest.
  - destruct Hhead as (n & -> & _). cbn. apply Hrest.
  - destruct Hhead as [s ->]. cbn. apply Hrest.
Qed.

End AttributeMapFacts.

Lemma example_state_typed : state_typed example_layer example_state.
Proof.
  intros key def Hin. cbn [example_layer Attributes] in Hin.
  repeat (apply elem_of_cons in Hin as [[= -> ->]|Hin]);
    [| | | | by apply elem_of_nil in Hin];
    cbn; eauto.
  eexists. split; [reflexivity|]. by vm_compute.
Defined.

Lemma example_layer_one_to_one : one_to_one example_layer.
Proof. unfold one_to_one. cbn. compute_done. Defined.

(** C4.  [AttributeMap] on a local state typed as the descriptor declares
    returns an error exactly when some attribute's declared type is not
    string, integer or boolean.  Otherwise it returns a bag whose keys are
    the remote keys of the descriptor; when these are distinct, as the data
    model has it, the bag has exactly one entry per descriptor attribute,
    under the attribute's remote key, holding the string unchanged, the
    integer in decimal, or the token "true" or "false". *)
Theorem AttributeMap_projection (lt : opsworksLayerType) (d : ResourceData) :
  state_typed lt d ->
  ((exists e, AttributeMap lt d = Err e) <->
   (exists key def, (key, def) ∈ Attributes lt /\ ~ supported (Type_ def))) /\
  ((exists attrs, AttributeMap lt d = Ok attrs) <->
   (forall key def, (key, def) ∈ Attributes lt -> supported (Type_ def))) /\
  (forall attrs : bag,
     AttributeMap lt d = Ok attrs ->
     dom attrs = list_to_set (remote_names (Attributes lt)) /\
     (one_to_one lt ->
      size attrs = length (Attributes lt) /\
      forall key def, (key, def) ∈ Attributes lt ->
        exists v, Get d (Type_ def) key = FValue v /\
                  attrs !! AttrName def = Some (Some (encode v)))).
Proof.
  intros Htyped. unfold AttributeMap.
  pose proof (AttributeMap_range_no_panic d (Attributes lt) ∅ Htyped) as Hnp.
  assert (Hok : forall attrs, AttributeMap_range (Attributes lt) d ∅ = Ok attrs ->
                forall key def, (key, def) ∈ Attributes lt -> supported (Type_ def)).
  { intros attrs H key def Hin.
    apply AttributeMap_range_Ok in H as (Hall & _).
    rewrite Forall_forall in Hall. by apply (Hall (key, def)). }
  split; [split|split; [split|]].
  - intros [e He].
    apply AttributeMap_range_Err in He as (key & def & Hin & Hsup & _). eauto.
  - intros (key & def & Hin & Hsup).
    destruct (AttributeMap_range (Attributes lt) d ∅) as [attrs|e|p] eqn:H;
      [|by eauto|by destruct (Hnp p)].
    exfalso. exact (Hsup (Hok attrs eq_refl key def Hin)).
  - intros [attrs H]. exact (Hok attrs H).
  - intros Hall.
    destruct (AttributeMap_range (Attributes lt) d ∅) as [attrs|e|p] eqn:H;
      [by eauto| |by destruct (Hnp p)].
    apply AttributeMap_range_Err in H as (key & def & Hin & Hsup & _).
    exfalso. exact (Hsup (Hall key def Hin)).
  - intros attrs H.
    apply AttributeMap_range_Ok in H as (_ & Hdom & _ & Hentry).
    rewrite dom_empty_L, (left_id_L ∅ (∪)) in Hdom.
    split; [done|]. intros Hinj. split; [|by apply Hentry].
    rewrite <- size_dom, Hdom, size_list_to_set by exact Hinj.
    unfold remote_names. by rewrite length_fmap.
Qed.

Lemma AttributeMap_projection_witness :
  state_typed example_layer example_state /\
  one_to_one example_layer /\
  exists attrs : bag,
    AttributeMap example_layer example_state = Ok attrs /\
    size attrs = 4 /\
    attrs !! "EnableHaproxyStats" = Some (Some "true") /\
    attrs !! "MemcachedMemory" = Some (Some "256").
Proof.
  split; [exact example_state_typed|]. split; [exact example_layer_one_to_one|].
  destruct (AttributeMap_projection example_layer example_state
              example_state_typed) as (_ & _ & Hbag).
  destruct (AttributeMap example_layer example_state) as [attrs| |] eqn:H;
    [|discriminate H|discriminate H].
  exists attrs. split; [reflexivity|].
  destruct (Hbag attrs eq_refl) as (_ & Hone).
  destruct (Hone example_layer_one_to_one) as (Hsize & _).
  split; [exact Hsize|].
  injection H as <-. split; reflexivity.
Defined.

(** An unsupported declared type is reported whatever the local state
    holds for the attribute. *)
Example AttributeMap_broken_layer :
  AttributeMap broken_layer example_state = Err (UnsupportedAttributeType TypeFloat).
Proof. reflexivity. Qed.

(** Decoding what the write direction encoded gives the value back, for
    each of the three types. *)
Lemma decoded_encode (t : ValueType) (f : field) :
  supported t -> has_type t f ->
  exists v, f = FValue v /\ decoded t (encode v) = Some f.
Proof.
  intros [->|[->| ->]]; cbn [has_type].
  - intros [s ->]. by exists (VString s).
  - intros (n & -> & Hn). exists (VInt n). split; [done|].
    cbn [decoded encode]. by rewrite StrconvFacts.Atoi_Itoa.
  - intros [[|] ->]; by eexists.
Qed.

(** *** The read direction *)

(** One round of the loop at an entry that is not write-only and present
    in the bag ends the call, and writes no field but the entry's own. *)
Lemma SetAttributeMap_range_present
    (key : string) (def : opsworksLayerTypeAttribute)
    (rest : list (string * opsworksLayerTypeAttribute))
    (d : ResourceData) (attrs : bag) :
  WriteOnly def = false ->
  present attrs def ->
  forall k, key <> k ->
    rd_fields (SetAttributeMap_range ((key, def) :: rest) d attrs).1 !! k
    = rd_fields d !! k.
Proof.
  intros Hwo [strValue Hp] k Hne. cbn [SetAttributeMap_range].
  rewrite Hwo, Hp.
  destruct (Type_ def); try done; cbn [fst]; try by apply Set_other_key.
  destruct (Strconv.Atoi strValue); by apply Set_other_key.
Qed.

(** That round leaves in the entry's own field what the read direction is
    specified to, and returns no error. *)
Lemma SetAttributeMap_range_decodes
    (key : string) (def : opsworksLayerTypeAttribute)
    (rest : list (string * opsworksLayerTypeAttribute))
    (d : ResourceData) (attrs : bag) (strValue : string) :
  WriteOnly def = false ->
  supported (Type_ def) ->
  attrs !! AttrName def = Some (Some strValue) ->
  (SetAttributeMap_range ((key, def) :: rest) d attrs).2 = None /\
  rd_fields (SetAttributeMap_range ((key, def) :: rest) d attrs).1 !! key
  = decoded (Type_ def) strValue.
Proof.
  intros Hwo Hsup Hp. cbn [SetAttributeMap_range]. rewrite Hwo, Hp.
  destruct Hsup as [->|[->| ->]]; cbn [decoded].
  - cbn [fst snd]. by rewrite Set_same_key.
  - destruct (Strconv.Atoi strValue); cbn [fst snd]; by rewrite Set_same_key.
  - cbv zeta. cbn [fst snd]. rewrite Set_same_key. split; [done|].
    unfold opsworksFalseString.
    destruct (String.eqb_spec strValue "false") as [->|Hne].
    + by rewrite bool_decide_eq_false_2 by (intros H; by apply H).
    + by rewrite bool_decide_eq_true_2.
Qed.

(** The attribute the [range] reaches first among those that are not
    write-only and present in the bag is decoded as specified: a string
    as it is, an integer parsed (cleared when it does not parse), a boolean
    false for the token "false" and true for any other string. *)
Lemma SetAttributeMap_range_reached
    (pre post : list (string * opsworksLayerTypeAttribute))
    (key : string) (def : opsworksLayerTypeAttribute) (attrs : bag)
    (strValue : string) :
  forall d : ResourceData,
    Forall (passed_over attrs) pre ->
    WriteOnly def = false ->
    supported (Type_ def) ->
    attrs !! AttrName def = Some (Some strValue) ->
    (SetAttributeMap_range (pre ++ (key, def) :: post) d attrs).2 = None /\
    rd_fields (SetAttributeMap_range (pre ++ (key, def) :: post) d attrs).1 !! key
    = decoded (Type_ def) strValue.
Proof.
  induction pre as [|[k0 def0] pre IH]; intros d Hpre Hwo Hsup Hp.
  - by apply SetAttributeMap_range_decodes.
  - apply Forall_cons in Hpre as [Hhead Hpre].
    cbn [app SetAttributeMap_range].
    destruct (WriteOnly def0) eqn:Hwo0; [by apply IH|].
    destruct Hhead as [Hhead|Hhead]; [cbn in Hhead; congruence|].
    destruct (attrs !! AttrName def0) as [[s0|]|] eqn:Hp0.
    + exfalso. apply Hhead. by exists s0.
    + by apply IH.
    + by apply IH.
Qed.

(** An attribute that comes after it in the [range] is left as it was. *)
Lemma SetAttributeMap_range_shadowed
    (pre post : list (string * opsworksLayerTypeAttribute))
    (k0 : string) (def0 : opsworksLayerTypeAttribute) (attrs : bag) (key : string) :
  forall d : ResourceData,
    WriteOnly def0 = false ->
    present attrs def0 ->
    key <> k0 ->
    key ∉ local_keys pre ->
    rd_fields (SetAttributeMap_range (pre ++ (k0, def0) :: post) d attrs).1 !! key
    = rd_fields d !! key.
Proof.
  induction pre as [|[k1 def1] pre IH]; intros d Hwo Hp Hne Hpre.
  - by apply SetAttributeMap_range_present.
  - cbn [local_keys fmap list_fmap] in Hpre.
    apply not_elem_of_cons in Hpre as [Hne1 Hpre]. cbn [fst] in Hne1.
    destruct (WriteOnly def1) eqn:Hwo1;
      [|destruct (attrs !! AttrName def1) as [[s1|]|] eqn:Hp1].
    + cbn [app SetAttributeMap_range]. rewrite Hwo1. by apply IH.
    + apply (SetAttributeMap_range_present k1 def1); [done|by exists s1|done].
    + cbn [app SetAttributeMap_range]. rewrite Hwo1, Hp1.
      rewrite IH by done. by apply Set_other_key.
    + cbn [app SetAttributeMap_range]. rewrite Hwo1, Hp1.
      rewrite IH by done. by apply Set_other_key.
Qed.

(** The call writes the fields of entries that are not write-only, and no
    other. *)
Lemma SetAttributeMap_range_frame
    (entries : list (string * opsworksLayerTypeAttribute)) (attrs : bag) (k : string) :
  forall d : ResourceData,
    (forall key def, (key, def) ∈ entries -> WriteOnly def = false -> key <> k) ->
    rd_fields (SetAttributeMap_range entries d attrs).1 !! k = rd_fields d !! k.
Proof.
  induction entries as [|[key def] rest IH]; intros d Hk; [done|].
  assert (Hrest : forall key' def', (key', def') ∈ rest ->
                                    WriteOnly def' = false -> key' <> k).
  { intros key' def' Hin. apply Hk, elem_of_cons. by right. }
  destruct (WriteOnly def) eqn:Hwo.
  - cbn [SetAttributeMap_range]. rewrite Hwo. by apply IH.
  - assert (Hne : key <> k) by (apply (Hk key def); [apply elem_of_cons; by left|done]).
    destruct (attrs !! AttrName def) as [[strValue|]|] eqn:Hp.
    + apply SetAttributeMap_range_present; [done|by exists strValue|done].
    + cbn [SetAttributeMap_range]. rewrite Hwo, Hp.
      rewrite IH by done. by apply Set_other_key.
    + cbn [SetAttributeMap_range]. rewrite Hwo, Hp.
      rewrite IH by done. by apply Set_other_key.
Qed.

Lemma NoDup_keys_unique
    (entries : list (string * opsworksLayerTypeAttribute))
    (key : string) (def def' : opsworksLayerTypeAttribute) :
  NoDup (local_keys entries) ->
  (key, def) ∈ entries -> (key, def') ∈ entries -> def = def'.
Proof.
  unfold local_keys.
  induction entries as [|[k0 d0] rest IH]; intros Hnd Hin Hin'.
  - by apply elem_of_nil in Hin.
  - cbn in Hnd. apply NoDup_cons in Hnd as [Hfresh Hnd].
    assert (Hkey : forall df, (k0, df) ∈ rest -> False).
    { intros df Hdf. apply Hfresh.
      apply list_elem_of_fmap. by exists (k0, df). }
    apply elem_of_cons in Hin as [Heq|Hin];
      apply elem_of_cons in Hin' as [Heq'|Hin']; simplify_eq; try done.
    + by destruct (Hkey def').
    + by destruct (Hkey def).
    + by apply IH.
Qed.

(** A write-only attribute keeps the local value it had, whatever the bag
    holds for it. *)
Lemma SetAttributeMap_write_only (lt : opsworksLayerType) (d : ResourceData)
    (attrs : bag) (key : string) (def : opsworksLayerTypeAttribute) :
  wf_attributes lt ->
  (key, def) ∈ Attributes lt ->
  WriteOnly def = true ->
  rd_fields (SetAttributeMap lt d attrs).1 !! key = rd_fields d !! key.
Proof.
  intros Hwf Hin Hwo. unfold SetAttributeMap.
  apply SetAttributeMap_range_frame.
  intros key' def' Hin' Hwo' ->.
  rewrite (NoDup_keys_unique _ _ _ _ Hwf Hin Hin') in Hwo. congruence.
Qed.

(** Of two attributes that are not write-only and present in the bag, the
    call leaves at least one as it was: whichever the [range] reaches
    first ends the call. *)
Lemma SetAttributeMap_range_writes_one
    (entries : list (string * opsworksLayerTypeAttribute)) (attrs : bag)
    (k1 k2 : string) (def1 def2 : opsworksLayerTypeAttribute) :
  forall d : ResourceData,
    NoDup (local_keys entries) ->
    (k1, def1) ∈ entries -> (k2, def2) ∈ entries -> k1 <> k2 ->
    WriteOnly def1 = false -> WriteOnly def2 = false ->
    present attrs def1 -> present attrs def2 ->
    rd_fields (SetAttributeMap_range entries d attrs).1 !! k1 = rd_fields d !! k1 \/
    rd_fields (SetAttributeMap_range entries d attrs).1 !! k2 = rd_fields d !! k2.
Proof.
  unfold local_keys.
  induction entries as [|[key def] rest IH];
    intros d Hnd Hin1 Hin2 Hne Hwo1 Hwo2 Hp1 Hp2.
  - by apply elem_of_nil in Hin1.
  - destruct (WriteOnly def) eqn:Hwo;
      [|destruct (attrs !! AttrName def) as [[strValue|]|] eqn:Hp].
    + (* continue *)
      cbn [SetAttributeMap_range]. rewrite Hwo.
      cbn in Hnd. apply NoDup_cons in Hnd as [_ Hnd].
      apply elem_of_cons in Hin1 as [[= -> ->]|Hin1]; [congruence|].
      apply elem_of_cons in Hin2 as [[= -> ->]|Hin2]; [congruence|].
      by apply IH.
    + (* set and return *)
      destruct (decide (key = k1)) as [->|Hk1].
      * right. apply SetAttributeMap_range_present; [done|by exists strValue|done].
      * left. apply SetAttributeMap_range_present; [done|by exists strValue|done].
    + (* nil pointer: clear and go on *)
      cbn [SetAttributeMap_range]. rewrite Hwo, Hp.
      destruct Hp1 as [s1 Hp1], Hp2 as [s2 Hp2].
      apply elem_of_cons in Hin1 as [[= -> ->]|Hin1]; [congruence|].
      apply elem_of_cons in Hin2 as [[= -> ->]|Hin2]; [congruence|].
      cbn in Hnd. apply NoDup_cons in Hnd as [Hfresh Hnd].
      assert (Hk : forall k df, (k, df) ∈ rest -> key <> k).
      { intros k df Hdf ->. apply Hfresh, list_elem_of_fmap. by exists (k, df). }
      destruct (IH (Set_ d key None) Hnd Hin1 Hin2 Hne Hwo1 Hwo2
                  (ex_intro _ s1 Hp1) (ex_intro _ s2 Hp2)) as [H|H];
        [left|right]; rewrite H; apply Set_other_key; eauto.
    + (* absent: clear and go on *)
      cbn [SetAttributeMap_range]. rewrite Hwo, Hp.
      destruct Hp1 as [s1 Hp1], Hp2 as [s2 Hp2].
      apply elem_of_cons in Hin1 as [[= -> ->]|Hin1]; [congruence|].
      apply elem_of_cons in Hin2 as [[= -> ->]|Hin2]; [congruence|].
      cbn in Hnd. apply NoDup_cons in Hnd as [Hfresh Hnd].
      assert (Hk : forall k df, (k, df) ∈ rest -> key <> k).
      { intros k df Hdf ->. apply Hfresh, list_elem_of_fmap. by exists (k, df). }
      destruct (IH (Set_ d key None) Hnd Hin1 Hin2 Hne Hwo1 Hwo2
                  (ex_intro _ s1 Hp1) (ex_intro _ s2 Hp2)) as [H|H];
        [left|right]; rewrite H; apply Set_other_key; eauto.
Qed.

(** *** The read direction on the example layer *)

Lemma example_orders (lt : opsworksLayerType) :
  Attributes lt ≡ₚ Attributes example_layer ->
  NoDup (local_keys (Attributes lt)) /\
  NoDup (remote_names (Attributes lt)) /\
  ("stats_url", stats_url) ∈ Attributes lt /\
  ("allocated_memory", allocated_memory) ∈ Attributes lt.
Proof.
  intros Hperm. unfold local_keys, remote_names. rewrite !Hperm. cbn.
  split; [compute_done|]. split; [compute_done|].
  split; set_solver.
Qed.

(** C1 (the code departs from it).  Whatever order the [range] visits
    the example layer's attributes in, a read of [remote_bag] into
    [example_state] leaves [stats_url] or [allocated_memory] at its value
    from before the call, although the bag holds a new value for both:
    the call returns at the first attribute it finds in the bag. *)
Theorem SetAttributeMap_leaves_stale (lt : opsworksLayerType) :
  Attributes lt ≡ₚ Attributes example_layer ->
  rd_fields (SetAttributeMap lt example_state remote_bag).1 !! "stats_url"
    = Some (FValue (VString "/stats")) \/
  rd_fields (SetAttributeMap lt example_state remote_bag).1 !! "allocated_memory"
    = Some (FValue (VInt 256)).
Proof.
  intros Hperm. destruct (example_orders lt Hperm) as (Hnd & _ & Hin1 & Hin2).
  unfold SetAttributeMap.
  destruct (SetAttributeMap_range_writes_one (Attributes lt) remote_bag
              "stats_url" "allocated_memory" stats_url allocated_memory
              example_state Hnd Hin1 Hin2) as [H|H];
    try done; try (by eexists); [left|right]; by rewrite H.
Qed.

Lemma SetAttributeMap_leaves_stale_witness :
  Attributes example_layer ≡ₚ Attributes example_layer /\
  (rd_fields (SetAttributeMap example_layer example_state remote_bag).1 !! "stats_url"
     = Some (FValue (VString "/stats")) \/
   rd_fields (SetAttributeMap example_layer example_state remote_bag).1 !! "allocated_memory"
     = Some (FValue (VInt 256))).
Proof.
  split; [reflexivity|].
  apply (SetAttributeMap_leaves_stale example_layer). reflexivity.
Defined.

(** In the order of [example_layer] the call sets [stats_enabled] and
    nothing else; in the order of [example_layer_url_first], [stats_url]
    and nothing else. *)
Example SetAttributeMap_example :
  SetAttributeMap example_layer example_state remote_bag
  = (Set_ example_state "stats_enabled" (Some (FValue (VBool false))), None).
Proof. reflexivity. Qed.

Example SetAttributeMap_example_url_first :
  SetAttributeMap example_layer_url_first example_state remote_bag
  = (Set_ example_state "stats_url" (Some (FValue (VString "/new"))), None).
Proof. reflexivity. Qed.

(** C2 (the code departs from it).  Encode [example_state] and decode the
    bag into the state of a layer that is being imported: whatever the two
    iteration orders, [stats_url] or [allocated_memory] does not get its
    original value back. *)
Theorem AttributeMap_roundtrip_loses (enc dec : opsworksLayerType) (attrs : bag) :
  Attributes enc ≡ₚ Attributes example_layer ->
  Attributes dec ≡ₚ Attributes example_layer ->
  AttributeMap enc example_state = Ok attrs ->
  Get (SetAttributeMap dec imported_state attrs).1 TypeString "stats_url"
    <> Get example_state TypeString "stats_url" \/
  Get (SetAttributeMap dec imported_state attrs).1 TypeInt "allocated_memory"
    <> Get example_state TypeInt "allocated_memory".
Proof.
  intros Henc Hdec Hattrs.
  destruct (example_orders enc Henc) as (_ & Hinj & Hin1 & Hin2).
  apply AttributeMap_range_Ok in Hattrs as (_ & _ & _ & Hentry).
  destruct (Hentry Hinj _ _ Hin1) as (v1 & Hv1 & Hp1).
  destruct (Hentry Hinj _ _ Hin2) as (v2 & Hv2 & Hp2).
  destruct (example_orders dec Hdec) as (Hnd & _ & Hin1' & Hin2').
  unfold SetAttributeMap, Get.
  destruct (SetAttributeMap_range_writes_one (Attributes dec) attrs
              "stats_url" "allocated_memory" stats_url allocated_memory
              imported_state Hnd Hin1' Hin2') as [H|H];
    try done; try (by eexists); [left|right]; by rewrite H.
Qed.

Lemma AttributeMap_roundtrip_loses_witness :
  exists attrs : bag,
    AttributeMap example_layer example_state = Ok attrs /\
    (Get (SetAttributeMap example_layer imported_state attrs).1 TypeString "stats_url"
       <> Get example_state TypeString "stats_url" \/
     Get (SetAttributeMap example_layer imported_state attrs).1 TypeInt "allocated_memory"
       <> Get example_state TypeInt "allocated_memory").
Proof.
  eexists. split; [reflexivity|].
  apply (AttributeMap_roundtrip_loses example_layer example_layer);
    reflexivity.
Defined.

(** The imported layer after the round trip, in the order of
    [example_layer]: [stats_enabled] alone is set. *)
Example AttributeMap_roundtrip_example :
  exists attrs : bag,
    AttributeMap example_layer example_state = Ok attrs /\
    SetAttributeMap example_layer imported_state attrs
    = (Set_ imported_state "stats_enabled" (Some (FValue (VBool true))), None).
Proof. eexists. split; reflexivity. Qed.

(** C7 (the code departs from it).  [allocated_memory] is an integer
    attribute, not write-only, and its bag entry ["lots"] is no decimal
    integer; the [range] reaches [stats_enabled] first, which is in the bag
    too, and the call returns there: [allocated_memory] keeps the 256 it
    held and is not cleared. *)
Theorem SetAttributeMap_garbage_int_kept :
  Type_ allocated_memory = TypeInt /\
  WriteOnly allocated_memory = false /\
  garbage_bag !! AttrName allocated_memory = Some (Some "lots") /\
  Strconv.Atoi "lots" = None /\
  SetAttributeMap example_layer example_state garbage_bag
  = (Set_ example_state "stats_enabled" (Some (FValue (VBool true))), None) /\
  rd_fields (SetAttributeMap example_layer example_state garbage_bag).1
    !! "allocated_memory" = Some (FValue (VInt 256)).
Proof. repeat split. Qed.

(** C10 (the code departs from it).  [stats_enabled] is a boolean
    attribute, not write-only, and the bag holds the token "false" for it;
    the [range] reaches [stats_url] first, which is in the bag too, and the
    call returns there: [stats_enabled] keeps the [true] it held. *)
Theorem SetAttributeMap_bool_not_set :
  Type_ stats_enabled = TypeBool /\
  WriteOnly stats_enabled = false /\
  remote_bag !! AttrName stats_enabled = Some (Some "false") /\
  SetAttributeMap example_layer_url_first example_state remote_bag
  = (Set_ example_state "stats_url" (Some (FValue (VString "/new"))), None) /\
  rd_fields (SetAttributeMap example_layer_url_first example_state remote_bag).1
    !! "stats_enabled" = Some (FValue (VBool true)).
Proof. repeat split. Qed.

End AttributeBagFacts.

(** ** Volume configurations *)

Module VolumeFacts.
Import Schema Assert OpsWorks Spec Fixtures.

Lemma VolumeConfigurations_at_typed (v : elem) :
  volume_typed v ->
  exists c, VolumeConfigurations_at v = Ok c /\
    forall m, v = EObject m ->
      (forall iops, m !! "iops" = Some (VInt iops) ->
         SDK.Iops c = if (iops =? 0)%Z then None else Some iops) /\
      (forall raid_level, m !! "raid_level" = Some (VString raid_level) ->
         SDK.RaidLevel c = if String.eqb raid_level "" then None
                           else Strconv.Atoi raid_level).
Proof.
  intros (m & mp & nd & sz & ty & en & iops & raid & -> & Hmp & Hnd & Hsz & Hty
          & Hen & Hiops & Hraid).
  unfold VolumeConfigurations_at, keyString, keyInt, keyBool. cbn [asObject obind].
  rewrite Hmp, Hnd, Hsz, Hty, Hen, Hiops, Hraid. cbn [obind].
  eexists. split; [reflexivity|].
  intros m' [= <-]. cbn [SDK.Iops SDK.RaidLevel]. split.
  - intros iops' Hi. rewrite Hiops in Hi. by injection Hi as <-.
  - intros raid' Hr. rewrite Hraid in Hr. by injection Hr as <-.
Qed.

Lemma VolumeConfigurations_loop_typed (vols : list elem) :
  Forall volume_typed vols ->
  exists confs, VolumeConfigurations_loop vols = Ok confs /\
                Forall2 (fun v c => VolumeConfigurations_at v = Ok c) vols confs.
Proof.
  induction 1 as [|v vols Hv _ IH].
  - exists []. by split; [|constructor].
  - destruct (VolumeConfigurations_at_typed v Hv) as (c & Hc & _).
    destruct IH as (confs & Hloop & Hall).
    exists (c :: confs). cbn [VolumeConfigurations_loop].
    rewrite Hc, Hloop. by split; [|constructor].
Qed.

Lemma VolumeConfigurations_typed (d : ResourceData) (vols : list elem) :
  Get d TypeSet "ebs_volume" = FList vols ->
  Forall volume_typed vols ->
  exists confs, VolumeConfigurations d = Ok confs /\
                length confs = length vols /\
                forall i v, vols !! i = Some v ->
                  exists c, confs !! i = Some c /\ VolumeConfigurations_at v = Ok c.
Proof.
  intros Hget Htyped.
  destruct (VolumeConfigurations_loop_typed vols Htyped) as (confs & Hloop & Hall).
  exists confs. unfold VolumeConfigurations. rewrite Hget. cbn [asList obind].
  split; [done|]. split; [symmetry; by eapply Forall2_length|].
  intros i v Hv.
  destruct (Forall2_lookup_l _ _ _ _ _ Hall Hv) as (c & Hc & Hconf). eauto.
Qed.

Lemma example_volumes_typed : Forall volume_typed example_volumes.
Proof.
  repeat constructor; unfold volume_typed; do 8 eexists;
    (split; [reflexivity|]); repeat split; reflexivity.
Defined.

(** C8.  For every volume record of the local state, the configuration
    that [VolumeConfigurations] builds for the request leaves the IOPS
    field out (nil) when the local IOPS value is 0 and carries the same
    value when it is not. *)
Theorem VolumeConfigurations_iops (d : ResourceData) (vols : list elem) :
  Get d TypeSet "ebs_volume" = FList vols ->
  Forall volume_typed vols ->
  exists confs,
    VolumeConfigurations d = Ok confs /\
    length confs = length vols /\
    forall i m iops,
      vols !! i = Some (EObject m) ->
      m !! "iops" = Some (VInt iops) ->
      exists c, confs !! i = Some c /\
                (iops = 0%Z -> SDK.Iops c = None) /\
                (iops <> 0%Z -> SDK.Iops c = Some iops).
Proof.
  intros Hget Htyped.
  destruct (VolumeConfigurations_typed d vols Hget Htyped) as (confs & Hok & Hlen & Hat).
  exists confs. split; [done|]. split; [done|].
  intros i m iops Hi Hiops.
  destruct (Hat i _ Hi) as (c & Hc & Hconf). exists c. split; [done|].
  assert (Hv : volume_typed (EObject m)).
  { rewrite Forall_forall in Htyped. apply Htyped.
    apply list_elem_of_lookup. by exists i. }
  destruct (VolumeConfigurations_at_typed _ Hv) as (c' & Hc' & Hfields).
  rewrite Hconf in Hc'. injection Hc' as <-.
  destruct (Hfields m eq_refl) as [Hiops' _]. rewrite (Hiops' iops Hiops).
  split.
  - by intros ->.
  - intros Hne. by destruct (Z.eqb_spec iops 0).
Qed.

Lemma VolumeConfigurations_iops_witness :
  exists confs,
    VolumeConfigurations volumes_state = Ok confs /\
    SDK.Iops <$> confs = [Some 100%Z; None].
Proof.
  destruct (VolumeConfigurations_iops volumes_state example_volumes eq_refl
              example_volumes_typed) as (confs & Hok & _).
  exists confs. split; [exact Hok|].
  vm_compute in Hok. injection Hok as <-. reflexivity.
Defined.

(** C9.  For every volume record of the local state, the configuration
    that [VolumeConfigurations] builds carries the RAID level as the
    integer a non-empty string parses to ("5" gives 5), and leaves the
    field out (nil) when the string does not parse ("invalid") or is empty;
    no error is raised for it: the call returns its configurations. *)
Theorem VolumeConfigurations_raid_level (d : ResourceData) (vols : list elem) :
  Get d TypeSet "ebs_volume" = FList vols ->
  Forall volume_typed vols ->
  Strconv.Atoi "5" = Some 5%Z /\
  Strconv.Atoi "invalid" = None /\
  exists confs,
    VolumeConfigurations d = Ok confs /\
    length confs = length vols /\
    forall i m raid_level,
      vols !! i = Some (EObject m) ->
      m !! "raid_level" = Some (VString raid_level) ->
      exists c, confs !! i = Some c /\
                (forall n, raid_level <> "" -> Strconv.Atoi raid_level = Some n ->
                           SDK.RaidLevel c = Some n) /\
                (Strconv.Atoi raid_level = None -> SDK.RaidLevel c = None) /\
                (raid_level = "" -> SDK.RaidLevel c = None).
Proof.
  intros Hget Htyped. split; [reflexivity|]. split; [reflexivity|].
  destruct (VolumeConfigurations_typed d vols Hget Htyped) as (confs & Hok & Hlen & Hat).
  exists confs. split; [done|]. split; [done|].
  intros i m raid Hi Hraid.
  destruct (Hat i _ Hi) as (c & Hc & Hconf). exists c. split; [done|].
  assert (Hv : volume_typed (EObject m)).
  { rewrite Forall_forall in Htyped. apply Htyped.
    apply list_elem_of_lookup. by exists i. }
  destruct (VolumeConfigurations_at_typed _ Hv) as (c' & Hc' & Hfields).
  rewrite Hconf in Hc'. injection Hc' as <-.
  destruct (Hfields m eq_refl) as [_ Hraid']. rewrite (Hraid' raid Hraid).
  destruct (String.eqb_spec raid "") as [->|Hne]; repeat split; done.
Qed.

Lemma VolumeConfigurations_raid_level_witness :
  exists confs,
    VolumeConfigurations volumes_state = Ok confs /\
    SDK.RaidLevel <$> confs = [Some 5%Z; None].
Proof.
  destruct (VolumeConfigurations_raid_level volumes_state example_volumes eq_refl
              example_volumes_typed) as (_ & _ & confs & Hok & _).
  exists confs. split; [exact Hok|].
  vm_compute in Hok. injection Hok as <-. reflexivity.
Defined.

End VolumeFacts.

(** ** The pool data source *)

Module PoolFacts.
Import Schema Assert EC2 Spec Fixtures StringsFacts SchemaFacts.

Section DataSourceFacts.

Variable Filter : Type.
Variable BuildFiltersDataSource : list elem -> list Filter.
Variable AllocationTagsMap : list IpamResourceTag -> gmap string string.
Variable DescribeIpamPools :
  DescribeIpamPoolsInput Filter -> error + option (list (option IpamPool)).

(** The read and the request it builds, with the collaborators of this
    section; [read] still takes the service it queries. *)
#[local] Abbreviation read :=
  (dataSourceVPCIpamPoolRead Filter BuildFiltersDataSource AllocationTagsMap).
#[local] Abbreviation input_of := (describeInput Filter BuildFiltersDataSource).

Lemma scopeIdOf_Ok (pool : IpamPool) (arn : string) :
  IpamScopeArn pool = Some arn ->
  Contains arn "/" ->
  exists first scopeId more,
    Strings.Split arn "/" = first :: scopeId :: more /\
    scopeIdOf pool = Ok scopeId.
Proof.
  intros Harn Hc. unfold scopeIdOf. rewrite Harn.
  destruct (Strings.Split arn "/") as [|first [|scopeId more]] eqn:Hsplit.
  - pose proof (Split_length arn "/") as Hlen. by rewrite Hsplit in Hlen.
  - exfalso. assert (Hnone : Strings.Split arn "/" !! 1%nat = None) by by rewrite Hsplit.
    by apply Split_second in Hnone.
  - by exists first, scopeId, more.
Qed.

Lemma scopeIdOf_Panic (pool : IpamPool) (arn : string) :
  IpamScopeArn pool = Some arn -> ~ Contains arn "/" ->
  scopeIdOf pool = Panic IndexOutOfRange.
Proof.
  intros Harn Hc. unfold scopeIdOf. rewrite Harn.
  apply Split_second in Hc. by rewrite Hc.
Qed.

Lemma read_scope_id (d : ResourceData) (input : DescribeIpamPoolsInput Filter)
    (pool : IpamPool) (rest : list (option IpamPool)) (scopeId : string) :
  input_of d = Ok input ->
  DescribeIpamPools input = inr (Some (Some pool :: rest)) ->
  scopeIdOf pool = Ok scopeId ->
  (read DescribeIpamPools d).2 = Ok tt /\
  rd_fields (read DescribeIpamPools d).1 !! "ipam_scope_id"
    = Some (FValue (VString scopeId)).
Proof.
  unfold dataSourceVPCIpamPoolRead. intros -> -> ->.
  split; [done|]. cbn [fst]. unfold SetString, SetInt, SetBool.
  rewrite !Set_other_key by done. by rewrite Set_same_key.
Qed.

(** C3.  For the pool record the lookup projects, the scope identifier is
    element 1 of the split of the record's scope ARN on "/": when the ARN
    contains a "/" the read stores that segment as [ipam_scope_id], and
    when it contains none (fewer than two segments) the read panics with
    an index out of range. *)
Theorem pool_scope_id (d : ResourceData) (input : DescribeIpamPoolsInput Filter)
    (pool : IpamPool) (rest : list (option IpamPool)) (arn : string) :
  input_of d = Ok input ->
  DescribeIpamPools input = inr (Some (Some pool :: rest)) ->
  IpamScopeArn pool = Some arn ->
  (~ Contains arn "/" ->
   (read DescribeIpamPools d).2 = Panic IndexOutOfRange) /\
  (Contains arn "/" ->
   exists first scopeId more,
     Strings.Split arn "/" = first :: scopeId :: more /\
     (read DescribeIpamPools d).2 = Ok tt /\
     rd_fields (read DescribeIpamPools d).1 !! "ipam_scope_id"
       = Some (FValue (VString scopeId))).
Proof.
  intros Hinput Hout Harn. split.
  - intros Hc. pose proof (scopeIdOf_Panic pool arn Harn Hc) as Hpanic.
    unfold dataSourceVPCIpamPoolRead. by rewrite Hinput, Hout, Hpanic.
  - intros Hc.
    destruct (scopeIdOf_Ok pool arn Harn Hc) as (first & scopeId & more & Hsplit & Hid).
    exists first, scopeId, more. split; [done|].
    by apply (read_scope_id d input pool rest).
Qed.

(** C6.  When the list query succeeds the read raises no error, whether
    the query returned no record, one, or several: with no record it
    returns leaving the state as it was, and with several it does exactly
    what it does when the service returns the first of them alone, whose
    fields it projects onto the output attributes. *)
Theorem pool_first_result (d : ResourceData) (input : DescribeIpamPoolsInput Filter)
    (output : option (list (option IpamPool))) :
  input_of d = Ok input ->
  DescribeIpamPools input = inr output ->
  (forall e, (read DescribeIpamPools d).2 <> Err e) /\
  (output = None \/ output = Some [] -> read DescribeIpamPools d = (d, Ok tt)) /\
  (forall first rest only_first,
     output = Some (first :: rest) ->
     only_first input = inr (Some [first]) ->
     read DescribeIpamPools d = read only_first d) /\
  (forall pool rest scopeId,
     output = Some (Some pool :: rest) ->
     scopeIdOf pool = Ok scopeId ->
     (read DescribeIpamPools d).2 = Ok tt /\
     Id (read DescribeIpamPools d).1 = SDK.StringValue (IpamPoolId pool) /\
     forall d', d' = (read DescribeIpamPools d).1 ->
       rd_fields d' !! "arn" = FValue ∘ VString <$> IpamPoolArn pool /\
       rd_fields d' !! "description" = FValue ∘ VString <$> Description pool /\
       rd_fields d' !! "ipam_scope_id" = Some (FValue (VString scopeId)) /\
       rd_fields d' !! "ipam_scope_type" = FValue ∘ VString <$> IpamScopeType pool /\
       rd_fields d' !! "locale" = FValue ∘ VString <$> Locale pool /\
       rd_fields d' !! "pool_depth" = FValue ∘ VInt <$> PoolDepth pool /\
       rd_fields d' !! "aws_service" = FValue ∘ VString <$> AwsService pool /\
       rd_fields d' !! "source_ipam_pool_id"
         = FValue ∘ VString <$> SourceIpamPoolId pool /\
       rd_fields d' !! "state" = FValue ∘ VString <$> State pool /\
       rd_fields d' !! "auto_import" = FValue ∘ VBool <$> AutoImport pool).
Proof.
  unfold dataSourceVPCIpamPoolRead. intros -> ->.
  split; [|split; [|split]].
  - intros e. destruct output as [[|[pool|] rest]|]; cbn [snd]; try done.
    unfold scopeIdOf.
    destruct (IpamScopeArn pool) as [arn|]; [|done].
    by destruct (Strings.Split arn "/" !! 1%nat).
  - by intros [->| ->].
  - intros first rest only_first -> ->. by destruct first.
  - intros pool rest scopeId -> ->. cbn [fst snd].
    split; [done|]. split; [by destruct (PubliclyAdvertisable pool)|].
    intros d' ->. unfold SetString, SetInt, SetBool.
    repeat split; repeat (rewrite Set_other_key by done); by rewrite Set_same_key.
Qed.

End DataSourceFacts.

Lemma first_pool_has_separator :
  Contains "arn:aws:ec2::123456789012:ipam-scope/ipam-scope-0a1b2c" "/".
Proof. unfold Contains. cbn. do 36 right. by left. Defined.

Lemma malformed_pool_has_no_separator : ~ Contains "ipam-scope-0a1b2c" "/".
Proof. apply Count_zero_iff. reflexivity. Defined.

Lemma pool_scope_id_witness :
  rd_fields (lookup [Some first_pool; Some second_pool]).1 !! "ipam_scope_id"
    = Some (FValue (VString "ipam-scope-0a1b2c")) /\
  (lookup [Some malformed_pool]).2 = Panic IndexOutOfRange.
Proof.
  split.
  - destruct (pool_scope_id (string * list string) filter_values no_tags
                (returning [Some first_pool; Some second_pool]) no_filters
                (mkDescribeIpamPoolsInput _ [] []) first_pool [Some second_pool]
                _ eq_refl eq_refl eq_refl) as [_ Hok].
    destruct (Hok first_pool_has_separator)
      as (first & scopeId & more & Hsplit & _ & Hfield).
    injection Hsplit as _ <- _. exact Hfield.
  - destruct (pool_scope_id (string * list string) filter_values no_tags
                (returning [Some malformed_pool]) no_filters
                (mkDescribeIpamPoolsInput _ [] []) malformed_pool []
                _ eq_refl eq_refl eq_refl) as [Hpanic _].
    exact (Hpanic malformed_pool_has_no_separator).
Defined.

(** With no filter and two matching records the attributes come from the
    first, and with no record the read returns without an error and leaves
    the state as it was. *)
Lemma pool_first_result_witness :
  (lookup [Some first_pool; Some second_pool]).2 = Ok tt /\
  Id (lookup [Some first_pool; Some second_pool]).1 = "ipam-pool-1" /\
  rd_fields (lookup [Some first_pool; Some second_pool]).1 !! "arn"
    = Some (FValue (VString "arn:aws:ec2::123456789012:ipam-pool/ipam-pool-1")) /\
  lookup [Some first_pool; Some second_pool] = lookup [Some first_pool] /\
  lookup [] = (no_filters, Ok tt).
Proof.
  destruct (pool_first_result (string * list string) filter_values no_tags
              (returning [Some first_pool; Some second_pool]) no_filters
              (mkDescribeIpamPoolsInput _ [] []) _ eq_refl eq_refl)
    as (_ & _ & Hfirst & Hfields).
  destruct (Hfields first_pool [Some second_pool] "ipam-scope-0a1b2c"
              eq_refl eq_refl) as (Hok & Hid & Hrest).
  destruct (Hrest _ eq_refl) as (Harn & _).
  split; [exact Hok|]. split; [exact Hid|]. split; [exact Harn|].
  split.
  - exact (Hfirst (Some first_pool) [Some second_pool]
             (returning [Some first_pool]) eq_refl eq_refl).
  - destruct (pool_first_result (string * list string) filter_values no_tags
                (returning []) no_filters
                (mkDescribeIpamPoolsInput _ [] []) _ eq_refl eq_refl)
      as (_ & Hzero & _).
    apply Hzero. by right.
Defined.

(** Two records and no filter: the state after the read. *)
Example lookup_two_records :
  lookup [Some first_pool; Some second_pool]
  = (mkResourceData "ipam-pool-1" true ∅
       (<["allocation_resource_tags" := FMap ∅]>
       (<["auto_import" := FValue (VBool false)]>
       (<["arn" := FValue (VString "arn:aws:ec2::123456789012:ipam-pool/ipam-pool-1")]>
       (<["description" := FValue (VString "pool ipam-pool-1")]>
       (<["ipam_scope_id" := FValue (VString "ipam-scope-0a1b2c")]>
       (<["ipam_scope_type" := FValue (VString "private")]>
       (<["locale" := FValue (VString "us-east-1")]>
       (<["pool_depth" := FValue (VInt 1)]>
       (<["state" := FValue (VString "create-complete")]> ∅))))))))),
     Ok tt).
Proof. vm_compute. reflexivity. Qed.

End PoolFacts.

(** ** The requests an adapter method sends *)

Module EffectsFacts.
Import Schema Effects Spec.
Local Open Scope list_scope.

Lemma bind_ret {A B : Type} (a : A) (k : A -> M B) (w : world) :
  bind (ret a) k w = k a w.
Proof. reflexivity. Qed.

Lemma bind_lift_Ok {A B : Type} (a : A) (k : A -> M B) (w : world) :
  bind (lift (Ok a)) k w = k a w.
Proof. reflexivity. Qed.

Lemma bind_fail {A B : Type} (e : error) (k : A -> M B) (w : world) :
  bind (fail e) k w = (w, Err e).
Proof. reflexivity. Qed.

Lemma bind_getD {B : Type} (k : ResourceData -> M B) (w : world) :
  bind getD k w = k (w_d w) w.
Proof. reflexivity. Qed.

Lemma bind_send {A B : Type} (c : SDK.call) (answer : list SDK.call -> A)
    (k : A -> M B) (w : world) :
  bind (send c answer) k w
  = k (answer (w_calls w)) (mkWorld (w_d w) (w_calls w ++ [c])).
Proof. reflexivity. Qed.

Lemma bind_assoc {A B C : Type} (m : M A) (k1 : A -> M B) (k2 : B -> M C) (w : world) :
  bind (bind m k1) k2 w = bind m (fun a => bind (k1 a) k2) w.
Proof.
  unfold bind. destruct (m w) as [w' [a|e|]]; [|done|done].
  by destruct (k1 a w') as [w'' [b|e|]].
Qed.

Lemma sends_no_lb_pure {A : Type} (m : M A) :
  (forall w, w_calls (m w).1 = w_calls w) -> sends_no_lb m.
Proof.
  intros H w. exists []. rewrite H, app_nil_r. by split; [|constructor].
Qed.

Lemma sends_no_lb_ret {A : Type} (a : A) : sends_no_lb (ret a).
Proof. by apply sends_no_lb_pure. Qed.

Lemma sends_no_lb_fail {A : Type} (e : error) : sends_no_lb (@fail A e).
Proof. by apply sends_no_lb_pure. Qed.

Lemma sends_no_lb_lift {A : Type} (o : outcome A) : sends_no_lb (lift o).
Proof. by apply sends_no_lb_pure. Qed.

Lemma sends_no_lb_getD : sends_no_lb getD.
Proof. by apply sends_no_lb_pure. Qed.

Lemma sends_no_lb_modD (f : ResourceData -> ResourceData) : sends_no_lb (modD f).
Proof. by apply sends_no_lb_pure. Qed.

Lemma sends_no_lb_check (e : option error) : sends_no_lb (check e).
Proof. destruct e; by apply sends_no_lb_pure. Qed.

Lemma sends_no_lb_send {A : Type} (c : SDK.call) (answer : list SDK.call -> A) :
  is_lb_call c = false -> sends_no_lb (send c answer).
Proof.
  intros Hc w. exists [c]. split; [done|]. by constructor.
Qed.

Lemma sends_no_lb_bind {A B : Type} (m : M A) (k : A -> M B) :
  sends_no_lb m -> (forall a, sends_no_lb (k a)) -> sends_no_lb (bind m k).
Proof.
  intros Hm Hk w. destruct (Hm w) as (l1 & Hl1 & Hq1). unfold bind.
  destruct (m w) as [w' [a|e|]] eqn:Hmw; cbn [fst] in Hl1.
  - destruct (Hk a w') as (l2 & Hl2 & Hq2).
    exists (l1 ++ l2). rewrite Hl2, Hl1, app_assoc.
    split; [done|]. by apply Forall_app.
  - by exists l1.
  - by exists l1.
Qed.

Lemma sends_no_lb_when (b : bool) (m : M unit) :
  sends_no_lb m -> sends_no_lb (when b m).
Proof. intros Hm. destruct b; [done|]. apply sends_no_lb_ret. Qed.

End EffectsFacts.

(** Step through a method body, showing it sends no load-balancer
    request. *)
Ltac no_lb_step :=
  first
    [ apply EffectsFacts.sends_no_lb_bind; [|intros ?]
    | apply EffectsFacts.sends_no_lb_ret
    | apply EffectsFacts.sends_no_lb_fail
    | apply EffectsFacts.sends_no_lb_lift
    | apply EffectsFacts.sends_no_lb_getD
    | apply EffectsFacts.sends_no_lb_modD
    | apply EffectsFacts.sends_no_lb_check
    | apply EffectsFacts.sends_no_lb_when
    | apply EffectsFacts.sends_no_lb_send; reflexivity
    | match goal with
      | |- Spec.sends_no_lb (match ?x with _ => _ end) => destruct x
      | |- Spec.sends_no_lb (if ?x then _ else _) => destruct x
      end ].

(** ** [Update] and the load balancer of a layer *)

Module UpdateFacts.
Import Schema Assert Effects OpsWorks Spec Fixtures EffectsFacts.
Local Open Scope list_scope.

Section Collaborators.

Variable ExpandStringList : list elem -> list string.
Variable ExpandStringSet : list elem -> list string.
Variable FlattenStringList : list string -> list elem.
Variable NormalizeJsonString : string -> error + string.
Variable IgnoreTags : gmap string string -> gmap string string.
Variable RemoveDefaultConfig : gmap string string -> gmap string string.
Variable conn : SDK.OpsWorks.
Variable StringHashcode : string -> Z.
Variable HashString : elem -> Z.

(** The methods with the collaborators of this section. *)
#[local] Abbreviation read :=
  (Read FlattenStringList NormalizeJsonString IgnoreTags RemoveDefaultConfig conn
     StringHashcode HashString).
#[local] Abbreviation update :=
  (Update ExpandStringList ExpandStringSet FlattenStringList NormalizeJsonString
     IgnoreTags RemoveDefaultConfig conn StringHashcode HashString).
#[local] Abbreviation request_of := (UpdateLayerRequest ExpandStringList ExpandStringSet).

Lemma Read_sends_no_lb (lt : opsworksLayerType) : sends_no_lb (read lt).
Proof. unfold Read. repeat no_lb_step. Qed.

(** What follows the load-balancer block of [Update] sends no
    load-balancer request. *)
Lemma Update_rest_sends_no_lb (lt : opsworksLayerType) (d : ResourceData)
    (req : SDK.UpdateLayerInput.t) :
  sends_no_lb
    (err <- send (SDK.UpdateLayer req) (fun sent => SDK.onUpdateLayer conn sent req) ;;
     check err ;;
     when (HasChange d TypeMap "tags_all")
       (let '(o, n) := GetChange d TypeMap "tags_all" in
        arn <- lift (asString (Get d TypeString "arn")) ;;
        err <- send (SDK.UpdateTags arn o n) (fun sent => SDK.onUpdateTags conn sent arn o n) ;;
        match err with
        | Some err => fail (Wrapf ("error updating Opsworks Layer (" ++ arn ++ ") tags")%string err)
        | None => ret tt
        end) ;;
     read lt)%go.
Proof.
  repeat first [apply Read_sends_no_lb | no_lb_step].
Qed.

(** C5 (as amended).  An update of a layer whose load-balancer identifier
    changed from [old] to [new], and whose request is built without error,
    sends after the requests [sent] before it: a detach request for [old]
    exactly when [old] is not empty; then, unless that detach request
    failed, an attach request for [new] exactly when [new] is not empty;
    and after these no other load-balancer request.  If the detach request
    fails, the update returns its error, having sent nothing after it and
    with the local state as it was; and so it does for the error of the
    attach request. *)
Theorem Update_load_balancer (lt : opsworksLayerType) (d : ResourceData)
    (sent : list SDK.call) (attrs : bag) (req : SDK.UpdateLayerInput.t)
    (old new : string) :
  AttributeMap lt d = Ok attrs ->
  request_of lt d attrs = Ok req ->
  GetChange d TypeString "elastic_load_balancer"
    = (FValue (VString old), FValue (VString new)) ->
  old <> new ->
  (exists others,
     w_calls (update lt (mkWorld d sent)).1
     = sent
       ++ (if decide (old = "") then []
           else [SDK.DetachElasticLoadBalancer old (Id d)])
       ++ (if detach_fails conn sent (Id d) old then []
           else if decide (new = "") then []
           else [SDK.AttachElasticLoadBalancer new (Id d)])
       ++ others /\
     Forall (fun c => is_lb_call c = false) others) /\
  (forall e, old <> "" ->
     SDK.onDetachElasticLoadBalancer conn sent old (Id d) = Some e ->
     update lt (mkWorld d sent)
     = (mkWorld d (sent ++ [SDK.DetachElasticLoadBalancer old (Id d)]), Err e)) /\
  (forall e, new <> "" ->
     detach_fails conn sent (Id d) old = false ->
     let detach := if decide (old = "") then []
                   else [SDK.DetachElasticLoadBalancer old (Id d)] in
     SDK.onAttachElasticLoadBalancer conn (sent ++ detach) new (Id d) = Some e ->
     update lt (mkWorld d sent)
     = (mkWorld d (sent ++ detach ++ [SDK.AttachElasticLoadBalancer new (Id d)]),
        Err e)).
Proof.
  intros Hattrs Hreq Hchange Hne.
  assert (Hhas : HasChange d TypeString "elastic_load_balancer" = true).
  { unfold HasChange. rewrite Hchange. apply bool_decide_eq_true_2. congruence. }
  split.
  {
    unfold Update.
    rewrite bind_getD. cbn [w_d].
    rewrite Hattrs, bind_lift_Ok, Hreq, bind_lift_Ok, Hhas. cbn [when].
    rewrite Hchange. cbn [asString].
    rewrite bind_assoc, bind_lift_Ok, bind_assoc, bind_lift_Ok, bind_assoc.
    unfold detach_fails.
    pose proof (Update_rest_sends_no_lb lt d req) as Hrest.
    destruct (String.eqb_spec old "") as [Hold|Hold];
      destruct (String.eqb_spec new "") as [Hnew|Hnew];
      cbn [negb when];
      (destruct (decide (old = "")) as [Ho|Ho]; try done);
      (destruct (decide (new = "")) as [Hn|Hn]; try done).
    - congruence.
    - (* only attach *)
      rewrite bind_ret, bind_assoc, bind_send. cbn [w_d w_calls].
      destruct (SDK.onAttachElasticLoadBalancer conn sent new (Id d)) as [e|];
        cbn [check].
      + rewrite bind_fail. cbn. exists []. by split; [|constructor].
      + rewrite bind_ret.
        destruct (Hrest (mkWorld d (sent ++ [SDK.AttachElasticLoadBalancer new (Id d)])))
          as (others & -> & Hq).
        exists others. cbn [w_calls]. by rewrite <- !app_assoc.
    - (* only detach *)
      rewrite bind_assoc, bind_send. cbn [w_d w_calls].
      destruct (SDK.onDetachElasticLoadBalancer conn sent old (Id d)) as [e|];
        cbn [check].
      + rewrite bind_fail. cbn.
        exists []. by split; [|constructor].
      + rewrite bind_ret, bind_ret.
        destruct (Hrest (mkWorld d (sent ++ [SDK.DetachElasticLoadBalancer old (Id d)])))
          as (others & -> & Hq).
        exists others. cbn [w_calls]. by rewrite <- !app_assoc.
    - (* detach, then attach *)
      rewrite bind_assoc, bind_send. cbn [w_d w_calls].
      destruct (SDK.onDetachElasticLoadBalancer conn sent old (Id d)) as [e|];
        cbn [check].
      + rewrite bind_fail. cbn.
        exists []. by split; [|constructor].
      + rewrite bind_ret, bind_assoc, bind_send. cbn [w_d w_calls].
        destruct (SDK.onAttachElasticLoadBalancer conn _ new (Id d)) as [e|];
          cbn [check].
        * rewrite bind_fail. cbn.
          exists []. rewrite <- !app_assoc. by split; [|constructor].
        * rewrite bind_ret.
          destruct (Hrest (mkWorld d ((sent ++ [SDK.DetachElasticLoadBalancer old (Id d)])
                                        ++ [SDK.AttachElasticLoadBalancer new (Id d)])))
            as (others & -> & Hq).
          exists others. cbn [w_calls]. by rewrite <- !app_assoc.
  }
  {
    unfold Update.
    rewrite bind_getD. cbn [w_d].
    rewrite Hattrs, bind_lift_Ok, Hreq, bind_lift_Ok, Hhas. cbn [when].
    rewrite Hchange. cbn [asString].
    rewrite bind_assoc, bind_lift_Ok, bind_assoc, bind_lift_Ok, bind_assoc.
    split.
    - intros e Hold Hdetach.
      destruct (String.eqb_spec old "") as [Heq|_]; [done|]. cbn [negb when].
      rewrite bind_assoc, bind_send. cbn [w_d w_calls]. rewrite Hdetach. cbn [check].
      by rewrite bind_fail.
    - intros e Hnew Hok. cbn zeta. unfold detach_fails in Hok.
      destruct (String.eqb_spec new "") as [Heq|_]; [done|].
      destruct (String.eqb_spec old "") as [Hold|Hold]; cbn [negb when];
        destruct (decide (old = "")) as [Ho|Ho]; try done.
      + rewrite app_nil_r. cbn [app]. intros Hattach.
        rewrite bind_ret, bind_assoc, bind_send. cbn [w_d w_calls].
        rewrite Hattach. cbn [check]. by rewrite bind_fail.
      + intros Hattach. apply bool_decide_eq_false in Hok.
        rewrite bind_assoc, bind_send. cbn [w_d w_calls].
        destruct (SDK.onDetachElasticLoadBalancer conn sent old (Id d)) as [e'|] eqn:Hdetach;
          [by destruct Hok|].
        cbn [check]. rewrite bind_ret, bind_assoc, bind_send. cbn [w_d w_calls].
        rewrite Hattach. cbn [check]. rewrite bind_fail. by rewrite <- app_assoc.
  }
Qed.

End Collaborators.

Lemma lb_change_attributes (old new : string) :
  AttributeMap example_layer (lb_change old new) = Ok unset_attributes.
Proof. vm_compute. reflexivity. Defined.

Lemma lb_change_request (old new : string) :
  UpdateLayerRequest strings_of strings_of example_layer
    (lb_change old new) unset_attributes = Ok unset_request.
Proof. vm_compute. reflexivity. Defined.

Lemma Update_load_balancer_witness :
  (exists others,
     w_calls (update_on healthy example_layer (lb_change "lb-1" "lb-2")).1
     = [SDK.DetachElasticLoadBalancer "lb-1" "layer-1";
        SDK.AttachElasticLoadBalancer "lb-2" "layer-1"] ++ others /\
     Forall (fun c => is_lb_call c = false) others) /\
  update_on refusing_detach example_layer (lb_change "lb-1" "lb-2")
  = (mkWorld (lb_change "lb-1" "lb-2")
       [SDK.DetachElasticLoadBalancer "lb-1" "layer-1"],
     Err detach_error).
Proof.
  split.
  - destruct (Update_load_balancer strings_of strings_of elems_of json_ok
                all_tags all_tags healthy hash_of_string hash_of_elem example_layer
                (lb_change "lb-1" "lb-2") [] unset_attributes unset_request
                "lb-1" "lb-2"
                (lb_change_attributes "lb-1" "lb-2")
                (lb_change_request "lb-1" "lb-2") eq_refl)
      as ((others & Hcalls & Hq) & _); [discriminate|].
    exists others. split; [exact Hcalls|exact Hq].
  - destruct (Update_load_balancer strings_of strings_of elems_of json_ok
                all_tags all_tags refusing_detach hash_of_string hash_of_elem
                example_layer
                (lb_change "lb-1" "lb-2") [] unset_attributes unset_request
                "lb-1" "lb-2"
                (lb_change_attributes "lb-1" "lb-2")
                (lb_change_request "lb-1" "lb-2") eq_refl)
      as (_ & Hrefused & _); [discriminate|].
    exact (Hrefused detach_error ltac:(discriminate) eq_refl).
Defined.

(** C5 as stated fails.  The identifier changes from "lb-1" to "lb-2",
    both non-empty.  On a service that refuses the detach request,
    [Update] returns that error having sent the detach request only, not
    the detach followed by the attach; and for a layer type whose
    descriptor declares an unsupported attribute type, [Update] returns
    the error of [AttributeMap] having sent no request at all. *)
Lemma Update_detach_refused :
  GetChange (lb_change "lb-1" "lb-2") TypeString "elastic_load_balancer"
    = (FValue (VString "lb-1"), FValue (VString "lb-2")) /\
  update_on refusing_detach example_layer (lb_change "lb-1" "lb-2")
    = (mkWorld (lb_change "lb-1" "lb-2")
         [SDK.DetachElasticLoadBalancer "lb-1" "layer-1"],
       Err detach_error) /\
  lb_calls (update_on refusing_detach example_layer (lb_change "lb-1" "lb-2")).1
    <> [SDK.DetachElasticLoadBalancer "lb-1" "layer-1";
        SDK.AttachElasticLoadBalancer "lb-2" "layer-1"] /\
  update_on healthy broken_layer (lb_change "lb-1" "lb-2")
    = (mkWorld (lb_change "lb-1" "lb-2") [],
       Err (UnsupportedAttributeType TypeFloat)).
Proof.
  split; [reflexivity|]. split; [vm_compute; reflexivity|].
  split; [vm_compute; discriminate|]. vm_compute. reflexivity.
Qed.

(** The three updates of the specification, on a service that accepts
    every request. *)
Example Update_replace :
  lb_calls (update_on healthy example_layer (lb_change "lb-1" "lb-2")).1
  = [SDK.DetachElasticLoadBalancer "lb-1" "layer-1";
     SDK.AttachElasticLoadBalancer "lb-2" "layer-1"].
Proof. vm_compute. reflexivity. Qed.

Example Update_attach_only :
  lb_calls (update_on healthy example_layer (lb_change "" "lb-2")).1
  = [SDK.AttachElasticLoadBalancer "lb-2" "layer-1"].
Proof. vm_compute. reflexivity. Qed.

Example Update_detach_only :
  lb_calls (update_on healthy example_layer (lb_change "lb-1" "")).1
  = [SDK.DetachElasticLoadBalancer "lb-1" "layer-1"].
Proof. vm_compute. reflexivity. Qed.

(** All the requests of the first of them, in order. *)
Example Update_replace_requests :
  w_calls (update_on healthy example_layer (lb_change "lb-1" "lb-2")).1
  = [SDK.DetachElasticLoadBalancer "lb-1" "layer-1";
     SDK.AttachElasticLoadBalancer "lb-2" "layer-1";
     SDK.UpdateLayer unset_request;
     SDK.DescribeLayers ["layer-1"];
     SDK.DescribeElasticLoadBalancers ["layer-1"];
     SDK.ListTags "arn:aws:opsworks:us-east-1:123456789012:layer/layer-1"].
Proof. vm_compute. reflexivity. Qed.

End UpdateFacts.

(** ** More on the attribute-bag projection *)

Module ProjectionFacts.
Import Schema Assert OpsWorks Spec Fixtures Coverage SchemaFacts AttributeBagFacts.
Local Open Scope list_scope.

Lemma clear_all_fields (keys : list string) :
  forall (d : ResourceData) (k : string),
    rd_fields (clear_all keys d) !! k
    = if decide (k ∈ keys) then None else rd_fields d !! k.
Proof.
  induction keys as [|key keys IH]; intros d k; cbn [clear_all foldl].
  - by rewrite decide_False by apply not_elem_of_nil.
  - fold (clear_all keys (Set_ d key None)). rewrite IH.
    destruct (decide (k ∈ keys)) as [Hin|Hin].
    + rewrite decide_True by (apply elem_of_cons; by right). done.
    + destruct (decide (k = key)) as [->|Hne].
      * rewrite decide_True by (apply elem_of_cons; by left).
        apply Set_same_key.
      * rewrite decide_False by (rewrite elem_of_cons; tauto).
        by apply Set_other_key.
Qed.

Lemma clear_all_rest (keys : list string) :
  forall d : ResourceData,
    rd_id (clear_all keys d) = rd_id d /\
    rd_isNew (clear_all keys d) = rd_isNew d /\
    rd_state (clear_all keys d) = rd_state d.
Proof.
  induction keys as [|key keys IH]; intros d; cbn [clear_all foldl]; [done|].
  fold (clear_all keys (Set_ d key None)). by destruct (IH (Set_ d key None)).
Qed.

(** The rounds over entries that are write-only or have no value in the
    bag clear the fields of those that are not write-only, and the [range]
    goes on. *)
Lemma SetAttributeMap_range_skip
    (pre rest : list (string * opsworksLayerTypeAttribute)) (attrs : bag) :
  forall d : ResourceData,
    Forall (passed_over attrs) pre ->
    SetAttributeMap_range (pre ++ rest) d attrs
    = SetAttributeMap_range rest (clear_all (readable_keys pre) d) attrs.
Proof.
  unfold readable_keys, local_keys.
  induction pre as [|[key def] pre IH]; intros d Hpre; [done|].
  apply Forall_cons in Hpre as [Hhead Hpre].
  cbn [app SetAttributeMap_range List.filter snd].
  destruct (WriteOnly def) eqn:Hwo; cbn [negb]; [by apply IH|].
  destruct Hhead as [Hhead|Hhead]; [cbn in Hhead; congruence|].
  cbn [fmap list_fmap clear_all foldl fst].
  destruct (attrs !! AttrName def) as [[s|]|] eqn:Hp.
  - exfalso. apply Hhead. by exists s.
  - by apply IH.
  - by apply IH.
Qed.

Lemma SetAttributeMap_range_rest
    (entries : list (string * opsworksLayerTypeAttribute)) (attrs : bag) :
  forall d : ResourceData,
    rd_id (SetAttributeMap_range entries d attrs).1 = rd_id d /\
    rd_isNew (SetAttributeMap_range entries d attrs).1 = rd_isNew d /\
    rd_state (SetAttributeMap_range entries d attrs).1 = rd_state d.
Proof.
  induction entries as [|[key def] rest IH]; intros d; [done|].
  cbn [SetAttributeMap_range].
  destruct (WriteOnly def); [by apply IH|].
  destruct (attrs !! AttrName def) as [[s|]|].
  - destruct (Type_ def); try done. by destruct (Strconv.Atoi s).
  - by destruct (IH (Set_ d key None)).
  - by destruct (IH (Set_ d key None)).
Qed.

Lemma readable_keys_spec
    (entries : list (string * opsworksLayerTypeAttribute)) (k : string) :
  k ∈ readable_keys entries <->
  exists def, (k, def) ∈ entries /\ WriteOnly def = false.
Proof.
  unfold readable_keys, local_keys. rewrite list_elem_of_fmap. split.
  - intros ([key def] & -> & Hin). apply list_elem_of_In, filter_In in Hin as [Hin Hwo].
    exists def. split; [by apply list_elem_of_In|].
    cbn in Hwo. by destruct (WriteOnly def).
  - intros (def & Hin & Hwo). exists (k, def). split; [done|].
    apply list_elem_of_In, filter_In. split; [by apply list_elem_of_In|].
    cbn. by rewrite Hwo.
Qed.

(** X1.  [SetAttributeMap] writes nothing but the fields of the
    attributes that are not write-only: the id, the prior state and every
    other field are as before the call, whatever the bag holds and however
    the call ends; in particular a write-only attribute keeps its local
    value. *)
Theorem SetAttributeMap_writes_readable_only (lt : opsworksLayerType)
    (d : ResourceData) (attrs : bag) :
  Id (SetAttributeMap lt d attrs).1 = Id d /\
  rd_state (SetAttributeMap lt d attrs).1 = rd_state d /\
  (forall k, k ∉ readable_keys (Attributes lt) ->
     rd_fields (SetAttributeMap lt d attrs).1 !! k = rd_fields d !! k) /\
  (wf_attributes lt ->
   forall key def, (key, def) ∈ Attributes lt -> WriteOnly def = true ->
     rd_fields (SetAttributeMap lt d attrs).1 !! key = rd_fields d !! key).
Proof.
  unfold SetAttributeMap, Id.
  destruct (SetAttributeMap_range_rest (Attributes lt) attrs d) as (Hid & _ & Hst).
  split; [done|]. split; [done|]. split.
  - intros k Hk. apply SetAttributeMap_range_frame.
    intros key def Hin Hwo ->. apply Hk, readable_keys_spec. eauto.
  - intros Hwf key def Hin Hwo. apply SetAttributeMap_range_frame.
    intros key' def' Hin' Hwo' ->.
    rewrite (NoDup_keys_unique _ _ _ _ Hwf Hin Hin') in Hwo. congruence.
Qed.

(** X2.  What a read of the bag does when the [range] reaches [(key, def)]
    first among the attributes that are not write-only and have a value in
    the bag: it returns no error; [key] holds the decoded value (a string
    as it is, an integer parsed or cleared when it does not parse, a
    boolean false for the token "false" and true otherwise); the fields of
    the attributes visited before it that are not write-only are cleared;
    every other field, those of the attributes after it included, is as it
    was. *)
Theorem SetAttributeMap_first_present (lt : opsworksLayerType)
    (pre post : list (string * opsworksLayerTypeAttribute))
    (key : string) (def : opsworksLayerTypeAttribute)
    (d : ResourceData) (attrs : bag) (strValue : string) :
  Attributes lt = pre ++ (key, def) :: post ->
  Forall (passed_over attrs) pre ->
  WriteOnly def = false ->
  supported (Type_ def) ->
  attrs !! AttrName def = Some (Some strValue) ->
  (SetAttributeMap lt d attrs).2 = None /\
  rd_fields (SetAttributeMap lt d attrs).1 !! key = decoded (Type_ def) strValue /\
  forall k, k <> key ->
    rd_fields (SetAttributeMap lt d attrs).1 !! k
    = if decide (k ∈ readable_keys pre) then None else rd_fields d !! k.
Proof.
  intros Hlt Hpre Hwo Hsup Hp. unfold SetAttributeMap.
  rewrite Hlt, SetAttributeMap_range_skip by done.
  destruct (SetAttributeMap_range_decodes key def post
              (clear_all (readable_keys pre) d) attrs strValue Hwo Hsup Hp)
    as [Herr Hkey].
  split; [done|]. split; [done|].
  intros k Hne.
  rewrite SetAttributeMap_range_present; [|done|by exists strValue|done].
  apply clear_all_fields.
Qed.

Lemma SetAttributeMap_first_present_witness :
  (SetAttributeMap example_layer example_state garbage_bag).2 = None /\
  rd_fields (SetAttributeMap example_layer example_state garbage_bag).1
    !! "stats_enabled" = Some (FValue (VBool true)) /\
  rd_fields (SetAttributeMap example_layer_url_first example_state garbage_bag).1
    !! "stats_url" = None.
Proof.
  destruct (SetAttributeMap_first_present example_layer []
              [("stats_url", stats_url); ("stats_password", stats_password);
               ("allocated_memory", allocated_memory)]
              "stats_enabled" stats_enabled example_state garbage_bag "true"
              eq_refl) as (Herr & Hkey & _).
  { constructor. }
  { reflexivity. }
  { right. by right. }
  { reflexivity. }
  split; [exact Herr|]. split; [exact Hkey|].
  destruct (SetAttributeMap_first_present example_layer_url_first
              [("stats_url", stats_url)]
              [("stats_password", stats_password);
               ("allocated_memory", allocated_memory)]
              "stats_enabled" stats_enabled example_state garbage_bag "true"
              eq_refl) as (_ & _ & Hothers).
  { constructor; [|constructor]. right. intros [s Hs]. discriminate Hs. }
  { reflexivity. }
  { right. by right. }
  { reflexivity. }
  exact (Hothers "stats_url" ltac:(discriminate)).
Defined.

(** X3.  When the bag holds a value for none of the attributes that are
    not write-only (an empty bag, say), [SetAttributeMap] clears the field
    of every one of them, leaves every other field as it was and returns no
    error. *)
Theorem SetAttributeMap_none_present (lt : opsworksLayerType)
    (d : ResourceData) (attrs : bag) :
  Forall (passed_over attrs) (Attributes lt) ->
  (SetAttributeMap lt d attrs).2 = None /\
  forall k,
    rd_fields (SetAttributeMap lt d attrs).1 !! k
    = if decide (k ∈ readable_keys (Attributes lt)) then None
      else rd_fields d !! k.
Proof.
  intros Hall. unfold SetAttributeMap.
  pose proof (SetAttributeMap_range_skip (Attributes lt) [] attrs d Hall) as Hskip.
  rewrite app_nil_r in Hskip. rewrite Hskip. cbn [SetAttributeMap_range fst snd].
  split; [done|]. intros k. apply clear_all_fields.
Qed.

Lemma SetAttributeMap_none_present_witness :
  Forall (passed_over ∅) (Attributes example_layer) /\
  (SetAttributeMap example_layer example_state ∅).2 = None /\
  rd_fields (SetAttributeMap example_layer example_state ∅).1 !! "stats_enabled" = None /\
  rd_fields (SetAttributeMap example_layer example_state ∅).1 !! "stats_password"
    = Some (FValue (VString "hunter2")).
Proof.
  assert (Hall : Forall (passed_over ∅) (Attributes example_layer)).
  { apply Forall_forall. intros e _. right. intros [s Hs]. discriminate Hs. }
  split; [exact Hall|].
  destruct (SetAttributeMap_none_present example_layer example_state ∅ Hall)
    as [Herr Hfields].
  split; [exact Herr|]. split.
  - exact (Hfields "stats_enabled").
  - exact (Hfields "stats_password").
Defined.

End ProjectionFacts.

(** ** Errors, order and round trip of the projection *)

Module ProjectionRoundTrip.
Import Schema Assert OpsWorks Spec Fixtures Coverage SchemaFacts AttributeBagFacts.
Local Open Scope list_scope.

Lemma SetAttributeMap_range_error
    (entries : list (string * opsworksLayerTypeAttribute)) (attrs : bag) (e : error) :
  forall d : ResourceData,
    (SetAttributeMap_range entries d attrs).2 = Some e ->
    exists key def,
      (key, def) ∈ entries /\ WriteOnly def = false /\ present attrs def /\
      ~ supported (Type_ def) /\ e = UnsupportedAttributeType (Type_ def).
Proof.
  induction entries as [|[key def] rest IH]; intros d He; [discriminate|].
  assert (Hrest : forall d', (SetAttributeMap_range rest d' attrs).2 = Some e ->
            exists key' def',
              (key', def') ∈ (key, def) :: rest /\ WriteOnly def' = false /\
              present attrs def' /\ ~ supported (Type_ def') /\
              e = UnsupportedAttributeType (Type_ def')).
  { intros d' Hd'. destruct (IH d' Hd') as (key' & def' & Hin & Hfacts).
    exists key', def'. split; [apply elem_of_cons; by right|done]. }
  cbn [SetAttributeMap_range] in He.
  destruct (WriteOnly def) eqn:Hwo; [by eapply Hrest|].
  destruct (attrs !! AttrName def) as [[s|]|] eqn:Hp; [|by eapply Hrest..].
  exists key, def. split; [apply elem_of_cons; by left|].
  split; [done|]. split; [by exists s|].
  unfold supported.
  destruct (Type_ def); cbn [snd] in He; try discriminate He;
    try (injection He as <-; split; [naive_solver|done]).
  by destruct (Strconv.Atoi s).
Qed.

(** X4.  [SetAttributeMap] returns an error only for an attribute that is
    not write-only, has a value in the bag and declares a type other than
    string, integer or boolean, and the error names that type; a value that
    does not parse is never an error.  When every such attribute declares
    one of the three types, the call returns no error. *)
Theorem SetAttributeMap_error (lt : opsworksLayerType) (d : ResourceData)
    (attrs : bag) :
  (forall e, (SetAttributeMap lt d attrs).2 = Some e ->
     exists key def,
       (key, def) ∈ Attributes lt /\ WriteOnly def = false /\ present attrs def /\
       ~ supported (Type_ def) /\ e = UnsupportedAttributeType (Type_ def)) /\
  ((forall key def, (key, def) ∈ Attributes lt -> WriteOnly def = false ->
                    present attrs def -> supported (Type_ def)) ->
   (SetAttributeMap lt d attrs).2 = None).
Proof.
  unfold SetAttributeMap. split.
  - intros e. apply SetAttributeMap_range_error.
  - intros Hsup.
    destruct (SetAttributeMap_range (Attributes lt) d attrs).2 as [e|] eqn:He; [|done].
    apply SetAttributeMap_range_error in He
      as (key & def & Hin & Hwo & Hp & Hno & _).
    destruct (Hno (Hsup key def Hin Hwo Hp)).
Qed.

(** The error of an unsupported type that the bag has a value for, and
    none when the bag has no value for it. *)
Example SetAttributeMap_broken_layer :
  SetAttributeMap broken_layer example_state (<["Ratio" := Some "0.5"]> ∅)
  = (example_state, Some (UnsupportedAttributeType TypeFloat)) /\
  (SetAttributeMap broken_layer example_state ∅).2 = None.
Proof. split; reflexivity. Qed.

(** X5.  Write the attributes of a typed local state to a bag and read
    back into the same state a bag that agrees with it on every attribute
    that is not write-only, whatever it holds for the write-only ones and
    in whatever orders the two calls visit the attributes: the read returns
    no error and every attribute has the value it had. *)
Theorem AttributeMap_then_SetAttributeMap (enc dec : opsworksLayerType)
    (d : ResourceData) (attrs attrs' : bag) :
  Attributes dec ≡ₚ Attributes enc ->
  wf_attributes enc ->
  one_to_one enc ->
  state_typed enc d ->
  AttributeMap enc d = Ok attrs ->
  (forall key def, (key, def) ∈ Attributes enc -> WriteOnly def = false ->
                   attrs' !! AttrName def = attrs !! AttrName def) ->
  (SetAttributeMap dec d attrs').2 = None /\
  forall key def, (key, def) ∈ Attributes enc ->
    Get (SetAttributeMap dec d attrs').1 (Type_ def) key = Get d (Type_ def) key.
Proof.
  intros Hperm Hwf Hinj Htyped Hattrs Hagree.
  apply AttributeMap_range_Ok in Hattrs as (Hsup & _ & _ & Hentry).
  specialize (Hentry Hinj). rewrite Forall_forall in Hsup.
  unfold SetAttributeMap.
  assert (Hsub : forall e, e ∈ Attributes dec -> e ∈ Attributes enc)
    by (intros e; by rewrite Hperm).
  revert Hsub. generalize (Attributes dec) as entries.
  induction entries as [|[k0 def0] rest IH]; intros Hsub; [done|].
  assert (Hin0 : (k0, def0) ∈ Attributes enc)
    by (apply Hsub, elem_of_cons; by left).
  assert (Hrest : forall e, e ∈ rest -> e ∈ Attributes enc)
    by (intros e He; apply Hsub, elem_of_cons; by right).
  destruct (WriteOnly def0) eqn:Hwo.
  { cbn [SetAttributeMap_range]. rewrite Hwo. by apply IH. }
  destruct (Hentry k0 def0 Hin0) as (v0 & Hv0 & Hbag).
  rewrite <- (Hagree k0 def0 Hin0 Hwo) in Hbag.
  pose proof (Htyped k0 def0 Hin0) as Hty. rewrite Hv0 in Hty.
  destruct (decoded_encode (Type_ def0) (FValue v0) (Hsup (k0, def0) Hin0) Hty)
    as (v & [= <-] & Hdec).
  destruct (SetAttributeMap_range_decodes k0 def0 rest d attrs' (encode v0)
              Hwo (Hsup (k0, def0) Hin0) Hbag) as [Herr Hkey].
  split; [done|]. intros key def Hin. unfold Get.
  destruct (decide (key = k0)) as [->|Hne].
  - rewrite (NoDup_keys_unique _ _ _ _ Hwf Hin Hin0).
    rewrite Hkey, Hdec. cbn [default]. unfold Get in Hv0. by rewrite Hv0.
  - rewrite SetAttributeMap_range_present; [done|done|by eexists|done].
Qed.

Lemma example_layer_wf : wf_attributes example_layer.
Proof. unfold wf_attributes, local_keys. cbn. compute_done. Defined.

Lemma AttributeMap_then_SetAttributeMap_witness :
  exists attrs : bag,
    AttributeMap example_layer example_state = Ok attrs /\
    forall key def, (key, def) ∈ Attributes example_layer ->
      Get (SetAttributeMap example_layer_url_first example_state
             (<["HaproxyStatsPassword" := Some "*****FILTERED*****"]> attrs)).1
        (Type_ def) key
      = Get example_state (Type_ def) key.
Proof.
  eexists. split; [reflexivity|].
  refine (proj2 (AttributeMap_then_SetAttributeMap example_layer
                   example_layer_url_first example_state _ _ _
                   example_layer_wf example_layer_one_to_one example_state_typed
                   eq_refl _)).
  - cbn. apply perm_swap.
  - intros key def Hin Hwo. cbn [example_layer Attributes] in Hin.
    repeat (apply elem_of_cons in Hin as [[= -> ->]|Hin]);
      [| | | |by apply elem_of_nil in Hin]; try reflexivity.
    discriminate Hwo.
Defined.

Lemma AttributeMap_range_encodable
    (entries : list (string * opsworksLayerTypeAttribute)) (d : ResourceData) :
  forall acc : bag,
    Forall (encodable d) entries <->
    exists attrs, AttributeMap_range entries d acc = Ok attrs.
Proof.
  induction entries as [|[key def] rest IH]; intros acc.
  - split; [by eexists|constructor].
  - rewrite Forall_cons. unfold encodable at 1. cbn [fst snd].
    cbn [AttributeMap_range]. split.
    + intros [Hhead Hrest].
      destruct (Type_ def); try done; destruct Hhead as [x ->]; cbn [obind asString asInt asBool].
      * destruct x; by apply IH.
      * by apply IH.
      * by apply IH.
    + intros [attrs H].
      destruct (Type_ def); try discriminate H;
        destruct (Get d _ key) as [[s|n|[|]]|l|m|];
        cbn [obind asString asInt asBool] in H; try discriminate H;
        (split; [by eexists|]); eapply IH; by exists attrs.
Qed.

(** X6.  When the remote keys of the descriptor are distinct, the bag
    [AttributeMap] returns does not depend on the order in which the
    [range] visits the attributes. *)
Theorem AttributeMap_order (lt1 lt2 : opsworksLayerType) (d : ResourceData)
    (attrs : bag) :
  Attributes lt2 ≡ₚ Attributes lt1 ->
  one_to_one lt1 ->
  AttributeMap lt1 d = Ok attrs ->
  AttributeMap lt2 d = Ok attrs.
Proof.
  unfold AttributeMap, one_to_one. intros Hperm Hinj H1.
  assert (Henc : Forall (encodable d) (Attributes lt2)).
  { rewrite Hperm. apply (AttributeMap_range_encodable _ d ∅). by exists attrs. }
  apply (AttributeMap_range_encodable _ d ∅) in Henc as [attrs2 H2].
  rewrite H2. f_equal. apply map_eq. intros k.
  apply AttributeMap_range_Ok in H1 as (_ & _ & Hother1 & Hentry1).
  apply AttributeMap_range_Ok in H2 as (_ & _ & Hother2 & Hentry2).
  assert (Hinj2 : NoDup (remote_names (Attributes lt2)))
    by (unfold remote_names; by rewrite Hperm).
  destruct (decide (k ∈ remote_names (Attributes lt1))) as [Hk|Hk].
  - unfold remote_names in Hk.
    apply list_elem_of_fmap in Hk as ([key def] & -> & Hin). cbn [snd].
    destruct (Hentry1 Hinj key def Hin) as (v1 & Hv1 & ->).
    assert (Hin2 : (key, def) ∈ Attributes lt2) by by rewrite Hperm.
    destruct (Hentry2 Hinj2 key def Hin2) as (v2 & Hv2 & ->).
    congruence.
  - rewrite Hother1 by done. rewrite Hother2; [done|].
    unfold remote_names in *. by rewrite Hperm.
Qed.

Lemma AttributeMap_order_witness :
  exists attrs : bag,
    AttributeMap example_layer example_state = Ok attrs /\
    AttributeMap example_layer_url_first example_state = Ok attrs.
Proof.
  eexists. split; [reflexivity|].
  apply (AttributeMap_order example_layer example_layer_url_first).
  - cbn. apply perm_swap.
  - exact example_layer_one_to_one.
  - reflexivity.
Defined.

End ProjectionRoundTrip.
(** ** The sets of the SDK *)

Module SchemaSetFacts.
Import Schema SchemaSet.
Local Open Scope list_scope.

Lemma compare_Lt_trans (a b c : string) :
  String.compare a b = Lt -> String.compare b c = Lt -> String.compare a c = Lt.
Proof.
  intros Hab Hbc.
  apply OrderedTypeEx.String_as_OT.cmp_lt.
  apply OrderedTypeEx.String_as_OT.cmp_lt in Hab, Hbc.
  by eapply OrderedTypeEx.String_as_OT.lt_trans.
Qed.

Lemma compare_Lt_ne (a b : string) : String.compare a b = Lt -> a <> b.
Proof.
  intros Hab ->.
  apply OrderedTypeEx.String_as_OT.cmp_lt in Hab.
  by apply OrderedTypeEx.String_as_OT.lt_not_eq in Hab.
Qed.

Lemma compare_Gt_Lt (a b : string) : String.compare a b = Gt -> String.compare b a = Lt.
Proof. intros Hab. rewrite String.compare_antisym, Hab. done. Qed.

Lemma sorted_NoDup (codes : list string) :
  Sorted.StronglySorted (fun a b => String.compare a b = Lt) codes -> NoDup codes.
Proof.
  induction 1 as [|c codes _ IH Hall]; [constructor|].
  apply NoDup_cons. split; [|done].
  intros Hin. rewrite List.Forall_forall in Hall.
  apply (compare_Lt_ne c c); [|done]. by apply Hall, list_elem_of_In.
Qed.

#[local] Ltac conjuncts := repeat match goal with |- _ /\ _ => split end.

Section Elements.

(** The elements of a set, each the image of some [a] with its code. *)
Context {A : Type} (code : A -> string) (item : A -> elem).

#[local] Abbreviation coded := (fun a => (code a, item a)).

Lemma add_fmap (a : A) (kept : list A) :
  exists kept',
    add (code a) (item a) (coded <$> kept) = coded <$> kept' /\
    (forall x, x ∈ kept' -> x = a \/ x ∈ kept) /\
    (forall x, x ∈ kept -> x ∈ kept') /\
    code a ∈ code <$> kept' /\
    (Sorted.StronglySorted (fun a b => String.compare a b = Lt) (code <$> kept) ->
     Sorted.StronglySorted (fun a b => String.compare a b = Lt) (code <$> kept')) /\
    (code a ∉ code <$> kept -> kept' ≡ₚ kept ++ [a]) /\
    (Sorted.StronglySorted (fun a b => String.compare a b = Lt) (code <$> kept) ->
     code a ∈ code <$> kept -> kept' = kept).
Proof.
  induction kept as [|b kept IH].
  - exists [a]. cbn. conjuncts.
    + done.
    + intros x Hx. left. by apply list_elem_of_singleton in Hx.
    + intros x Hx. by apply elem_of_nil in Hx.
    + by apply list_elem_of_singleton.
    + intros _. repeat constructor.
    + done.
    + intros _ Hin. by apply elem_of_nil in Hin.
  - cbn [fmap list_fmap add].
    destruct (String.compare (code a) (code b)) eqn:Hcmp.
    + (* the code is taken *)
      apply String.compare_eq_iff in Hcmp.
      exists (b :: kept). conjuncts.
      * done.
      * intros x Hx. by right.
      * done.
      * rewrite Hcmp. cbn. apply elem_of_cons. by left.
      * done.
      * intros Hfresh. destruct Hfresh. rewrite Hcmp. cbn. apply elem_of_cons. by left.
      * done.
    + exists (a :: b :: kept). conjuncts.
      * done.
      * intros x Hx. apply elem_of_cons in Hx as [->|Hx]; [by left|by right].
      * intros x Hx. apply elem_of_cons. by right.
      * cbn. apply elem_of_cons. by left.
      * intros Hsorted. cbn. constructor; [done|].
        cbn in Hsorted. apply Sorted.StronglySorted_inv in Hsorted as [_ Hall].
        constructor; [done|].
        eapply List.Forall_impl; [|exact Hall].
        intros c Hc. by eapply compare_Lt_trans.
      * intros _. change (a :: b :: kept) with ([a] ++ (b :: kept)).
        apply Permutation_app_comm.
      * intros Hsorted Hin. exfalso. cbn in Hsorted, Hin.
        apply Sorted.StronglySorted_inv in Hsorted as [_ Hall].
        rewrite List.Forall_forall in Hall.
        apply elem_of_cons in Hin as [Hin|Hin].
        -- by apply (compare_Lt_ne _ _ Hcmp).
        -- apply (compare_Lt_ne (code a) (code a)); [|done].
           eapply compare_Lt_trans; [exact Hcmp|]. by apply Hall, list_elem_of_In.
    + destruct IH as (kept' & Heq & Hsub & Hkeep & Hcode & Hsorted & Hperm & Htaken).
      exists (b :: kept'). rewrite Heq. conjuncts.
      * done.
      * intros x Hx. apply elem_of_cons in Hx as [->|Hx].
        -- right. apply elem_of_cons. by left.
        -- destruct (Hsub x Hx) as [->|Hin]; [by left|]. right. apply elem_of_cons. by right.
      * intros x Hx. apply elem_of_cons in Hx as [->|Hx]; apply elem_of_cons;
          [by left|right; by apply Hkeep].
      * cbn. apply elem_of_cons. by right.
      * intros Hs. cbn in Hs. apply Sorted.StronglySorted_inv in Hs as [Hs Hall].
        cbn. constructor; [by apply Hsorted|].
        apply List.Forall_forall. intros c Hc.
        apply list_elem_of_In, list_elem_of_fmap in Hc as (x & -> & Hx).
        destruct (Hsub x Hx) as [->|Hin].
        -- by apply compare_Gt_Lt.
        -- rewrite List.Forall_forall in Hall. apply Hall.
           apply list_elem_of_In, list_elem_of_fmap. by exists x.
      * intros Hfresh. cbn in Hfresh. apply not_elem_of_cons in Hfresh as [_ Hfresh].
        cbn. by rewrite (Hperm Hfresh).
      * intros Hs Hin. cbn in Hs, Hin.
        apply Sorted.StronglySorted_inv in Hs as [Hs _].
        apply elem_of_cons in Hin as [Hin|Hin].
        -- rewrite Hin in Hcmp. exfalso.
           apply compare_Gt_Lt in Hcmp. by apply (compare_Lt_ne _ _ Hcmp).
        -- by rewrite (Htaken Hs Hin).
Qed.

Lemma of_list_from (v kept : list A) :
  Sorted.StronglySorted (fun a b => String.compare a b = Lt) (code <$> kept) ->
  exists kept',
    foldl (fun m '(c, x) => add c x m) (coded <$> kept) (coded <$> v) = coded <$> kept' /\
    (forall x, x ∈ kept' ->
       x ∈ kept \/
       (code x ∉ code <$> kept) /\
       exists before after, v = before ++ x :: after /\ code x ∉ code <$> before) /\
    (forall x, x ∈ kept -> x ∈ kept') /\
    (forall x, x ∈ v -> code x ∈ code <$> kept') /\
    Sorted.StronglySorted (fun a b => String.compare a b = Lt) (code <$> kept') /\
    (NoDup (code <$> v) -> (forall x, x ∈ v -> code x ∉ code <$> kept) ->
     kept' ≡ₚ kept ++ v).
Proof.
  revert kept. induction v as [|a v IH]; intros kept Hsorted.
  - exists kept. cbn. conjuncts.
    + done.
    + by left.
    + done.
    + intros x Hx. by apply elem_of_nil in Hx.
    + done.
    + intros _ _. by rewrite app_nil_r.
  - cbn [fmap list_fmap foldl].
    destruct (add_fmap a kept)
      as (kept1 & -> & Hsub1 & Hkeep1 & Hcode1 & Hsorted1 & Hperm1 & Htaken1).
    destruct (IH kept1 (Hsorted1 Hsorted))
      as (kept' & Heq & Hsub & Hkeep & Hcode & Hsorted' & Hperm).
    exists kept'. conjuncts.
    + done.
    + intros x Hx. destruct (Hsub x Hx) as [Hin|(Hfresh & before & after & -> & Hfirst)].
      * destruct (decide (code a ∈ code <$> kept)) as [Htaken|Hfresh].
        { left. by rewrite <- (Htaken1 Hsorted Htaken). }
        destruct (Hsub1 x Hin) as [->|Hin']; [|by left].
        right. split; [done|]. exists [], v. split; [done|]. apply not_elem_of_nil.
      * right. split.
        { intros Hin. apply Hfresh. apply list_elem_of_fmap in Hin as (y & Hy & Hin).
          apply list_elem_of_fmap. exists y. split; [done|]. by apply Hkeep1. }
        exists (a :: before), after. split; [done|].
        cbn. apply not_elem_of_cons. split; [|done].
        intros Heq'. apply Hfresh. by rewrite Heq'.
    + intros x Hx. by apply Hkeep, Hkeep1.
    + intros x Hx. apply elem_of_cons in Hx as [->|Hx]; [|by apply Hcode].
      apply list_elem_of_fmap in Hcode1 as (y & Hy & Hin).
      apply list_elem_of_fmap. exists y. split; [done|]. by apply Hkeep.
    + done.
    + intros Hnd Hfresh. cbn in Hnd. apply NoDup_cons in Hnd as [Ha Hnd].
      assert (Hfresh_a : code a ∉ code <$> kept)
        by (apply Hfresh, elem_of_cons; by left).
      specialize (Hperm1 Hfresh_a).
      rewrite Hperm.
      * rewrite Hperm1. rewrite <- app_assoc. done.
      * done.
      * intros x Hx. rewrite Hperm1. rewrite fmap_app, elem_of_app.
        intros [Hin|Hin].
        -- apply (Hfresh x); [apply elem_of_cons; by right|done].
        -- cbn in Hin. apply list_elem_of_singleton in Hin.
           apply Ha. rewrite <- Hin. apply list_elem_of_fmap. by exists x.
Qed.

(** The elements [List] gives for the set of the images of [v]: those of
    a part [kept] of [v], the first element of [v] for each code, in the
    order of the codes; all of [v], in some order, when the codes of [v] are
    distinct. *)
Lemma List_of_list (v : list A) :
  exists kept,
    List (of_list (coded <$> v)) = item <$> kept /\
    (forall x, x ∈ kept ->
       exists before after, v = before ++ x :: after /\ code x ∉ code <$> before) /\
    (forall x, x ∈ v -> code x ∈ code <$> kept) /\
    Sorted.StronglySorted (fun a b => String.compare a b = Lt) (code <$> kept) /\
    (NoDup (code <$> v) -> kept ≡ₚ v).
Proof.
  destruct (of_list_from v []) as (kept & Heq & Hsub & _ & Hcode & Hsorted & Hperm).
  { cbn. constructor. }
  exists kept. unfold of_list, List. cbn in Heq. rewrite Heq. conjuncts.
  - rewrite <- list_fmap_compose. done.
  - intros x Hx. destruct (Hsub x Hx) as [Hin|[_ Hin]]; [by apply elem_of_nil in Hin|done].
  - done.
  - done.
  - intros Hnd. apply Hperm; [done|]. intros x _. apply not_elem_of_nil.
Qed.

End Elements.

End SchemaSetFacts.

(** ** Lifecycle, recipes and volumes: what is stored and what is read back *)

Module ConfigurationFacts.
Import Schema Assert OpsWorks Spec Fixtures Coverage SchemaFacts StrconvFacts.
Local Open Scope list_scope.

Lemma SetVolumeConfigurations_at_lookup (c : SDK.VolumeConfiguration) :
  let data := SetVolumeConfigurations_at c in
  data !! "iops" = Some (VInt (default 0%Z (SDK.Iops c))) /\
  data !! "mount_point" = VString <$> SDK.MountPoint c /\
  data !! "number_of_disks" = VInt <$> SDK.NumberOfDisks c /\
  data !! "raid_level" = VString ∘ Strconv.Itoa <$> SDK.RaidLevel c /\
  data !! "size" = VInt <$> SDK.Size c /\
  data !! "type" = VString <$> SDK.VolumeType c /\
  data !! "encrypted" = VBool <$> SDK.Encrypted c.
Proof.
  destruct c as [mp nd sz ty en iops raid].
  unfold SetVolumeConfigurations_at.
  cbn [SDK.Iops SDK.MountPoint SDK.NumberOfDisks SDK.RaidLevel SDK.Size SDK.VolumeType
       SDK.Encrypted].
  destruct raid as [raid|]; cbn [from_option fmap option_fmap option_map compose];
    [generalize (Strconv.Itoa raid); intros level|];
    destruct mp, nd, sz, ty, en; cbn [from_option fmap option_fmap option_map];
    repeat split; vm_compute; reflexivity.
Qed.

Lemma ebsVolumeItem_lookup (data : gmap string value) :
  let item := ebsVolumeItem data in
  item !! "iops" = Some (default (VInt 0) (data !! "iops")) /\
  item !! "mount_point" = Some (default (VString "") (data !! "mount_point")) /\
  item !! "number_of_disks" = Some (default (VInt 0) (data !! "number_of_disks")) /\
  item !! "raid_level" = Some (default (VString "") (data !! "raid_level")) /\
  item !! "size" = Some (default (VInt 0) (data !! "size")) /\
  item !! "type" = Some (default (VString "") (data !! "type")) /\
  item !! "encrypted" = Some (default (VBool false) (data !! "encrypted")).
Proof.
  unfold ebsVolumeItem. cbn zeta.
  repeat split; repeat (rewrite ?lookup_insert_eq; rewrite ?lookup_insert_ne by done); done.
Qed.

Lemma Itoa_not_empty (i : Z) : Strconv.is_int i -> String.eqb (Strconv.Itoa i) "" = false.
Proof.
  intros Hint. apply String.eqb_neq. intros Hempty.
  pose proof (Atoi_Itoa i Hint) as Hparse. by rewrite Hempty in Hparse.
Qed.

Lemma VolumeConfigurations_at_stored (c : SDK.VolumeConfiguration) :
  raid_level_int c ->
  VolumeConfigurations_at (EObject (ebsVolumeItem (SetVolumeConfigurations_at c)))
  = Ok (read_back c).
Proof.
  intros Hint.
  destruct (ebsVolumeItem_lookup (SetVolumeConfigurations_at c))
    as (Hiops & Hmp & Hnd & Hraid & Hsz & Hty & Hen).
  destruct (SetVolumeConfigurations_at_lookup c)
    as (Hiops' & Hmp' & Hnd' & Hraid' & Hsz' & Hty' & Hen').
  cbn zeta in *.
  unfold VolumeConfigurations_at, keyString, keyInt, keyBool. cbn [asObject obind].
  rewrite Hiops, Hmp, Hnd, Hraid, Hsz, Hty, Hen.
  rewrite Hiops', Hmp', Hnd', Hraid', Hsz', Hty', Hen'.
  unfold raid_level_int in Hint. unfold read_back.
  destruct c as [mp nd sz ty en iops raid].
  cbn [SDK.Iops SDK.MountPoint SDK.NumberOfDisks SDK.RaidLevel SDK.Size SDK.VolumeType
       SDK.Encrypted] in *.
  assert (Hlevel : (let raidLevelStr :=
                      match default (VString "") (VString ∘ Strconv.Itoa <$> raid) with
                      | VString s => s | _ => "" end in
                    if String.eqb raidLevelStr "" then None else Strconv.Atoi raidLevelStr)
                   = raid).
  { destruct raid as [level|]; [|done]. cbn.
    rewrite (Itoa_not_empty level), (Atoi_Itoa level) by by apply Hint. done. }
  destruct mp, nd, sz, ty, en, raid; cbn in *; rewrite ?Hlevel; do 2 f_equal;
    by destruct iops as [[|?|?]|].
Qed.

Lemma SetVolumeConfigurations_loop_Some (v : list SDK.VolumeConfiguration) :
  SetVolumeConfigurations_loop (Some <$> v) = Ok (SetVolumeConfigurations_at <$> v).
Proof.
  induction v as [|c v IH]; [done|].
  cbn [fmap list_fmap SetVolumeConfigurations_loop].
  change (list_fmap _ _ ?f v) with (f <$> v). by rewrite IH.
Qed.

Lemma SetVolumeConfigurations_loop_cases (v : list (option SDK.VolumeConfiguration)) :
  None ∈ v /\ SetVolumeConfigurations_loop v = Panic NilDereference \/
  (None ∉ v) /\ exists volumes, v = Some <$> volumes.
Proof.
  induction v as [|[c|] v IH].
  - right. split; [apply not_elem_of_nil|by exists []].
  - destruct IH as [[Hin Hloop]|[Hnot [volumes ->]]].
    + left. split; [apply elem_of_cons; by right|]. cbn. by rewrite Hloop.
    + right. split; [|by exists (c :: volumes)].
      apply not_elem_of_cons. by split.
  - left. split; [apply elem_of_cons; by left|done].
Qed.

Section Volumes.

Variable StringHashcode : string -> Z.

#[local] Abbreviation stored :=
  (fun c => EObject (ebsVolumeItem (SetVolumeConfigurations_at c))).

Lemma ebsVolumeHash_stored (c : SDK.VolumeConfiguration) :
  ebsVolumeHash StringHashcode (stored c)
  = Ok (StringHashcode (default "" (SDK.MountPoint c))).
Proof.
  destruct (ebsVolumeItem_lookup (SetVolumeConfigurations_at c)) as (_ & Hmp & _).
  destruct (SetVolumeConfigurations_at_lookup c) as (_ & Hmp' & _).
  cbn zeta in *. unfold ebsVolumeHash, keyString. cbn [asObject obind].
  rewrite Hmp, Hmp'. by destruct (SDK.MountPoint c).
Qed.

Lemma hashes_stored (v : list SDK.VolumeConfiguration) :
  SchemaSet.hashes (ebsVolumeHash StringHashcode) (stored <$> v)
  = Ok ((fun c => (volume_code StringHashcode c, stored c)) <$> v).
Proof.
  induction v as [|c v IH]; [done|].
  cbn [fmap list_fmap SchemaSet.hashes].
  change (list_fmap _ _ ?f v) with (f <$> v).
  rewrite ebsVolumeHash_stored, IH. done.
Qed.

(** What [SetVolumeConfigurations] does on volumes none of which is nil. *)
Lemma SetVolumeConfigurations_Some (d : ResourceData) (v : list SDK.VolumeConfiguration) :
  SetVolumeConfigurations StringHashcode d (Some <$> v)
  = Ok (Set_ d "ebs_volume"
          (Some (FList (SchemaSet.List
                          (SchemaSet.of_list
                             ((fun c => (volume_code StringHashcode c, stored c)) <$> v)))))).
Proof.
  unfold SetVolumeConfigurations, SchemaSet.written.
  rewrite SetVolumeConfigurations_loop_Some. cbn [obind].
  rewrite <- list_fmap_compose.
  change ((EObject ∘ ebsVolumeItem) ∘ SetVolumeConfigurations_at) with stored.
  by rewrite hashes_stored.
Qed.

(** The only failure of [SetVolumeConfigurations] is the panic on a nil
    element; otherwise it writes [ebs_volume] and nothing else. *)
Lemma SetVolumeConfigurations_cases (d : ResourceData)
    (v : list (option SDK.VolumeConfiguration)) :
  None ∈ v /\ SetVolumeConfigurations StringHashcode d v = Panic NilDereference \/
  (None ∉ v) /\
  exists volumes,
    SetVolumeConfigurations StringHashcode d v
    = Ok (Set_ d "ebs_volume" (Some (FList volumes))).
Proof.
  destruct (SetVolumeConfigurations_loop_cases v) as [[Hin Hloop]|[Hnot [volumes ->]]].
  - left. split; [done|]. unfold SetVolumeConfigurations. by rewrite Hloop.
  - right. split; [done|]. eexists. apply SetVolumeConfigurations_Some.
Qed.

Lemma VolumeConfigurations_loop_stored (v : list SDK.VolumeConfiguration) :
  Forall raid_level_int v ->
  VolumeConfigurations_loop (stored <$> v) = Ok (read_back <$> v).
Proof.
  induction 1 as [|c v Hc _ IH]; [done|].
  cbn [fmap list_fmap VolumeConfigurations_loop].
  rewrite (VolumeConfigurations_at_stored c Hc). cbn [obind].
  change (list_fmap _ _ ?f v) with (f <$> v).
  by rewrite IH.
Qed.

(** X7.  [SetVolumeConfigurations] on volumes [v], none of them nil, does
    not fail, whatever the state held, and what [VolumeConfigurations] then
    reads from [ebs_volume] is not [v] in its order: the field is a set,
    keyed by the hash of the mount point.  It reads the volumes [kept],
    each the first volume of [v] with its code, one for every code of [v],
    listed in the increasing order of the codes (as strings); they are the
    volumes of [v], in some order, when no two volumes of [v] share a code.
    Each is read with all fields set but the RAID level, which is as it was
    (a 64-bit level survives its way through the string), and the IOPS,
    nil when it was nil or 0: a nil mount point, number of disks, size,
    type or encryption comes back as the zero value of its type. *)
Theorem VolumeConfigurations_of_stored (d : ResourceData)
    (v : list SDK.VolumeConfiguration) :
  Forall raid_level_int v ->
  exists d' kept,
    SetVolumeConfigurations StringHashcode d (Some <$> v) = Ok d' /\
    VolumeConfigurations d' = Ok (read_back <$> kept) /\
    (forall c, c ∈ kept ->
       exists before after,
         v = before ++ c :: after /\
         volume_code StringHashcode c ∉ volume_code StringHashcode <$> before) /\
    (forall c, c ∈ v ->
       volume_code StringHashcode c ∈ volume_code StringHashcode <$> kept) /\
    Sorted.StronglySorted (fun a b => String.compare a b = Lt)
      (volume_code StringHashcode <$> kept) /\
    (NoDup (volume_code StringHashcode <$> v) -> kept ≡ₚ v).
Proof.
  intros Hint.
  destruct (SchemaSetFacts.List_of_list (volume_code StringHashcode) stored v)
    as (kept & Hlist & Hfirst & Hcodes & Hsorted & Hperm).
  exists (Set_ d "ebs_volume" (Some (FList (stored <$> kept)))), kept.
  split; [|split; [|done]].
  - rewrite SetVolumeConfigurations_Some. by rewrite Hlist.
  - unfold VolumeConfigurations, Get. rewrite Set_same_key. cbn [default from_option asList obind].
    apply VolumeConfigurations_loop_stored.
    rewrite Forall_forall in Hint |- *. intros c Hc.
    destruct (Hfirst c Hc) as (before & after & -> & _).
    apply Hint, elem_of_app. right. apply elem_of_cons. by left.
Qed.

End Volumes.

Lemma VolumeConfigurations_of_stored_witness :
  let data := SDK.mkVolumeConfiguration (Some "/data") (Some 2%Z) (Some 100%Z)
                (Some "io1") (Some true) (Some 0%Z) (Some 10%Z) in
  let logs := SDK.mkVolumeConfiguration (Some "/logs/a") None (Some 8%Z)
                (Some "gp2") (Some false) (Some 300%Z) None in
  Forall raid_level_int [logs; data] /\
  exists d' kept,
    SetVolumeConfigurations hash_of_string example_state (Some <$> [logs; data]) = Ok d' /\
    VolumeConfigurations d' = Ok (read_back <$> kept) /\
    (forall c, c ∈ kept ->
       exists before after,
         [logs; data] = before ++ c :: after /\
         volume_code hash_of_string c ∉ volume_code hash_of_string <$> before) /\
    (forall c, c ∈ [logs; data] ->
       volume_code hash_of_string c ∈ volume_code hash_of_string <$> kept) /\
    Sorted.StronglySorted (fun a b => String.compare a b = Lt)
      (volume_code hash_of_string <$> kept) /\
    (NoDup (volume_code hash_of_string <$> [logs; data]) -> kept ≡ₚ [logs; data]).
Proof.
  intros data logs.
  assert (Hint : Forall raid_level_int [logs; data]).
  { apply Forall_forall. intros c Hc level Heq.
    apply elem_of_cons in Hc as [->|Hc]; [discriminate|].
    apply list_elem_of_singleton in Hc as ->. cbn in Heq. simplify_eq.
    unfold Strconv.is_int, Strconv.int_min, Strconv.int_max. lia. }
  split; [exact Hint|].
  exact (VolumeConfigurations_of_stored hash_of_string example_state [logs; data] Hint).
Defined.

(** The set lists the volumes by code, not as the service sent them, and
    keeps the first volume of a mount point. *)
Example VolumeConfigurations_listed_by_code :
  let data := SDK.mkVolumeConfiguration (Some "/data") (Some 2%Z) (Some 100%Z)
                (Some "io1") (Some true) (Some 0%Z) (Some 10%Z) in
  let logs := SDK.mkVolumeConfiguration (Some "/logs/a") None (Some 8%Z)
                (Some "gp2") (Some false) (Some 300%Z) None in
  let again := SDK.mkVolumeConfiguration (Some "/data") (Some 4%Z) (Some 1%Z)
                 None None None None in
  (d' <-! SetVolumeConfigurations hash_of_string example_state
            (Some <$> [logs; data; again]);
   VolumeConfigurations d')
  = Ok [SDK.mkVolumeConfiguration (Some "/data") (Some 2%Z) (Some 100%Z)
          (Some "io1") (Some true) None (Some 10%Z);
        SDK.mkVolumeConfiguration (Some "/logs/a") (Some 0%Z) (Some 8%Z)
          (Some "gp2") (Some false) (Some 300%Z) None].
Proof. vm_compute. reflexivity. Qed.

Lemma SetLifecycleEventConfiguration_frame (d : ResourceData)
    (v : option SDK.LifecycleEventConfiguration) (k : string) :
  k <> "drain_elb_on_shutdown" -> k <> "instance_shutdown_timeout" ->
  rd_fields (SetLifecycleEventConfiguration d v) !! k = rd_fields d !! k.
Proof.
  intros Hk1 Hk2. unfold SetLifecycleEventConfiguration, SetBool, SetInt.
  destruct (v ≫= SDK.lec_Shutdown) as [shutdown|];
    by rewrite !Set_other_key by done.
Qed.

Lemma SetLifecycleEventConfiguration_rest (d : ResourceData)
    (v : option SDK.LifecycleEventConfiguration) :
  rd_id (SetLifecycleEventConfiguration d v) = rd_id d /\
  rd_isNew (SetLifecycleEventConfiguration d v) = rd_isNew d /\
  rd_state (SetLifecycleEventConfiguration d v) = rd_state d.
Proof. unfold SetLifecycleEventConfiguration. by destruct (v ≫= SDK.lec_Shutdown). Qed.

(** X8.  After [SetLifecycleEventConfiguration], whatever the state held,
    [LifecycleEventConfiguration] does not panic and returns a shutdown
    configuration with both fields set: the values of the remote
    configuration, and [false] and [0] for each one that was nil (also when
    the configuration or its shutdown part was nil).  The call changes no
    field but [drain_elb_on_shutdown] and [instance_shutdown_timeout]. *)
Theorem LifecycleEventConfiguration_of_stored (d : ResourceData)
    (v : option SDK.LifecycleEventConfiguration) :
  LifecycleEventConfiguration (SetLifecycleEventConfiguration d v)
  = Ok (SDK.mkLifecycleEventConfiguration
          (Some (SDK.mkShutdownEventConfiguration
                   (Some (default false
                            ((v ≫= SDK.lec_Shutdown) ≫= SDK.DelayUntilElbConnectionsDrained)))
                   (Some (default 0%Z
                            ((v ≫= SDK.lec_Shutdown) ≫= SDK.ExecutionTimeout)))))) /\
  forall k, k <> "drain_elb_on_shutdown" -> k <> "instance_shutdown_timeout" ->
    rd_fields (SetLifecycleEventConfiguration d v) !! k = rd_fields d !! k.
Proof.
  unfold LifecycleEventConfiguration, SetLifecycleEventConfiguration, Get,
    SetBool, SetInt.
  split.
  - destruct (v ≫= SDK.lec_Shutdown) as [[drain timeout]|] eqn:Hv.
    + rewrite Set_other_key by done. rewrite !Set_same_key.
      cbn [mbind option_bind SDK.DelayUntilElbConnectionsDrained SDK.ExecutionTimeout].
      by destruct drain, timeout.
    + rewrite Set_other_key by done. by rewrite !Set_same_key.
  - apply SetLifecycleEventConfiguration_frame.
Qed.

Section Recipes.

Variable ExpandStringList : list elem -> list string.
Variable FlattenStringList : list string -> list elem.

Lemma SetCustomRecipes_frame (d : ResourceData) (v : option SDK.Recipes)
    (k : string) :
  k ∉ recipe_keys ->
  rd_fields (SetCustomRecipes FlattenStringList d v) !! k = rd_fields d !! k.
Proof.
  unfold SetCustomRecipes, recipe_keys. intros Hk.
  rewrite !not_elem_of_cons in Hk. destruct Hk as (? & ? & ? & ? & ? & _).
  destruct v as [r|]; by rewrite !Set_other_key by done.
Qed.

Lemma SetCustomRecipes_rest (d : ResourceData) (v : option SDK.Recipes) :
  rd_id (SetCustomRecipes FlattenStringList d v) = rd_id d /\
  rd_isNew (SetCustomRecipes FlattenStringList d v) = rd_isNew d /\
  rd_state (SetCustomRecipes FlattenStringList d v) = rd_state d.
Proof. by destruct v. Qed.

(** X9.  After [SetCustomRecipes], whatever the state held,
    [CustomRecipes] does not panic and returns, for each of the five
    events, the remote list taken through [FlattenStringList] and
    [ExpandStringList]; with nil recipes every list is the expansion of the
    empty list, so that nothing of the lists the state held before is left.
    The call changes no field but the five recipe lists. *)
Theorem CustomRecipes_of_stored (d : ResourceData) (v : option SDK.Recipes) :
  CustomRecipes ExpandStringList (SetCustomRecipes FlattenStringList d v)
  = Ok (let through (event : SDK.Recipes -> list string) :=
          ExpandStringList (from_option (FlattenStringList ∘ event) [] v) in
        SDK.mkRecipes (through SDK.Configure) (through SDK.Deploy)
          (through SDK.Setup) (through SDK.Shutdown) (through SDK.Undeploy)) /\
  forall k, k ∉ recipe_keys ->
    rd_fields (SetCustomRecipes FlattenStringList d v) !! k = rd_fields d !! k.
Proof.
  unfold CustomRecipes, SetCustomRecipes, Get, recipe_keys. split.
  - destruct v as [r|]; cbn [from_option compose];
      repeat (rewrite ?Set_same_key; rewrite ?Set_other_key by done;
              cbn [default zero_value asList obind]);
      reflexivity.
  - apply SetCustomRecipes_frame.
Qed.

End Recipes.

(** A state with a stale recipe list, read after nil recipes arrived. *)
Example CustomRecipes_cleared :
  CustomRecipes strings_of
    (SetCustomRecipes elems_of
       (mkResourceData "layer-1" false ∅
          (<["custom_setup_recipes" := FList [EValue (VString "nginx::default")]]> ∅))
       None)
  = Ok (SDK.mkRecipes [] [] [] [] []).
Proof. reflexivity. Qed.

End ConfigurationFacts.

(** ** [Read] *)

Module ReadFacts.
Import Schema Assert Effects OpsWorks Spec Fixtures Coverage SchemaFacts
  AttributeBagFacts ProjectionFacts ConfigurationFacts EffectsFacts.
Local Open Scope list_scope.

Lemma bind_modD {B : Type} (f : ResourceData -> ResourceData) (k : unit -> M B)
    (w : world) :
  bind (modD f) k w = k tt (mkWorld (f (w_d w)) (w_calls w)).
Proof. reflexivity. Qed.

Lemma Id_SetAttributeMap (lt : opsworksLayerType) (d : ResourceData) (attrs : bag) :
  Id (SetAttributeMap lt d attrs).1 = Id d.
Proof.
  unfold SetAttributeMap.
  by destruct (SetAttributeMap_range_rest (Attributes lt) attrs d) as (? & _).
Qed.

Lemma Id_SetLifecycleEventConfiguration (d : ResourceData)
    (v : option SDK.LifecycleEventConfiguration) :
  Id (SetLifecycleEventConfiguration d v) = Id d.
Proof. by destruct (SetLifecycleEventConfiguration_rest d v) as (? & _). Qed.

Lemma Id_SetCustomRecipes (F : list string -> list elem) (d : ResourceData)
    (v : option SDK.Recipes) :
  Id (SetCustomRecipes F d v) = Id d.
Proof. by destruct v. Qed.

Lemma Id_Set_ (d : ResourceData) (key : string) (v : option field) :
  Id (Set_ d key v) = Id d.
Proof. reflexivity. Qed.

Lemma bind_lift_Panic {A B : Type} (p : panic) (k : A -> M B) (w : world) :
  bind (lift (Panic p)) k w = (w, Panic p).
Proof. reflexivity. Qed.

(** Whether [SetAttributeMap] returns an error does not depend on the
    state it writes to. *)
Lemma SetAttributeMap_error_state (lt : opsworksLayerType) (d d' : ResourceData)
    (attrs : bag) :
  (SetAttributeMap lt d attrs).2 = (SetAttributeMap lt d' attrs).2.
Proof.
  unfold SetAttributeMap. revert d d'.
  induction (Attributes lt) as [|[key def] rest IH]; intros d d'; [done|].
  cbn [SetAttributeMap_range].
  destruct (WriteOnly def); [apply IH|].
  destruct (attrs !! AttrName def) as [[s|]|]; [|apply IH..].
  destruct (Type_ def); try done. by destruct (Strconv.Atoi s).
Qed.

Lemma SetAttributeMap_rest (lt : opsworksLayerType) (d : ResourceData) (attrs : bag) :
  rd_id (SetAttributeMap lt d attrs).1 = rd_id d /\
  rd_isNew (SetAttributeMap lt d attrs).1 = rd_isNew d /\
  rd_state (SetAttributeMap lt d attrs).1 = rd_state d.
Proof. apply SetAttributeMap_range_rest. Qed.

Lemma SetAttributeMap_frame (lt : opsworksLayerType) (d : ResourceData) (attrs : bag)
    (k : string) :
  k ∉ readable_keys (Attributes lt) ->
  rd_fields (SetAttributeMap lt d attrs).1 !! k = rd_fields d !! k.
Proof.
  intros Hk. apply SetAttributeMap_range_frame.
  intros key def Hin Hwo ->. apply Hk, readable_keys_spec. eauto.
Qed.

Lemma untouched_refl (keys : list string) (d : ResourceData) : untouched keys d d.
Proof. by repeat split. Qed.

Lemma untouched_trans (keys : list string) (d1 d2 d3 : ResourceData) :
  untouched keys d1 d2 -> untouched keys d2 d3 -> untouched keys d1 d3.
Proof.
  intros (Hn1 & Hs1 & Hf1) (Hn2 & Hs2 & Hf2). repeat split; [congruence..|].
  intros k Hk. by rewrite Hf2, Hf1.
Qed.

Lemma untouched_Set_ (keys : list string) (d d' : ResourceData) (key : string)
    (v : option field) :
  key ∈ keys -> untouched keys d d' -> untouched keys d (Set_ d' key v).
Proof.
  intros Hkey (Hn & Hs & Hf). repeat split; [done..|].
  intros k Hk. rewrite Set_other_key; [by apply Hf|]. by intros ->.
Qed.

Lemma untouched_SetId (keys : list string) (d d' : ResourceData) (id : string) :
  untouched keys d d' -> untouched keys d (SetId d' id).
Proof. done. Qed.

Lemma untouched_SetAttributeMap (keys : list string) (lt : opsworksLayerType)
    (d d' : ResourceData) (attrs : bag) :
  readable_keys (Attributes lt) ⊆ keys ->
  untouched keys d d' -> untouched keys d (SetAttributeMap lt d' attrs).1.
Proof.
  intros Hsub (Hn & Hs & Hf).
  destruct (SetAttributeMap_rest lt d' attrs) as (_ & Hn' & Hs').
  repeat split; [congruence..|].
  intros k Hk. rewrite SetAttributeMap_frame; [by apply Hf|].
  intros Hin. by apply Hk, Hsub.
Qed.

Lemma untouched_SetLifecycleEventConfiguration (keys : list string)
    (d d' : ResourceData) (v : option SDK.LifecycleEventConfiguration) :
  "drain_elb_on_shutdown" ∈ keys -> "instance_shutdown_timeout" ∈ keys ->
  untouched keys d d' -> untouched keys d (SetLifecycleEventConfiguration d' v).
Proof.
  intros H1 H2 (Hn & Hs & Hf).
  destruct (SetLifecycleEventConfiguration_rest d' v) as (_ & Hn' & Hs').
  repeat split; [congruence..|].
  intros k Hk. rewrite SetLifecycleEventConfiguration_frame; [by apply Hf|..];
    by intros ->.
Qed.

Lemma untouched_SetCustomRecipes (keys : list string) (F : list string -> list elem)
    (d d' : ResourceData) (v : option SDK.Recipes) :
  recipe_keys ⊆ keys ->
  untouched keys d d' -> untouched keys d (SetCustomRecipes F d' v).
Proof.
  intros Hsub (Hn & Hs & Hf).
  destruct (SetCustomRecipes_rest F d' v) as (_ & Hn' & Hs').
  repeat split; [congruence..|].
  intros k Hk. rewrite SetCustomRecipes_frame; [by apply Hf|].
  intros Hin. by apply Hk, Hsub.
Qed.

Lemma preserves_pure {A : Type} (I : ResourceData -> Prop) (m : M A) :
  (forall w, w_d (m w).1 = w_d w) -> preserves I m.
Proof. intros H w Hw. by rewrite H. Qed.

Lemma preserves_ret {A : Type} (I : ResourceData -> Prop) (a : A) :
  preserves I (ret a).
Proof. by apply preserves_pure. Qed.

Lemma preserves_fail {A : Type} (I : ResourceData -> Prop) (e : error) :
  preserves I (@fail A e).
Proof. by apply preserves_pure. Qed.

Lemma preserves_lift {A : Type} (I : ResourceData -> Prop) (o : outcome A) :
  preserves I (lift o).
Proof. by apply preserves_pure. Qed.

Lemma preserves_lift_bind {A B : Type} (I : ResourceData -> Prop) (o : outcome A)
    (k : A -> M B) :
  (forall a, o = Ok a -> preserves I (k a)) -> preserves I (bind (lift o) k).
Proof.
  intros Hk w Hw. unfold bind, lift. destruct o as [a|e|p]; [|done..].
  by apply (Hk a).
Qed.

Lemma preserves_check (I : ResourceData -> Prop) (e : option error) :
  preserves I (check e).
Proof. destruct e; by apply preserves_pure. Qed.

Lemma preserves_send {A : Type} (I : ResourceData -> Prop) (c : SDK.call)
    (answer : list SDK.call -> A) :
  preserves I (send c answer).
Proof. by apply preserves_pure. Qed.

Lemma preserves_modD (I : ResourceData -> Prop) (f : ResourceData -> ResourceData) :
  (forall d, I d -> I (f d)) -> preserves I (modD f).
Proof. intros H w Hw. by apply H. Qed.

Lemma preserves_bind {A B : Type} (I : ResourceData -> Prop) (m : M A) (k : A -> M B) :
  preserves I m -> (forall a, preserves I (k a)) -> preserves I (bind m k).
Proof.
  intros Hm Hk w Hw. specialize (Hm w Hw). unfold bind.
  destruct (m w) as [w' [a|e|p]]; [|done..]. by apply Hk.
Qed.

Lemma preserves_getD {B : Type} (I : ResourceData -> Prop) (k : ResourceData -> M B) :
  (forall d, I d -> preserves I (k d)) -> preserves I (bind getD k).
Proof. intros Hk w Hw. by apply (Hk (w_d w)). Qed.

Lemma preserves_when (I : ResourceData -> Prop) (b : bool) (m : M unit) :
  preserves I m -> preserves I (when b m).
Proof. intros Hm. destruct b; [done|]. apply preserves_ret. Qed.

(** Run the straight-line part of a method body. *)
Ltac run :=
  repeat first
    [ rewrite bind_modD | rewrite bind_getD | rewrite bind_send | rewrite bind_ret
    | rewrite bind_fail | rewrite bind_lift_Ok | rewrite bind_lift_Panic
    | progress cbn [w_d w_calls when check fst snd] ].

(** The two ends of the step of [Read] that writes the volumes. *)
Ltac volumes Hnil :=
  match goal with
  | |- context [SetVolumeConfigurations ?H ?s ?v] =>
      destruct (SetVolumeConfigurations_cases H s v) as [[Hnil ->]|[Hnil [? ->]]]
  end.

Section Collaborators.

Variable FlattenStringList : list string -> list elem.
Variable NormalizeJsonString : string -> error + string.
Variable IgnoreTags : gmap string string -> gmap string string.
Variable RemoveDefaultConfig : gmap string string -> gmap string string.
Variable conn : SDK.OpsWorks.
Variable StringHashcode : string -> Z.
Variable HashString : elem -> Z.

#[local] Abbreviation read :=
  (Read FlattenStringList NormalizeJsonString IgnoreTags RemoveDefaultConfig conn
     StringHashcode HashString).

(** X10.  When the layer cannot be described, [Read] stops after that one
    request.  If the resource is not new and the error is the service's
    ResourceNotFoundException, it clears the id and returns no error, so
    that the layer leaves the state; otherwise it returns the error,
    wrapped with the id of the layer, and keeps the id.  No field is
    written in either case. *)
Theorem Read_layer_gone (lt : opsworksLayerType) (d : ResourceData)
    (sent : list SDK.call) (err : error) :
  SDK.onDescribeLayers conn sent [Id d] = inl err ->
  let gone := negb (IsNewResource d)
              && ErrCodeEquals err SDK.ErrCodeResourceNotFoundException in
  read lt (mkWorld d sent)
  = (mkWorld (if gone then SetId d "" else d) (sent ++ [SDK.DescribeLayers [Id d]]),
     if gone then Ok tt
     else Err (Wrapf ("error reading OpsWorks layer (" ++ Id d ++ ")")%string err)).
Proof.
  intros Hresp. cbn zeta. unfold Read. run. rewrite Hresp.
  by destruct (negb (IsNewResource d) && ErrCodeEquals err _).
Qed.

(** X11.  The requests of a [Read], in the order they are sent: the
    description of the layer with the id the state holds; then, only when
    the answer has a first layer, the description of the load balancers of
    the id that layer carries; then the tags of the ARN that layer carries.
    [Read] sends nothing else, and in particular nothing that changes the
    service. *)
Theorem Read_requests (lt : opsworksLayerType) (d : ResourceData)
    (sent : list SDK.call) :
  let after := w_calls (read lt (mkWorld d sent)).1 in
  after = sent ++ [SDK.DescribeLayers [Id d]] \/
  exists layer rest,
    SDK.onDescribeLayers conn sent [Id d] = inr (Some layer :: rest) /\
    let id := SDK.StringValue (SDK.Layer.LayerId layer) in
    let arn := SDK.StringValue (SDK.Layer.Arn layer) in
    (after = sent ++ [SDK.DescribeLayers [Id d]; SDK.DescribeElasticLoadBalancers [id]] \/
     after = sent ++ [SDK.DescribeLayers [Id d]; SDK.DescribeElasticLoadBalancers [id];
                      SDK.ListTags arn]).
Proof.
  cbn zeta.
  destruct (read lt (mkWorld d sent)) as [after r] eqn:Hrun. cbn [fst].
  revert Hrun. unfold Read. run.
  destruct (SDK.onDescribeLayers conn sent [Id d]) as [err|[|[layer|] rest]] eqn:Hresp.
  - destruct (negb (IsNewResource d) && ErrCodeEquals err _);
      intros [= <- _]; by left.
  - intros [= <- _]. by left.
  - cbn [firstLayer]. run.
    destruct (CustomShortName lt); run;
      (destruct (SDK.Layer.CustomJson layer) as [json|];
       [destruct (NormalizeJsonString json) as [err|policy]|]); run;
      try (intros [= <- _]; by left);
      match goal with
      | |- context [SetAttributeMap lt ?s ?a] =>
          pose proof (Id_SetAttributeMap lt s a) as Hid;
          destruct (SetAttributeMap lt s a) as [d' [e|]]
      end; run; try (intros [= <- _]; by left);
      volumes Hnil; run; try (intros [= <- _]; by left);
      rewrite Id_Set_, Id_SetCustomRecipes, Id_SetLifecycleEventConfiguration;
      cbn [fst Id rd_id Set_ SetString SetStringSet SetBool SetId] in Hid; rewrite Hid;
      clear Hid;
      rewrite <- !app_assoc; cbn [app];
      match goal with
      | |- context [SDK.onDescribeElasticLoadBalancers conn ?h ?i] =>
          destruct (SDK.onDescribeElasticLoadBalancers conn h i) as [err'|[|[lb|] lbs]]
      end; run;
      try (intros [= <- _]; right; exists layer, rest; split; [done|]; by left);
      rewrite <- !app_assoc; cbn [app];
      match goal with
      | |- context [SDK.onListTags conn ?h ?i] =>
          destruct (SDK.onListTags conn h i) as [err'|tags]
      end; run;
      intros [= <- _]; right; exists layer, rest; (split; [done|]); by right.
  - intros [= <- _]. by left.
Qed.

(** The panic of [Read] once the answer has a first layer. *)
Lemma Read_panics_late (lt : opsworksLayerType) (d : ResourceData)
    (sent : list SDK.call) (layer : SDK.Layer.t) (rest : list (option SDK.Layer.t)) :
  SDK.onDescribeLayers conn sent [Id d] = inr (Some layer :: rest) ->
  let result := read lt (mkWorld d sent) in
  (forall p, result.2 = Panic p ->
     p = NilDereference /\
     w_calls result.1 = sent ++ [SDK.DescribeLayers [Id d]] /\
     Id (w_d result.1) = SDK.StringValue (SDK.Layer.LayerId layer)) /\
  (result.2 = Panic NilDereference <->
   (forall json, SDK.Layer.CustomJson layer = Some json ->
                 exists policy, NormalizeJsonString json = inr policy) /\
   (SetAttributeMap lt d (SDK.Layer.Attributes layer)).2 = None /\
   None ∈ SDK.Layer.VolumeConfigurations layer).
Proof.
  intros Hresp. cbn zeta.
  destruct (read lt (mkWorld d sent)) as [after r] eqn:Hrun. cbn [fst snd].
  revert Hrun. unfold Read. run. rewrite Hresp. cbn [firstLayer]. run.
  assert (Hno : forall (o : outcome unit) (P : panic -> Prop) (Q : Prop),
            (forall p, o <> Panic p) -> ~ Q ->
            (forall p, o = Panic p -> P p) /\ (o = Panic NilDereference <-> Q)).
  { intros o P Q Ho HQ. split; [intros p Hp; by destruct (Ho p)|].
    split; [intros Hp; by destruct (Ho NilDereference)|done]. }
  destruct (CustomShortName lt); run;
    (destruct (SDK.Layer.CustomJson layer) as [json|];
     [destruct (NormalizeJsonString json) as [err|policy] eqn:Hnj|]); run;
    try (intros [= <- <-]; apply Hno; [done|];
         intros (Hj & _); destruct (Hj json eq_refl) as [policy' Hp']; congruence);
    match goal with
    | |- context [SetAttributeMap lt ?s ?a] =>
        pose proof (Id_SetAttributeMap lt s a) as Hid;
        pose proof (SetAttributeMap_error_state lt d s a) as Hsame;
        destruct (SetAttributeMap lt s a) as [d' [e|]]
    end; cbn [snd] in Hsame; run;
    try (intros [= <- <-]; apply Hno; [done|]; intros (_ & Ha & _); congruence);
    volumes Hnil; run;
    try (intros [= <- <-]; split;
         [ intros p [= <-]; split; [done|]; split; [done|];
           cbn [w_d]; rewrite Id_SetCustomRecipes, Id_SetLifecycleEventConfiguration;
           cbn [fst Id rd_id Set_ SetString SetStringSet SetBool SetId] in Hid;
           by rewrite Hid
         | split; [intros _|done]; split;
           [ intros json' Hjson'; simplify_eq; by eexists
           | split; [exact Hsame|exact Hnil] ] ]);
    match goal with
    | |- context [SDK.onDescribeElasticLoadBalancers conn ?h ?i] =>
        destruct (SDK.onDescribeElasticLoadBalancers conn h i) as [err'|[|[lb|] lbs]]
    end; run;
    try (intros [= <- <-]; apply Hno; [done|]; by intros (_ & _ & Hv));
    match goal with
    | |- context [SDK.onListTags conn ?h ?i] =>
        destruct (SDK.onListTags conn h i) as [err'|tags]
    end; run;
    (intros [= <- <-]; apply Hno; [done|]; by intros (_ & _ & Hv)).
Qed.

(** X12.  [Read] panics in three cases only.  Two come right after the
    first request and before anything is written: the service answered the
    description of the layer without an error and with an empty list (index
    out of range), or with a list whose first element is nil (nil
    dereference).  The third comes late: the first layer of the answer has
    a nil element among its volume configurations, its custom JSON (if
    any) is valid and its attributes raise no error; [Read] then panics
    (nil dereference) in [SetVolumeConfigurations], still after the one
    request, but with the id of the remote layer already in the state.
    Nothing else in the method panics, and each of the three cases does;
    the functions of the other packages (the conversions of [flex], the
    normalisation of the JSON, the tag policy) are taken to return. *)
Theorem Read_panics (lt : opsworksLayerType) (d : ResourceData)
    (sent : list SDK.call) :
  let result := read lt (mkWorld d sent) in
  let resp := SDK.onDescribeLayers conn sent [Id d] in
  let late (layer : SDK.Layer.t) :=
    (forall json, SDK.Layer.CustomJson layer = Some json ->
                  exists policy, NormalizeJsonString json = inr policy) /\
    (SetAttributeMap lt d (SDK.Layer.Attributes layer)).2 = None /\
    None ∈ SDK.Layer.VolumeConfigurations layer in
  (forall p, result.2 = Panic p ->
     result = (mkWorld d (sent ++ [SDK.DescribeLayers [Id d]]), Panic p) /\
     (resp = inr [] /\ p = IndexOutOfRange \/
      exists rest, resp = inr (None :: rest) /\ p = NilDereference) \/
     exists layer rest,
       resp = inr (Some layer :: rest) /\ late layer /\ p = NilDereference /\
       w_calls result.1 = sent ++ [SDK.DescribeLayers [Id d]] /\
       Id (w_d result.1) = SDK.StringValue (SDK.Layer.LayerId layer)) /\
  (resp = inr [] ->
     result = (mkWorld d (sent ++ [SDK.DescribeLayers [Id d]]), Panic IndexOutOfRange)) /\
  (forall rest, resp = inr (None :: rest) ->
     result = (mkWorld d (sent ++ [SDK.DescribeLayers [Id d]]), Panic NilDereference)) /\
  (forall layer rest, resp = inr (Some layer :: rest) -> late layer ->
     result.2 = Panic NilDereference).
Proof.
  cbn zeta.
  destruct (SDK.onDescribeLayers conn sent [Id d]) as [err|[|[layer|] rest]] eqn:Hresp.
  - split; [|done]. intros p. unfold Read. run. rewrite Hresp.
    by destruct (negb (IsNewResource d) && ErrCodeEquals err _).
  - assert (Hrun : read lt (mkWorld d sent)
                   = (mkWorld d (sent ++ [SDK.DescribeLayers [Id d]]),
                      Panic IndexOutOfRange)).
    { unfold Read. run. by rewrite Hresp. }
    rewrite Hrun. split; [|done].
    intros p [= <-]. left. split; [done|]. by left.
  - destruct (Read_panics_late lt d sent layer rest Hresp) as [Hpanic Hlate].
    split; [|split; [done|split; [done|]]].
    + intros p Hp. right. exists layer, rest.
      destruct (Hpanic p Hp) as (-> & Hcalls & Hid).
      split; [done|]. split; [by apply Hlate|]. done.
    + intros layer' rest' [= <- <-] Hconds. by apply Hlate.
  - assert (Hrun : read lt (mkWorld d sent)
                   = (mkWorld d (sent ++ [SDK.DescribeLayers [Id d]]),
                      Panic NilDereference)).
    { unfold Read. run. by rewrite Hresp. }
    rewrite Hrun. split; [|split; [done|split; [|done]]].
    + intros p [= <-]. left. split; [done|]. right. by exists rest.
    + by intros rest' _.
Qed.

(** X13.  A [Read] that returns no error after the layer was described
    has sent its three requests, the second for the id and the third for
    the ARN of the first layer of the answer, and leaves in the state: that
    id; that ARN; the listed tags the ignore policy keeps as [tags_all],
    and those without the provider defaults as [tags]; as the load
    balancer, the empty string when the layer has none and the name of the
    first one otherwise (cleared when that name is nil). *)
Theorem Read_success (lt : opsworksLayerType) (d : ResourceData)
    (sent : list SDK.call) (layers : list (option SDK.Layer.t)) :
  SDK.onDescribeLayers conn sent [Id d] = inr layers ->
  (read lt (mkWorld d sent)).2 = Ok tt ->
  exists layer rest lbs tags,
    layers = Some layer :: rest /\
    let id := SDK.StringValue (SDK.Layer.LayerId layer) in
    let arn := SDK.StringValue (SDK.Layer.Arn layer) in
    let after := (read lt (mkWorld d sent)).1 in
    SDK.onDescribeElasticLoadBalancers conn (sent ++ [SDK.DescribeLayers [Id d]]) [id]
      = inr lbs /\
    SDK.onListTags conn
      (sent ++ [SDK.DescribeLayers [Id d]; SDK.DescribeElasticLoadBalancers [id]]) arn
      = inr tags /\
    w_calls after
      = sent ++ [SDK.DescribeLayers [Id d]; SDK.DescribeElasticLoadBalancers [id];
                 SDK.ListTags arn] /\
    Id (w_d after) = id /\
    rd_fields (w_d after) !! "arn" = Some (FValue (VString arn)) /\
    rd_fields (w_d after) !! "tags"
      = Some (FMap (RemoveDefaultConfig (IgnoreTags tags))) /\
    rd_fields (w_d after) !! "tags_all" = Some (FMap (IgnoreTags tags)) /\
    (lbs = [] ->
     rd_fields (w_d after) !! "elastic_load_balancer" = Some (FValue (VString ""))) /\
    (forall lb more, lbs = Some lb :: more ->
       rd_fields (w_d after) !! "elastic_load_balancer"
       = FValue ∘ VString <$> SDK.ElasticLoadBalancerName lb).
Proof.
  intros Hresp. cbn zeta.
  destruct (read lt (mkWorld d sent)) as [after r] eqn:Hrun. cbn [fst snd].
  intros ->. revert Hrun. unfold Read. run. rewrite Hresp.
  destruct layers as [|[layer|] rest]; [discriminate| |discriminate].
  cbn [firstLayer]. run.
  destruct (CustomShortName lt); run;
    (destruct (SDK.Layer.CustomJson layer) as [json|];
     [destruct (NormalizeJsonString json) as [err|policy]|]); run;
    try discriminate;
    match goal with
    | |- context [SetAttributeMap lt ?s ?a] =>
        pose proof (Id_SetAttributeMap lt s a) as Hid;
        destruct (SetAttributeMap lt s a) as [d' [e|]]
    end; run; try discriminate;
    volumes Hnil; run; try discriminate;
    rewrite Id_Set_, Id_SetCustomRecipes, Id_SetLifecycleEventConfiguration;
    cbn [fst Id rd_id Set_ SetString SetStringSet SetBool SetId] in Hid; rewrite Hid;
    rewrite <- !app_assoc; cbn [app];
    match goal with
    | |- context [SDK.onDescribeElasticLoadBalancers conn ?h ?i] =>
        destruct (SDK.onDescribeElasticLoadBalancers conn h i)
          as [err'|lbs] eqn:Hlbs
    end; try (destruct lbs as [|[lb|] more]); run; try discriminate;
    rewrite <- !app_assoc; cbn [app];
    match goal with
    | |- context [SDK.onListTags conn ?h ?i] =>
        destruct (SDK.onListTags conn h i) as [err'|tags] eqn:Htags
    end; run; try discriminate;
    intros [= <-]; eexists layer, rest, _, tags;
    (split; [reflexivity|]); (split; [eassumption|]); (split; [eassumption|]);
    (split; [reflexivity|]);
    cbn [w_d]; unfold SetString, SetBool;
    (split; [cbn [Id rd_id Set_]; by rewrite ?Id_Set_,
               ?Id_SetCustomRecipes, ?Id_SetLifecycleEventConfiguration|]);
    repeat split;
    try (intros; simplify_eq);
    repeat (rewrite Set_other_key by done); by rewrite Set_same_key.
Qed.

(** X14.  When the custom JSON of the layer is not valid, [Read] returns
    the error wrapped as "policy contains an invalid JSON", after the one
    request, and leaves the state half written: the id and the fields it
    takes from the layer record (name, stack and the like) are already
    those of the remote layer, and every other field (the custom JSON, the
    attributes, the recipes, the volumes, the tags) is as it was. *)
Theorem Read_invalid_json (lt : opsworksLayerType) (d : ResourceData)
    (sent : list SDK.call) (layer : SDK.Layer.t) (rest : list (option SDK.Layer.t))
    (json : string) (err : error) :
  SDK.onDescribeLayers conn sent [Id d] = inr (Some layer :: rest) ->
  SDK.Layer.CustomJson layer = Some json ->
  NormalizeJsonString json = inl err ->
  exists after,
    read lt (mkWorld d sent)
    = (mkWorld after (sent ++ [SDK.DescribeLayers [Id d]]),
       Err (Wrapf "policy contains an invalid JSON" err)) /\
    Id after = SDK.StringValue (SDK.Layer.LayerId layer) /\
    rd_fields after !! "name" = FValue ∘ VString <$> SDK.Layer.Name layer /\
    rd_fields after !! "stack_id" = FValue ∘ VString <$> SDK.Layer.StackId layer /\
    forall k, k ∉ layer_keys lt -> rd_fields after !! k = rd_fields d !! k.
Proof.
  intros Hresp Hjson Herr. unfold Read. run. rewrite Hresp.
  cbn [firstLayer]. run. unfold layer_keys.
  destruct (CustomShortName lt); run; rewrite Hjson, Herr; run;
    (eexists; split; [reflexivity|]); (split; [reflexivity|]);
    unfold SetString, SetStringSet, SetBool;
    (split; [repeat (rewrite Set_other_key by done); by rewrite Set_same_key|]);
    (split; [repeat (rewrite Set_other_key by done); by rewrite Set_same_key|]);
    intros k Hk; rewrite !not_elem_of_app, !not_elem_of_cons in Hk;
    destruct_and!; by rewrite !Set_other_key by done.
Qed.

(** X15.  However it ends, [Read] leaves the prior state alone and writes
    no field but those of [read_keys]: the fields of the layer record,
    [short_name] for a type with a custom short name, the custom JSON, the
    attributes that are not write-only, the lifecycle fields, the recipe
    lists, the volumes, the load balancer, the ARN and the tags.  A
    write-only attribute and any field outside the list keep their
    values. *)
Theorem Read_writes (lt : opsworksLayerType) (d : ResourceData)
    (sent : list SDK.call) :
  let after := w_d (read lt (mkWorld d sent)).1 in
  rd_isNew after = rd_isNew d /\
  rd_state after = rd_state d /\
  forall k, k ∉ read_keys lt -> rd_fields after !! k = rd_fields d !! k.
Proof.
  cbn zeta. change (untouched (read_keys lt) d (w_d (read lt (mkWorld d sent)).1)).
  assert (Hkeys : forall k,
            k ∈ layer_keys lt ++ ["custom_json"]
                ++ ["drain_elb_on_shutdown"; "instance_shutdown_timeout"]
                ++ ["ebs_volume"; "elastic_load_balancer"; "arn"; "tags"; "tags_all"] ->
            k ∈ read_keys lt).
  { intros k. unfold read_keys. rewrite !elem_of_app. tauto. }
  assert (Hattrs : readable_keys (Attributes lt) ⊆ read_keys lt).
  { intros k. unfold read_keys. rewrite !elem_of_app. tauto. }
  assert (Hrecipes : recipe_keys ⊆ read_keys lt).
  { intros k. unfold read_keys. rewrite !elem_of_app. tauto. }
  revert Hkeys Hattrs Hrecipes. unfold layer_keys. generalize (read_keys lt) as keys.
  intros keys Hkeys Hattrs Hrecipes.
  assert (Hin : forall k,
            k ∈ ["auto_assign_elastic_ips"; "auto_assign_public_ips";
                 "custom_instance_profile_arn"; "custom_security_group_ids";
                 "auto_healing"; "install_updates_on_boot"; "name";
                 "system_packages"; "stack_id"; "use_ebs_optimized_instances";
                 "custom_json"; "drain_elb_on_shutdown"; "instance_shutdown_timeout";
                 "ebs_volume"; "elastic_load_balancer"; "arn"; "tags"; "tags_all"] ->
            k ∈ keys).
  { intros k Hk. apply Hkeys. rewrite !elem_of_app. rewrite !elem_of_cons in Hk.
    rewrite !elem_of_cons. tauto. }
  assert (Hshort : CustomShortName lt = true -> "short_name" ∈ keys).
  { intros Hcsn. apply Hkeys. rewrite Hcsn, !elem_of_app, !elem_of_cons. tauto. }
  clear Hkeys.
  assert (Hall : Forall (fun k => k ∈ keys)
            ["auto_assign_elastic_ips"; "auto_assign_public_ips";
             "custom_instance_profile_arn"; "custom_security_group_ids";
             "auto_healing"; "install_updates_on_boot"; "name";
             "system_packages"; "stack_id"; "use_ebs_optimized_instances";
             "custom_json"; "drain_elb_on_shutdown"; "instance_shutdown_timeout";
             "ebs_volume"; "elastic_load_balancer"; "arn"; "tags"; "tags_all"])
    by (apply Forall_forall; exact Hin).
  clear Hin. repeat (apply Forall_cons in Hall as [? Hall]). clear Hall.
  assert (Hp : preserves (untouched keys d) (read lt));
    [|exact (Hp (mkWorld d sent) (untouched_refl _ _))].
  unfold Read.
  repeat first
    [ apply preserves_getD; intros ? ?
    | match goal with
      | |- preserves _ (bind (lift (SetVolumeConfigurations _ _ _)) _) =>
          apply preserves_lift_bind; intros ? ?
      end
    | apply preserves_bind; [|intros ?]
    | apply preserves_ret | apply preserves_fail | apply preserves_lift
    | apply preserves_check | apply preserves_send
    | match goal with
      | |- preserves _ (when ?b _) => destruct b eqn:?; cbn [when]
      end
    | apply preserves_modD; intros ? ?;
        unfold SetString, SetStringSet, SetBool;
        first [ by apply untouched_SetId
              | apply untouched_Set_; [by auto|done]
              | by apply untouched_SetLifecycleEventConfiguration
              | by apply untouched_SetCustomRecipes
              | match goal with
                | Heq : SetAttributeMap lt ?s ?a = (?r, _) |- untouched _ _ ?r =>
                    replace r with (SetAttributeMap lt s a).1 by (by rewrite Heq);
                    by apply untouched_SetAttributeMap
                | Heq : SetVolumeConfigurations ?H ?s ?v = Ok ?r |- untouched _ _ ?r =>
                    destruct (SetVolumeConfigurations_cases H s v)
                      as [[_ Hv]|[_ [? Hv]]]; rewrite Hv in Heq; [discriminate|];
                    injection Heq as <-; apply untouched_Set_; [by auto|done]
                end ]
    | match goal with
      | |- preserves _ (match ?x with _ => _ end) => destruct x eqn:?
      | |- preserves _ (if ?x then _ else _) => destruct x eqn:?
      end ].
Qed.


End Collaborators.

Lemma Read_layer_gone_witness :
  Read elems_of json_ok all_tags all_tags without_layer hash_of_string hash_of_elem
    example_layer
    (mkWorld example_state [])
  = (mkWorld (SetId example_state "") [SDK.DescribeLayers ["layer-1"]], Ok tt).
Proof.
  exact (Read_layer_gone elems_of json_ok all_tags all_tags without_layer
           hash_of_string hash_of_elem example_layer example_state [] gone_error eq_refl).
Defined.

Lemma Read_healthy :
  (Read elems_of json_ok all_tags all_tags healthy hash_of_string hash_of_elem example_layer
     (mkWorld example_state [])).2 = Ok tt.
Proof. vm_compute. reflexivity. Defined.

Lemma Read_success_witness :
  let after := (Read elems_of json_ok all_tags all_tags healthy hash_of_string hash_of_elem example_layer
                  (mkWorld example_state [])).1 in
  Id (w_d after) = "layer-1" /\
  rd_fields (w_d after) !! "arn"
    = Some (FValue (VString "arn:aws:opsworks:us-east-1:123456789012:layer/layer-1")) /\
  rd_fields (w_d after) !! "elastic_load_balancer" = Some (FValue (VString "")).
Proof.
  destruct (Read_success elems_of json_ok all_tags all_tags healthy hash_of_string
              hash_of_elem example_layer example_state [] [Some remote_layer] eq_refl
              Read_healthy)
    as (layer & rest & lbs & tags & Hlayer & Hlbs & _ & _ & Hid & Harn & _ & _ & Hnone & _).
  injection Hlayer as <- <-. injection Hlbs as <-.
  split; [exact Hid|]. split; [exact Harn|]. exact (Hnone eq_refl).
Defined.

Lemma Read_invalid_json_witness :
  exists after,
    Read elems_of invalid_json all_tags all_tags with_json_layer hash_of_string
      hash_of_elem example_layer
      (mkWorld imported_state [])
    = (mkWorld after [SDK.DescribeLayers ["layer-1"]],
       Err (Wrapf "policy contains an invalid JSON" json_error)) /\
    rd_fields after !! "name" = Some (FValue (VString "HAProxy")) /\
    rd_fields after !! "custom_json" = None.
Proof.
  destruct (Read_invalid_json elems_of invalid_json all_tags all_tags with_json_layer
              hash_of_string hash_of_elem example_layer imported_state [] json_layer []
              "{" json_error
              eq_refl eq_refl eq_refl)
    as (after & Hrun & _ & Hname & _ & Hrest).
  exists after. split; [exact Hrun|]. split; [exact Hname|].
  rewrite Hrest; [reflexivity|]. vm_compute. set_solver.
Defined.

(** A layer with a nil element among its volumes: the refresh panics
    after the one request, with the id and the name of the remote layer
    already written. *)
Example Read_nil_volume :
  exists after,
    Read elems_of json_ok all_tags all_tags with_nil_volume hash_of_string hash_of_elem
      example_layer (mkWorld imported_state [])
    = (mkWorld after [SDK.DescribeLayers ["layer-1"]], Panic NilDereference) /\
    Id after = "layer-1" /\
    rd_fields after !! "name" = Some (FValue (VString "HAProxy")) /\
    rd_fields after !! "ebs_volume" = None.
Proof. eexists. vm_compute. done. Qed.

(** A refresh of the example layer on a service that still has it. *)
Example Read_example_requests :
  w_calls (Read elems_of json_ok all_tags all_tags healthy hash_of_string hash_of_elem example_layer
             (mkWorld example_state [])).1
  = [SDK.DescribeLayers ["layer-1"];
     SDK.DescribeElasticLoadBalancers ["layer-1"];
     SDK.ListTags "arn:aws:opsworks:us-east-1:123456789012:layer/layer-1"].
Proof. vm_compute. reflexivity. Qed.
End ReadFacts.

(** ** The pool data source: what the read writes and how it fails *)

Module PoolReadFacts.
Import Schema Assert LayerResource PoolResource EC2 Spec Fixtures Coverage
  StringsFacts SchemaFacts.
Local Open Scope list_scope.

Section DataSourceFacts.

Variable Filter : Type.
Variable BuildFiltersDataSource : list elem -> list Filter.
Variable AllocationTagsMap : list IpamResourceTag -> gmap string string.
Variable DescribeIpamPools :
  DescribeIpamPoolsInput Filter -> error + option (list (option IpamPool)).

#[local] Abbreviation read :=
  (dataSourceVPCIpamPoolRead Filter BuildFiltersDataSource AllocationTagsMap
     DescribeIpamPools).
#[local] Abbreviation input_of := (describeInput Filter BuildFiltersDataSource).

Lemma describeInput_no_error (d : ResourceData) (e : error) : input_of d <> Err e.
Proof.
  unfold describeInput, GetOk.
  cbn zeta.
  generalize (Get d TypeString "ipam_pool_id"), (Get d TypeSet "filter").
  intros id filters.
  destruct (bool_decide (id ≠ _)), (bool_decide (filters ≠ _));
    destruct id as [[]| | |], filters as [[]| | |]; done.
Qed.

Lemma pool_read_frame (d : ResourceData) :
  rd_isNew (read d).1 = rd_isNew d /\
  rd_state (read d).1 = rd_state d /\
  forall k, k ∉ pool_keys -> rd_fields (read d).1 !! k = rd_fields d !! k.
Proof.
  unfold dataSourceVPCIpamPoolRead.
  destruct (input_of d) as [input|e|p]; [|done..].
  destruct (DescribeIpamPools input) as [err|[[|[record|] rest]|]]; try done.
  destruct (scopeIdOf record) as [scopeId|e|p];
    destruct (PubliclyAdvertisable record) as [b|];
    (split; [done|]); (split; [done|]);
    intros k Hk; unfold pool_keys in Hk; rewrite !not_elem_of_cons in Hk;
    destruct_and!; cbn [fst]; unfold SetString, SetBool, SetInt;
    by rewrite ?Set_other_key by done.
Qed.

(** X16.  However it ends, the read leaves the prior state alone and
    writes no field but the twelve of [pool_keys]. *)
Theorem pool_read_writes (d : ResourceData) :
  let after := (read d).1 in
  rd_isNew after = rd_isNew d /\
  rd_state after = rd_state d /\
  forall k, k ∉ pool_keys -> rd_fields after !! k = rd_fields d !! k.
Proof.
  cbn zeta. apply pool_read_frame.
Qed.

Section Declared.

Variable DataSourceFiltersSchema : schema.
Variable TagsSchema : schema.
Variable TagsSchemaComputed : schema.

#[local] Abbreviation pool_schema :=
  (DataSourceVPCIpamPool DataSourceFiltersSchema TagsSchema TagsSchemaComputed).

(** X27.  The schema of the data source against its read.  Every field
    the read may write is declared.  Four attributes that the schema
    declares as computed only, neither optional nor required, so that
    nothing but the read could give them a value, are never written by it:
    [address_family] and the default, maximal and minimal allocation
    netmask lengths; nor is [tags]. *)
Theorem pool_schema_and_read :
  (forall key, key ∈ pool_keys -> is_Some (pool_schema !! key)) /\
  forall key,
    key ∈ ["address_family"; "allocation_default_netmask_length";
           "allocation_max_netmask_length"; "allocation_min_netmask_length"] ->
    (exists t, pool_schema !! key = Some (mkSchema t false false true false None None)) /\
    forall d : ResourceData,
      rd_fields (read d).1 !! key = rd_fields d !! key /\
      rd_fields (read d).1 !! "tags" = rd_fields d !! "tags".
Proof.
  split.
  - intros key Hkey. unfold pool_keys in Hkey. rewrite !elem_of_cons in Hkey.
    destruct_or!; subst; try (by apply elem_of_nil in Hkey); by eexists.
  - intros key Hkey. rewrite !elem_of_cons in Hkey.
    assert (Hfree : (key ∉ pool_keys) /\ ("tags" ∉ pool_keys)).
    { unfold pool_keys. rewrite !not_elem_of_cons.
      destruct_or!; subst; try (by apply elem_of_nil in Hkey);
        repeat split; try discriminate; apply not_elem_of_nil. }
    destruct Hfree as [Hkey' Htags]. split.
    + destruct_or!; subst; try (by apply elem_of_nil in Hkey); by eexists.
    + intros d. destruct (pool_read_frame d) as (_ & _ & Hframe).
      split; by apply Hframe.
Qed.

End Declared.

(** X17.  The read returns an error exactly when the query of the service
    fails; the error is the one the service returned, unchanged, and the
    state is left as it was, the id included. *)
Theorem pool_read_error (d : ResourceData) (e : error) :
  (read d).2 = Err e <->
  read d = (d, Err e) /\
  exists input, input_of d = Ok input /\ DescribeIpamPools input = inl e.
Proof.
  unfold dataSourceVPCIpamPoolRead.
  pose proof (describeInput_no_error d) as Hno.
  destruct (input_of d) as [input|e'|p]; [|by destruct (Hno e')|];
    [|split; [|intros [? _]]; discriminate].
  destruct (DescribeIpamPools input) as [err|[[|[record|] rest]|]] eqn:Hquery.
  - split.
    + intros [= ->]. split; [done|]. by exists input.
    + by intros [[= ->] _].
  - split; [|intros [? _]]; discriminate.
  - destruct (scopeIdOf record) as [scopeId|e'|p] eqn:Hscope;
      [split; [|intros [? _]]; discriminate| |split; [|intros [? _]]; discriminate].
    unfold scopeIdOf in Hscope.
    destruct (IpamScopeArn record) as [arn|]; [|done].
    by destruct (Strings.Split arn "/" !! 1%nat).
  - split; [|intros [? _]]; discriminate.
  - split; [|intros [? _]]; discriminate.
Qed.

(** X18.  A first record without a scope ARN makes the read panic on the
    nil pointer, after it has set the id to the identifier of that record
    (and [publicly_advertisable], when the record carries it): every other
    field is as it was. *)
Theorem pool_read_nil_scope (d : ResourceData) (input : DescribeIpamPoolsInput Filter)
    (pool : IpamPool) (rest : list (option IpamPool)) :
  input_of d = Ok input ->
  DescribeIpamPools input = inr (Some (Some pool :: rest)) ->
  IpamScopeArn pool = None ->
  (read d).2 = Panic NilDereference /\
  Id (read d).1 = SDK.StringValue (IpamPoolId pool) /\
  forall k, k <> "publicly_advertisable" ->
    rd_fields (read d).1 !! k = rd_fields d !! k.
Proof.
  unfold dataSourceVPCIpamPoolRead, scopeIdOf. intros -> -> ->.
  split; [done|]. cbn [fst].
  destruct (PubliclyAdvertisable pool) as [b|]; (split; [done|]); intros k Hk;
    [|done].
  unfold SetBool. by rewrite Set_other_key.
Qed.

(** X19.  On a read that succeeds, [allocation_resource_tags] holds the
    allocation tags of the record as a map, and [publicly_advertisable]
    the flag of the record when it has one; when that pointer is nil the
    field keeps the value it had, where the other attributes of the record
    are cleared for a nil pointer. *)
Theorem pool_publicly_advertisable (d : ResourceData)
    (input : DescribeIpamPoolsInput Filter) (pool : IpamPool)
    (rest : list (option IpamPool)) (scopeId : string) :
  input_of d = Ok input ->
  DescribeIpamPools input = inr (Some (Some pool :: rest)) ->
  scopeIdOf pool = Ok scopeId ->
  rd_fields (read d).1 !! "publicly_advertisable"
    = match PubliclyAdvertisable pool with
      | Some b => Some (FValue (VBool b))
      | None => rd_fields d !! "publicly_advertisable"
      end /\
  rd_fields (read d).1 !! "allocation_resource_tags"
    = Some (FMap (AllocationTagsMap (AllocationResourceTags pool))) /\
  (Description pool = None -> rd_fields (read d).1 !! "description" = None).
Proof.
  unfold dataSourceVPCIpamPoolRead. intros -> -> ->. cbn [fst].
  unfold SetString, SetBool, SetInt.
  split; [|split].
  - rewrite !Set_other_key by done.
    destruct (PubliclyAdvertisable pool) as [b|]; [|done].
    cbn [fmap option_fmap option_map]. by rewrite Set_same_key.
  - rewrite !Set_other_key by done. by rewrite Set_same_key.
  - intros ->. rewrite !Set_other_key by done. by rewrite Set_same_key.
Qed.

End DataSourceFacts.

Lemma pool_read_nil_scope_witness :
  let nameless :=
    mkIpamPool [] None None None None (Some "ipam-pool-4") None None None None
      (Some true) None None in
  (lookup [Some nameless]).2 = Panic NilDereference /\
  Id (lookup [Some nameless]).1 = "ipam-pool-4" /\
  rd_fields (lookup [Some nameless]).1 !! "arn" = None.
Proof.
  cbn zeta.
  destruct (pool_read_nil_scope (string * list string) filter_values no_tags
              (returning [Some (mkIpamPool [] None None None None (Some "ipam-pool-4")
                                  None None None None (Some true) None None)])
              no_filters (mkDescribeIpamPoolsInput _ [] []) _ [] eq_refl eq_refl eq_refl)
    as (Hpanic & Hid & Hrest).
  split; [exact Hpanic|]. split; [exact Hid|].
  exact (Hrest "arn" ltac:(discriminate)).
Defined.

Lemma advertised_input :
  describeInput (string * list string) filter_values
    (mkResourceData "" true ∅ (<["publicly_advertisable" := FValue (VBool true)]> ∅))
  = Ok (mkDescribeIpamPoolsInput _ [] []).
Proof. vm_compute. reflexivity. Defined.

Lemma pool_publicly_advertisable_witness :
  rd_fields
    (dataSourceVPCIpamPoolRead (string * list string) filter_values no_tags
       (returning [Some first_pool])
       (mkResourceData "" true ∅ (<["publicly_advertisable" := FValue (VBool true)]> ∅))).1
    !! "publicly_advertisable"
  = Some (FValue (VBool true)).
Proof.
  destruct (pool_publicly_advertisable (string * list string) filter_values no_tags
              (returning [Some first_pool])
              (mkResourceData "" true ∅
                 (<["publicly_advertisable" := FValue (VBool true)]> ∅))
              (mkDescribeIpamPoolsInput _ [] []) first_pool [] "ipam-scope-0a1b2c"
              advertised_input eq_refl eq_refl) as (Hflag & _).
  rewrite Hflag. vm_compute. reflexivity.
Defined.

End PoolReadFacts.

(** ** [Update]: the requests and the refresh *)

Module RequestFacts.
Import Schema Effects Spec Coverage.
Local Open Scope list_scope.

Lemma quiet_pure {A : Type} (P : SDK.call -> Prop) (m : M A) :
  (forall w, (m w).1 = w) -> quiet P m.
Proof.
  intros H w. exists []. rewrite H, app_nil_r. split; [by destruct w|constructor].
Qed.

Lemma quiet_ret {A : Type} (P : SDK.call -> Prop) (a : A) : quiet P (ret a).
Proof. by apply quiet_pure. Qed.

Lemma quiet_fail {A : Type} (P : SDK.call -> Prop) (e : error) : quiet P (@fail A e).
Proof. by apply quiet_pure. Qed.

Lemma quiet_lift {A : Type} (P : SDK.call -> Prop) (o : outcome A) : quiet P (lift o).
Proof. by apply quiet_pure. Qed.

Lemma quiet_check (P : SDK.call -> Prop) (e : option error) : quiet P (check e).
Proof. destruct e; by apply quiet_pure. Qed.

Lemma quiet_send {A : Type} (P : SDK.call -> Prop) (c : SDK.call)
    (answer : list SDK.call -> A) :
  P c -> quiet P (send c answer).
Proof. intros Hc w. exists [c]. split; [done|]. by constructor. Qed.

Lemma quiet_bind {A B : Type} (P : SDK.call -> Prop) (m : M A) (k : A -> M B) :
  quiet P m -> (forall a, quiet P (k a)) -> quiet P (bind m k).
Proof.
  intros Hm Hk w. destruct (Hm w) as (l1 & Hl1 & Hq1). unfold bind.
  destruct (m w) as [w' [a|e|]] eqn:Hmw; cbn [fst] in Hl1; subst w'.
  - destruct (Hk a (mkWorld (w_d w) (w_calls w ++ l1))) as (l2 & Hl2 & Hq2).
    exists (l1 ++ l2). rewrite Hl2. cbn [w_d w_calls]. rewrite app_assoc.
    split; [done|]. by apply Forall_app.
  - by exists l1.
  - by exists l1.
Qed.

Lemma quiet_when (P : SDK.call -> Prop) (b : bool) (m : M unit) :
  quiet P m -> quiet P (when b m).
Proof. intros Hm. destruct b; [done|]. apply quiet_ret. Qed.

(** A quiet step followed by [k]: either the step fails and the whole
    ends there, or [k] runs in the same local state after the requests of
    the step. *)
Lemma quiet_then {A B : Type} (P : SDK.call -> Prop) (m : M A) (k : A -> M B)
    (w : world) :
  quiet P m ->
  exists sent, Forall P sent /\
    ((exists a, bind m k w = k a (mkWorld (w_d w) (w_calls w ++ sent))) \/
     ((bind m k w).1 = mkWorld (w_d w) (w_calls w ++ sent) /\
      forall b, (bind m k w).2 <> Ok b)).
Proof.
  intros Hm. destruct (Hm w) as (l & Hl & Hq). exists l. split; [done|].
  unfold bind. destruct (m w) as [w' [a|e|p]]; cbn [fst] in Hl; subst w'.
  - left. by exists a.
  - by right.
  - by right.
Qed.

Lemma sends_only_pure {A : Type} (P : SDK.call -> Prop) (m : M A) :
  (forall w, w_calls (m w).1 = w_calls w) -> sends_only P m.
Proof. intros H w. exists []. rewrite H, app_nil_r. by split; [|constructor]. Qed.

Lemma sends_only_ret {A : Type} (P : SDK.call -> Prop) (a : A) : sends_only P (ret a).
Proof. by apply sends_only_pure. Qed.

Lemma sends_only_fail {A : Type} (P : SDK.call -> Prop) (e : error) :
  sends_only P (@fail A e).
Proof. by apply sends_only_pure. Qed.

Lemma sends_only_lift {A : Type} (P : SDK.call -> Prop) (o : outcome A) :
  sends_only P (lift o).
Proof. by apply sends_only_pure. Qed.

Lemma sends_only_getD (P : SDK.call -> Prop) : sends_only P getD.
Proof. by apply sends_only_pure. Qed.

Lemma sends_only_modD (P : SDK.call -> Prop) (f : ResourceData -> ResourceData) :
  sends_only P (modD f).
Proof. by apply sends_only_pure. Qed.

Lemma sends_only_check (P : SDK.call -> Prop) (e : option error) :
  sends_only P (check e).
Proof. destruct e; by apply sends_only_pure. Qed.

Lemma sends_only_send {A : Type} (P : SDK.call -> Prop) (c : SDK.call)
    (answer : list SDK.call -> A) :
  P c -> sends_only P (send c answer).
Proof. intros Hc w. exists [c]. split; [done|]. by constructor. Qed.

Lemma sends_only_bind {A B : Type} (P : SDK.call -> Prop) (m : M A) (k : A -> M B) :
  sends_only P m -> (forall a, sends_only P (k a)) -> sends_only P (bind m k).
Proof.
  intros Hm Hk w. destruct (Hm w) as (l1 & Hl1 & Hq1). unfold bind.
  destruct (m w) as [w' [a|e|]] eqn:Hmw; cbn [fst] in Hl1.
  - destruct (Hk a w') as (l2 & Hl2 & Hq2).
    exists (l1 ++ l2). rewrite Hl2, Hl1, app_assoc.
    split; [done|]. by apply Forall_app.
  - by exists l1.
  - by exists l1.
Qed.

(** What follows a pure step may use its result. *)
Lemma sends_only_bind_lift {A B : Type} (P : SDK.call -> Prop) (o : outcome A)
    (k : A -> M B) :
  (forall a, o = Ok a -> sends_only P (k a)) -> sends_only P (bind (lift o) k).
Proof.
  intros Hk. destruct o as [a|e|p].
  - intros w. by apply Hk.
  - by apply sends_only_pure.
  - by apply sends_only_pure.
Qed.

Lemma sends_only_when (P : SDK.call -> Prop) (b : bool) (m : M unit) :
  sends_only P m -> sends_only P (when b m).
Proof. intros Hm. destruct b; [done|]. apply sends_only_ret. Qed.

Lemma sends_only_mono {A : Type} (P Q : SDK.call -> Prop) (m : M A) :
  (forall c, P c -> Q c) -> sends_only P m -> sends_only Q m.
Proof.
  intros HPQ Hm w. destruct (Hm w) as (l & Hl & Hq). exists l. split; [done|].
  eapply Forall_impl; eauto.
Qed.

End RequestFacts.

(** Step through a method body, showing what it sends. *)
Ltac only_step :=
  first
    [ apply RequestFacts.sends_only_bind_lift; intros ? ?
    | apply RequestFacts.sends_only_bind; [|intros ?]
    | apply RequestFacts.sends_only_ret
    | apply RequestFacts.sends_only_fail
    | apply RequestFacts.sends_only_lift
    | apply RequestFacts.sends_only_getD
    | apply RequestFacts.sends_only_modD
    | apply RequestFacts.sends_only_check
    | match goal with
      | |- Coverage.sends_only _ (Effects.when ?b _) =>
          destruct b eqn:?; cbn [Effects.when]
      | |- Coverage.sends_only _ (match ?x with _ => _ end) => destruct x eqn:?
      | |- Coverage.sends_only _ (if ?x then _ else _) => destruct x eqn:?
      end ].

(** Step through a method body that only sends. *)
Ltac quiet_step :=
  first
    [ apply RequestFacts.quiet_bind; [|intros ?]
    | apply RequestFacts.quiet_ret
    | apply RequestFacts.quiet_fail
    | apply RequestFacts.quiet_lift
    | apply RequestFacts.quiet_check
    | apply RequestFacts.quiet_when
    | apply RequestFacts.quiet_send; reflexivity
    | match goal with
      | |- Coverage.quiet _ (match ?x with _ => _ end) => destruct x
      | |- Coverage.quiet _ (if ?x then _ else _) => destruct x
      end ].

Module UpdateOrderFacts.
Import Schema Assert Effects OpsWorks Spec Fixtures Coverage EffectsFacts RequestFacts
  ReadFacts.
Local Open Scope list_scope.

Section Collaborators.

Variable ExpandStringList : list elem -> list string.
Variable ExpandStringSet : list elem -> list string.
Variable FlattenStringList : list string -> list elem.
Variable NormalizeJsonString : string -> error + string.
Variable IgnoreTags : gmap string string -> gmap string string.
Variable RemoveDefaultConfig : gmap string string -> gmap string string.
Variable conn : SDK.OpsWorks.
Variable StringHashcode : string -> Z.
Variable HashString : elem -> Z.

#[local] Abbreviation read :=
  (Read FlattenStringList NormalizeJsonString IgnoreTags RemoveDefaultConfig conn
     StringHashcode HashString).
#[local] Abbreviation update :=
  (Update ExpandStringList ExpandStringSet FlattenStringList NormalizeJsonString
     IgnoreTags RemoveDefaultConfig conn StringHashcode HashString).
#[local] Abbreviation request_of := (UpdateLayerRequest ExpandStringList ExpandStringSet).

Lemma Read_sends_reads (lt : opsworksLayerType) :
  sends_only (fun c => is_read_call c = true) (read lt).
Proof.
  unfold Read.
  repeat first [apply sends_only_send; reflexivity | only_step].
Qed.

(** X20.  An update of a layer whose load balancer did not change sends
    no load-balancer request, neither a detach nor an attach, however it
    goes on. *)
Theorem Update_unchanged_load_balancer (lt : opsworksLayerType) (d : ResourceData)
    (sent : list SDK.call) :
  HasChange d TypeString "elastic_load_balancer" = false ->
  exists others,
    w_calls (update lt (mkWorld d sent)).1 = sent ++ others /\
    Forall (fun c => is_lb_call c = false) others.
Proof.
  intros Hsame. unfold Update. rewrite bind_getD. cbn [w_d]. rewrite Hsame.
  match goal with
  | |- context [w_calls (?m (mkWorld d sent)).1] =>
      assert (H : sends_only (fun c => is_lb_call c = false) m)
  end.
  { repeat first
      [ apply sends_only_send; reflexivity
      | apply (sends_only_mono (fun c => is_read_call c = true));
          [by intros []|apply Read_sends_reads]
      | only_step ]. }
  exact (H (mkWorld d sent)).
Qed.

(** X21.  [Update] sends a request to update the tags only when
    [tags_all] changed, and that request names the ARN the state holds and
    carries the old and the new value of [tags_all]. *)
Theorem Update_tags (lt : opsworksLayerType) (d : ResourceData)
    (sent : list SDK.call) :
  exists sent',
    w_calls (update lt (mkWorld d sent)).1 = sent ++ sent' /\
    forall c, c ∈ sent' -> is_tag_update c = true ->
      HasChange d TypeMap "tags_all" = true /\
      exists arn,
        Get d TypeString "arn" = FValue (VString arn) /\
        c = SDK.UpdateTags arn (GetChange d TypeMap "tags_all").1
              (GetChange d TypeMap "tags_all").2.
Proof.
  unfold Update. rewrite bind_getD. cbn [w_d].
  match goal with
  | |- context [w_calls (?m (mkWorld d sent)).1] =>
      assert (H : sends_only
                    (fun c => is_tag_update c = true ->
                       HasChange d TypeMap "tags_all" = true /\
                       exists arn,
                         Get d TypeString "arn" = FValue (VString arn) /\
                         c = SDK.UpdateTags arn (GetChange d TypeMap "tags_all").1
                               (GetChange d TypeMap "tags_all").2) m)
  end.
  { unfold GetChange. cbn iota beta.
    repeat first
      [ apply sends_only_send; discriminate
      | apply sends_only_send; intros _; split; [done|]; eexists;
          split; [|reflexivity];
          match goal with
          | H : asString ?f = Ok _ |- _ =>
              destruct f as [[]| | |]; cbn in H; by simplify_eq
          end
      | apply (sends_only_mono (fun c => is_read_call c = true));
          [by intros []|apply Read_sends_reads]
      | only_step ]. }
  destruct (H (mkWorld d sent)) as (sent' & Hsent & Hall).
  exists sent'. split; [exact Hsent|]. exact (proj1 (Forall_forall _ _) Hall).
Qed.

(** X22.  [Update] changes the local state through its closing [Read]
    only.  Either it ends before it, with an error or a panic, the state
    exactly as it was and no read request sent; or the attribute bag and
    the request were built, the load-balancer requests [lbs] and the
    request to update the layer were accepted, then the tag requests
    [tags], and the update ends as the [Read] that follows them ends. *)
Theorem Update_refreshes_last (lt : opsworksLayerType) (d : ResourceData)
    (sent : list SDK.call) :
  let result := update lt (mkWorld d sent) in
  (w_d result.1 = d /\ result.2 <> Ok tt /\
   exists sent', w_calls result.1 = sent ++ sent' /\
                 Forall (fun c => is_read_call c = false) sent') \/
  exists attrs req lbs tags,
    AttributeMap lt d = Ok attrs /\
    request_of lt d attrs = Ok req /\
    SDK.onUpdateLayer conn (sent ++ lbs) req = None /\
    Forall (fun c => is_lb_call c = true) lbs /\
    Forall (fun c => is_tag_update c = true) tags /\
    result = read lt (mkWorld d (sent ++ lbs ++ [SDK.UpdateLayer req] ++ tags)).
Proof.
  cbn zeta. unfold Update. rewrite bind_getD. cbn [w_d].
  destruct (AttributeMap lt d) as [attrs|e|p] eqn:Hattrs;
    [rewrite bind_lift_Ok
    |left; (split; [done|]); (split; [done|]); exists []; by rewrite app_nil_r..].
  destruct (request_of lt d attrs) as [req|e|p] eqn:Hreq;
    [rewrite bind_lift_Ok
    |left; (split; [done|]); (split; [done|]); exists []; by rewrite app_nil_r..].
  match goal with
  | |- context [bind ?m ?k (mkWorld d sent)] =>
      destruct (quiet_then (fun c => is_lb_call c = true) m k (mkWorld d sent))
        as (lbs & Hlbs & [[[] ->]|[Hw Hr]])
  end.
  { unfold GetChange. repeat quiet_step. }
  2:{ left. rewrite Hw. cbn [w_d w_calls]. split; [done|]. split; [apply Hr|].
      exists lbs. split; [done|]. eapply Forall_impl; [exact Hlbs|]. by intros []. }
  cbn [w_d w_calls]. rewrite bind_send. cbn [w_d w_calls].
  destruct (SDK.onUpdateLayer conn (sent ++ lbs) req) as [e|] eqn:Hupdate; cbn [check].
  { left. rewrite bind_fail. cbn [fst snd w_d w_calls].
    split; [done|]. split; [done|]. exists (lbs ++ [SDK.UpdateLayer req]).
    rewrite app_assoc. split; [done|]. apply Forall_app. split.
    - eapply Forall_impl; [exact Hlbs|]. by intros [].
    - by repeat constructor. }
  rewrite bind_ret.
  match goal with
  | |- context [bind ?m ?k ?w] =>
      destruct (quiet_then (fun c => is_tag_update c = true) m k w)
        as (tags & Htags & [[[] ->]|[Hw Hr]])
  end.
  { unfold GetChange. repeat quiet_step. }
  - right. exists attrs, req, lbs, tags. cbn [w_d w_calls].
    repeat (split; [done|]). by rewrite <- !app_assoc.
  - left. rewrite Hw. cbn [w_d w_calls]. split; [done|]. split; [apply Hr|].
    exists (lbs ++ [SDK.UpdateLayer req] ++ tags). rewrite <- !app_assoc.
    split; [done|]. rewrite !Forall_app. split; [|split].
    + eapply Forall_impl; [exact Hlbs|]. by intros [].
    + by repeat constructor.
    + eapply Forall_impl; [exact Htags|]. by intros [].
Qed.


End Collaborators.

Lemma example_state_same_load_balancer :
  HasChange example_state TypeString "elastic_load_balancer" = false.
Proof. vm_compute. reflexivity. Defined.

Lemma Update_unchanged_load_balancer_witness :
  exists others,
    w_calls (update_on healthy example_layer example_state).1 = others /\
    Forall (fun c => is_lb_call c = false) others.
Proof.
  exact (Update_unchanged_load_balancer strings_of strings_of elems_of json_ok
           all_tags all_tags healthy hash_of_string hash_of_elem example_layer
           example_state []
           example_state_same_load_balancer).
Defined.

End UpdateOrderFacts.

(** ** The schema of a layer type *)

Module LayerSchemaFacts.
Import Schema Assert OpsWorks LayerResource Spec Fixtures Coverage SchemaFacts
  AttributeBagFacts ProjectionRoundTrip VolumeFacts.
Local Open Scope list_scope.

(** The loop over the attributes: the last entry of a key decides, and a
    key that is no attribute keeps the schema it had. *)
Lemma attribute_loop_other (entries : list (string * opsworksLayerTypeAttribute))
    (key : string) :
  forall resourceSchema : gmap string schema,
    key ∉ local_keys entries ->
    foldl (fun resourceSchema '(key, def) => <[key := attributeSchema def]> resourceSchema)
      resourceSchema entries !! key
    = resourceSchema !! key.
Proof.
  unfold local_keys.
  induction entries as [|[k def] rest IH]; intros m Hk; [done|].
  cbn in Hk. apply not_elem_of_cons in Hk as [Hne Hk].
  cbn [foldl]. rewrite IH by done. by rewrite lookup_insert_ne.
Qed.

Lemma attribute_loop_entry (entries : list (string * opsworksLayerTypeAttribute))
    (key : string) (def : opsworksLayerTypeAttribute) :
  forall resourceSchema : gmap string schema,
    NoDup (local_keys entries) ->
    (key, def) ∈ entries ->
    foldl (fun resourceSchema '(key, def) => <[key := attributeSchema def]> resourceSchema)
      resourceSchema entries !! key
    = Some (attributeSchema def).
Proof.
  unfold local_keys.
  induction entries as [|[k df] rest IH]; intros m Hnd Hin.
  - by apply elem_of_nil in Hin.
  - cbn in Hnd. apply NoDup_cons in Hnd as [Hfresh Hnd].
    apply elem_of_cons in Hin as [[= -> ->]|Hin]; cbn [foldl].
    + rewrite attribute_loop_other by done. by rewrite lookup_insert_eq.
    + by apply IH.
Qed.

Section Schema.

Variable TagsSchema : schema.
Variable TagsSchemaComputed : schema.

#[local] Abbreviation schema_of := (SchemaResource TagsSchema TagsSchemaComputed).

(** X23.  The schema of a layer type whose attribute keys are distinct.
    Every attribute has the entry the loop builds from its descriptor (its
    type and default, required as the descriptor says and optional
    otherwise, never both), also when its key is the key of a field every
    layer type has, whose entry it then replaces.  When no attribute is
    called so, [name] is required for a type without a default layer name
    and optional with that default otherwise, [short_name] is declared
    (and required) only for a type with a custom short name, and every
    other key has the entry of the map literal. *)
Theorem SchemaResource_lookup (lt : opsworksLayerType) :
  wf_attributes lt ->
  (forall key def, (key, def) ∈ Attributes lt ->
     schema_of lt !! key
     = Some {| s_Type := Type_ def;
               s_Optional := negb (Required def);
               s_Required := Required def;
               s_Computed := false;
               s_ForceNew := false;
               s_Default := Default def;
               s_Elem := None |}) /\
  ("name" ∉ local_keys (Attributes lt) ->
   schema_of lt !! "name"
   = Some (if decide (DefaultLayerName lt = "")
           then mkSchema TypeString false true false false None None
           else mkSchema TypeString true false false false
                  (Some (FValue (VString (DefaultLayerName lt)))) None)) /\
  ("short_name" ∉ local_keys (Attributes lt) ->
   schema_of lt !! "short_name"
   = if CustomShortName lt
     then Some (mkSchema TypeString false true false false None None)
     else None) /\
  (forall key, key ∉ local_keys (Attributes lt) ->
     key <> "name" -> key <> "short_name" ->
     schema_of lt !! key = resourceSchema TagsSchema TagsSchemaComputed !! key).
Proof.
  intros Hwf. unfold SchemaResource. split; [|split; [|split]].
  - intros key def Hin. by rewrite (attribute_loop_entry _ key def).
  - intros Hk. rewrite attribute_loop_other by done.
    destruct (String.eqb_spec (DefaultLayerName lt) "") as [Heq|Hne]; cbn [negb].
    + rewrite decide_True by done. by rewrite lookup_insert_eq.
    + rewrite decide_False by done. by rewrite lookup_insert_eq.
  - intros Hk. rewrite attribute_loop_other by done.
    destruct (negb (DefaultLayerName lt =? "")); rewrite lookup_insert_ne by done;
      destruct (CustomShortName lt); by rewrite ?lookup_insert_eq.
  - intros key Hk Hname Hshort. rewrite attribute_loop_other by done.
    destruct (negb (DefaultLayerName lt =? "")); rewrite lookup_insert_ne by done;
      destruct (CustomShortName lt); by rewrite ?lookup_insert_ne by done.
Qed.

Lemma SchemaResource_base (lt : opsworksLayerType) (key : string) :
  key ∉ local_keys (Attributes lt) ->
  key <> "name" -> key <> "short_name" ->
  schema_of lt !! key = resourceSchema TagsSchema TagsSchemaComputed !! key.
Proof.
  intros Hk Hname Hshort. unfold SchemaResource.
  rewrite attribute_loop_other by done.
  destruct (negb (DefaultLayerName lt =? "")); rewrite lookup_insert_ne by done;
    destruct (CustomShortName lt); by rewrite ?lookup_insert_ne by done.
Qed.

Lemma SchemaResource_declares (lt : opsworksLayerType) (key : string) :
  key ∈ local_keys (Attributes lt) -> is_Some (schema_of lt !! key).
Proof.
  unfold SchemaResource.
  generalize (if negb (DefaultLayerName lt =? "")
     then
      <["name":=optional TypeString
                  (Some (FValue (VString (DefaultLayerName lt)))) None]>
        (if CustomShortName lt
         then
          <["short_name":=mkSchema TypeString false true false false None None]>
            (resourceSchema TagsSchema TagsSchemaComputed)
         else resourceSchema TagsSchema TagsSchemaComputed)
     else
      <["name":=mkSchema TypeString false true false false None None]>
        (if CustomShortName lt
         then
          <["short_name":=mkSchema TypeString false true false false None None]>
            (resourceSchema TagsSchema TagsSchemaComputed)
         else resourceSchema TagsSchema TagsSchemaComputed)) as m.
  unfold local_keys.
  induction (Attributes lt) as [|[k def] rest IH]; intros m Hin.
  - by apply elem_of_nil in Hin.
  - cbn [foldl]. destruct (decide (key ∈ (fun e => e.1) <$> rest)) as [Hrest|Hrest].
    + by apply IH.
    + cbn in Hin. apply elem_of_cons in Hin as [->|Hin]; [|done].
      rewrite attribute_loop_other by done. rewrite lookup_insert_eq. by eexists.
Qed.

(** X24.  Every field that [Read] may write is declared by the schema
    of the layer type, whatever its attributes. *)
Theorem Read_writes_declared_fields (lt : opsworksLayerType) (key : string) :
  key ∈ read_keys lt -> is_Some (schema_of lt !! key).
Proof.
  intros Hkey.
  destruct (decide (key ∈ local_keys (Attributes lt))) as [Hattr|Hattr];
    [by apply SchemaResource_declares|].
  unfold read_keys, layer_keys, recipe_keys in Hkey.
  rewrite !elem_of_app in Hkey.
  destruct Hkey as [[Hkey|Hkey]|[Hkey|[Hkey|[Hkey|[Hkey|Hkey]]]]].
  - rewrite !elem_of_cons in Hkey.
    destruct_or!; subst; try (by apply elem_of_nil in Hkey);
      try (rewrite SchemaResource_base by done; by eexists).
    unfold SchemaResource. rewrite attribute_loop_other by done.
    destruct (negb (DefaultLayerName lt =? "")); rewrite lookup_insert_eq; by eexists.
  - destruct (CustomShortName lt) eqn:Hcsn; [|by apply elem_of_nil in Hkey].
    apply list_elem_of_singleton in Hkey as ->.
    unfold SchemaResource. rewrite attribute_loop_other, Hcsn by done.
    destruct (negb (DefaultLayerName lt =? "")); rewrite lookup_insert_ne by done;
      rewrite lookup_insert_eq; by eexists.
  - apply list_elem_of_singleton in Hkey as ->.
    rewrite SchemaResource_base by done. by eexists.
  - exfalso. apply Hattr. apply ProjectionFacts.readable_keys_spec in Hkey as (def & Hin & _).
    unfold local_keys. apply list_elem_of_fmap. by exists (key, def).
  - rewrite !elem_of_cons in Hkey.
    destruct_or!; subst; try (by apply elem_of_nil in Hkey);
      rewrite SchemaResource_base by done; by eexists.
  - rewrite !elem_of_cons in Hkey.
    destruct_or!; subst; try (by apply elem_of_nil in Hkey);
      rewrite SchemaResource_base by done; by eexists.
  - rewrite !elem_of_cons in Hkey.
    destruct_or!; subst; try (by apply elem_of_nil in Hkey);
      rewrite SchemaResource_base by done; by eexists.
Qed.

Lemma volume_conforms_typed (e : elem) :
  elem_conforms (ElemResource ebs_volume_fields) e -> volume_typed e.
Proof.
  intros (m & -> & Hfields). unfold volume_typed.
  destruct (Hfields "mount_point" _ eq_refl) as ([mp| |] & Hmp & Kmp); try done.
  destruct (Hfields "number_of_disks" _ eq_refl) as ([|nd|] & Hnd & Knd); try done.
  destruct (Hfields "size" _ eq_refl) as ([|sz|] & Hsz & Ksz); try done.
  destruct (Hfields "type" _ eq_refl) as ([ty| |] & Hty & Kty); try done.
  destruct (Hfields "encrypted" _ eq_refl) as ([| |en] & Hen & Ken); try done.
  destruct (Hfields "iops" _ eq_refl) as ([|iops|] & Hiops & Kiops); try done.
  destruct (Hfields "raid_level" _ eq_refl) as ([raid| |] & Hraid & Kraid); try done.
  by exists m, mp, nd, sz, ty, en, iops, raid.
Qed.

Section Requests.

Variable ExpandStringList : list elem -> list string.
Variable ExpandStringSet : list elem -> list string.

(** X25.  For a layer type whose attributes have distinct keys, none of
    them the key of a field every layer type has, and one of the three
    supported types each: on a state that conforms to the schema of the
    layer type, [AttributeMap] returns a bag without an error and neither
    it nor the construction of the request of [Update] or of [Create]
    panics on a type assertion. *)
Theorem requests_of_conforming_state (lt : opsworksLayerType) (d : ResourceData) :
  wf_attributes lt ->
  Forall (fun e => supported (Type_ e.2)) (Attributes lt) ->
  Forall (fun key => key ∉ base_keys) (local_keys (Attributes lt)) ->
  conforms (schema_of lt) d ->
  exists attrs update create,
    AttributeMap lt d = Ok attrs /\
    UpdateLayerRequest ExpandStringList ExpandStringSet lt d attrs = Ok update /\
    CreateLayerRequest ExpandStringList ExpandStringSet lt d attrs = Ok create.
Proof.
  intros Hwf Hsup Hdisjoint Hconf.
  assert (Hfree : forall key, key ∈ base_keys -> key ∉ local_keys (Attributes lt)).
  { intros key Hkey Hin. rewrite Forall_forall in Hdisjoint. by apply (Hdisjoint key). }
  (* the attribute bag *)
  assert (Hattrs : exists attrs, AttributeMap lt d = Ok attrs).
  { apply (AttributeMap_range_encodable (Attributes lt) d ∅).
    apply Forall_forall. intros [key def] Hin.
    pose proof (Hconf key _ (attribute_loop_entry _ key def _ Hwf Hin)) as Hfield.
    rewrite Forall_forall in Hsup. specialize (Hsup _ Hin).
    unfold field_conforms, encodable in *. cbn [fst snd s_Type attributeSchema] in *.
    destruct Hsup as [Ht|[Ht|Ht]]; rewrite Ht in *; exact Hfield. }
  destruct Hattrs as [attrs Hattrs]. exists attrs.
  (* the fields every layer type has *)
  assert (Hfield : forall key sch,
            key ∈ base_keys -> key <> "name" -> key <> "short_name" ->
            resourceSchema TagsSchema TagsSchemaComputed !! key = Some sch ->
            field_conforms sch (Get d (s_Type sch) key)).
  { intros key sch Hkey Hname Hshort Hsch. apply Hconf.
    rewrite SchemaResource_base; [done|by apply Hfree|done..]. }
  assert (Hin : forall key, In key base_keys -> key ∈ base_keys)
    by (intros key; apply list_elem_of_In).
  pose proof (Hfield "auto_assign_elastic_ips" _ (Hin "auto_assign_elastic_ips" ltac:(cbn; tauto))
                ltac:(done) ltac:(done) eq_refl) as [b1 H1].
  pose proof (Hfield "auto_assign_public_ips" _ (Hin "auto_assign_public_ips" ltac:(cbn; tauto))
                ltac:(done) ltac:(done) eq_refl) as [b2 H2].
  pose proof (Hfield "custom_instance_profile_arn" _ (Hin "custom_instance_profile_arn" ltac:(cbn; tauto))
                ltac:(done) ltac:(done) eq_refl) as [s3 H3].
  pose proof (Hfield "custom_configure_recipes" _ (Hin "custom_configure_recipes" ltac:(cbn; tauto))
                ltac:(done) ltac:(done) eq_refl) as (l4 & H4 & _).
  pose proof (Hfield "custom_deploy_recipes" _ (Hin "custom_deploy_recipes" ltac:(cbn; tauto))
                ltac:(done) ltac:(done) eq_refl) as (l5 & H5 & _).
  pose proof (Hfield "custom_setup_recipes" _ (Hin "custom_setup_recipes" ltac:(cbn; tauto))
                ltac:(done) ltac:(done) eq_refl) as (l6 & H6 & _).
  pose proof (Hfield "custom_shutdown_recipes" _ (Hin "custom_shutdown_recipes" ltac:(cbn; tauto))
                ltac:(done) ltac:(done) eq_refl) as (l7 & H7 & _).
  pose proof (Hfield "custom_undeploy_recipes" _ (Hin "custom_undeploy_recipes" ltac:(cbn; tauto))
                ltac:(done) ltac:(done) eq_refl) as (l8 & H8 & _).
  pose proof (Hfield "custom_security_group_ids" _ (Hin "custom_security_group_ids" ltac:(cbn; tauto))
                ltac:(done) ltac:(done) eq_refl) as (l9 & H9 & _).
  pose proof (Hfield "auto_healing" _ (Hin "auto_healing" ltac:(cbn; tauto))
                ltac:(done) ltac:(done) eq_refl) as [b10 H10].
  pose proof (Hfield "install_updates_on_boot" _ (Hin "install_updates_on_boot" ltac:(cbn; tauto))
                ltac:(done) ltac:(done) eq_refl) as [b11 H11].
  pose proof (Hfield "drain_elb_on_shutdown" _ (Hin "drain_elb_on_shutdown" ltac:(cbn; tauto))
                ltac:(done) ltac:(done) eq_refl) as [b12 H12].
  pose proof (Hfield "instance_shutdown_timeout" _ (Hin "instance_shutdown_timeout" ltac:(cbn; tauto))
                ltac:(done) ltac:(done) eq_refl) as [n13 H13].
  pose proof (Hfield "system_packages" _ (Hin "system_packages" ltac:(cbn; tauto))
                ltac:(done) ltac:(done) eq_refl) as (l14 & H14 & _).
  pose proof (Hfield "stack_id" _ (Hin "stack_id" ltac:(cbn; tauto))
                ltac:(done) ltac:(done) eq_refl) as [s15 H15].
  pose proof (Hfield "use_ebs_optimized_instances" _ (Hin "use_ebs_optimized_instances" ltac:(cbn; tauto))
                ltac:(done) ltac:(done) eq_refl) as [b16 H16].
  pose proof (Hfield "ebs_volume" _ (Hin "ebs_volume" ltac:(cbn; tauto))
                ltac:(done) ltac:(done) eq_refl) as (l17 & H17 & Hvolumes).
  pose proof (Hfield "custom_json" _ (Hin "custom_json" ltac:(cbn; tauto))
                ltac:(done) ltac:(done) eq_refl) as [s18 H18].
  cbn [s_Type optional] in *.
  assert (Hname : exists name, Get d TypeString "name" = FValue (VString name)).
  { assert (Hfree_name : "name" ∉ local_keys (Attributes lt))
      by (apply Hfree, list_elem_of_In; cbn; tauto).
    destruct (SchemaResource_lookup lt Hwf) as (_ & Hlookup & _).
    specialize (Hlookup Hfree_name).
    pose proof (Hconf "name" _ Hlookup) as Hfield_name.
    by destruct (decide (DefaultLayerName lt = "")). }
  destruct Hname as [name Hname].
  assert (Hshort : CustomShortName lt = true ->
                   exists short, Get d TypeString "short_name" = FValue (VString short)).
  { intros Hcsn.
    assert (Hfree_short : "short_name" ∉ local_keys (Attributes lt))
      by (apply Hfree, list_elem_of_In; cbn; tauto).
    destruct (SchemaResource_lookup lt Hwf) as (_ & _ & Hlookup & _).
    specialize (Hlookup Hfree_short). rewrite Hcsn in Hlookup.
    exact (Hconf "short_name" _ Hlookup). }
  assert (Hvols : exists confs, VolumeConfigurations d = Ok confs).
  { destruct (VolumeConfigurations_typed d l17 H17) as (confs & Hconfs & _); [|by eexists].
    eapply Forall_impl; [exact (Hvolumes _ eq_refl)|]. apply volume_conforms_typed. }
  destruct Hvols as [confs Hconfs].
  unfold UpdateLayerRequest, CreateLayerRequest, CustomRecipes,
    LifecycleEventConfiguration.
  rewrite H1, H2, H3, H4, H5, H6, H7, H8, H9, H10, H11, H12, H13, H14, H15, H16, H18,
    Hname, Hconfs.
  cbn [asBool asString asInt asList obind].
  destruct (CustomShortName lt).
  - destruct (Hshort eq_refl) as [short ->]. cbn [asString obind]. by eexists _, _.
  - cbn [obind]. by eexists _, _.
Qed.



End Requests.

End Schema.

Lemma conforms_unset (s : gmap string schema) (d : ResourceData) :
  rd_fields d = ∅ -> conforms s d.
Proof.
  intros Hempty key sch _. unfold field_conforms, Get. rewrite Hempty, lookup_empty.
  cbn [default]. destruct (s_Type sch); cbn [zero_value]; try done; by eexists.
Defined.

Lemma example_layer_supported :
  Forall (fun e => supported (Type_ e.2)) (Attributes example_layer).
Proof. repeat constructor; unfold supported; cbn; tauto. Defined.

Lemma example_layer_apart :
  Forall (fun key => key ∉ base_keys) (local_keys (Attributes example_layer)).
Proof.
  repeat constructor; unfold base_keys; rewrite !not_elem_of_cons;
    repeat split; try discriminate; apply not_elem_of_nil.
Defined.

Lemma SchemaResource_lookup_witness :
  SchemaResource tags_schema tags_schema_computed example_layer !! "allocated_memory"
  = Some (mkSchema TypeInt true false false false (Some (FValue (VInt 512))) None) /\
  SchemaResource tags_schema tags_schema_computed example_layer !! "name"
  = Some (mkSchema TypeString true false false false
            (Some (FValue (VString "HAProxy"))) None) /\
  SchemaResource tags_schema tags_schema_computed example_layer !! "short_name" = None.
Proof.
  destruct (SchemaResource_lookup tags_schema tags_schema_computed example_layer
              example_layer_wf) as (Hattr & Hname & Hshort & _).
  assert (Hin : ("allocated_memory", allocated_memory) ∈ Attributes example_layer)
    by (unfold example_layer; cbn [Attributes]; rewrite !elem_of_cons;
        do 3 right; by left).
  assert (Hno_name : "name" ∉ local_keys (Attributes example_layer))
    by (unfold example_layer, local_keys; cbn [Attributes fmap list_fmap fst];
        rewrite !not_elem_of_cons; repeat split; try discriminate;
        apply not_elem_of_nil).
  assert (Hno_short : "short_name" ∉ local_keys (Attributes example_layer))
    by (unfold example_layer, local_keys; cbn [Attributes fmap list_fmap fst];
        rewrite !not_elem_of_cons; repeat split; try discriminate;
        apply not_elem_of_nil).
  split; [exact (Hattr _ _ Hin)|]. split; [exact (Hname Hno_name)|].
  exact (Hshort Hno_short).
Defined.

Lemma Read_writes_declared_fields_witness :
  is_Some (SchemaResource tags_schema tags_schema_computed example_layer !! "stats_url") /\
  is_Some (SchemaResource tags_schema tags_schema_computed example_layer !! "tags_all").
Proof.
  split.
  - apply (Read_writes_declared_fields tags_schema tags_schema_computed example_layer).
    unfold read_keys. rewrite !elem_of_app. right. right. left.
    apply ProjectionFacts.readable_keys_spec. exists stats_url.
    split; [|reflexivity].
    unfold example_layer; cbn [Attributes]; rewrite !elem_of_cons. right. by left.
  - apply (Read_writes_declared_fields tags_schema tags_schema_computed example_layer).
    unfold read_keys. rewrite !elem_of_app. do 5 right.
    rewrite !elem_of_cons. do 4 right. by left.
Defined.

Lemma requests_of_conforming_state_witness :
  exists attrs update create,
    AttributeMap example_layer imported_state = Ok attrs /\
    UpdateLayerRequest strings_of strings_of example_layer imported_state attrs
      = Ok update /\
    CreateLayerRequest strings_of strings_of example_layer imported_state attrs
      = Ok create.
Proof.
  exact (requests_of_conforming_state tags_schema tags_schema_computed
           strings_of strings_of example_layer imported_state
           example_layer_wf example_layer_supported example_layer_apart
           (conforms_unset _ imported_state eq_refl)).
Defined.

End LayerSchemaFacts.

(** ** [Create] *)

Module CreateFacts.
Import Schema Assert Effects OpsWorks LayerResource Spec Fixtures Coverage
  EffectsFacts RequestFacts ReadFacts.
Local Open Scope list_scope.

Section Collaborators.

Variable ExpandStringList : list elem -> list string.
Variable ExpandStringSet : list elem -> list string.
Variable FlattenStringList : list string -> list elem.
Variable NormalizeJsonString : string -> error + string.
Variable IgnoreTags : gmap string string -> gmap string string.
Variable RemoveDefaultConfig : gmap string string -> gmap string string.
Variable conn : SDK.OpsWorks.
Variable StringHashcode : string -> Z.
Variable HashString : elem -> Z.
Variable MergeTags : gmap string string -> gmap string string.
Variable Partition Region AccountID : string.
Variable CreateLayer : CreateLayerInput.t -> error + option string.

#[local] Abbreviation read :=
  (Read FlattenStringList NormalizeJsonString IgnoreTags RemoveDefaultConfig conn
     StringHashcode HashString).
#[local] Abbreviation create :=
  (Create ExpandStringList ExpandStringSet FlattenStringList NormalizeJsonString
     IgnoreTags RemoveDefaultConfig conn StringHashcode HashString MergeTags Partition
     Region AccountID CreateLayer).
#[local] Abbreviation request_of := (CreateLayerRequest ExpandStringList ExpandStringSet).

(** X26.  How [Create] ends.  Either nothing was created (the state
    could not be read, the attribute bag or the request could not be built,
    the service refused to create the layer or answered without an id):
    the state and the requests are as they were.  Or the layer was created
    with [layerId], and then either a later step failed, the state being
    the old one with the id of the new layer (the layer stays tracked;
    nothing is undone) and no read request sent; or the method ends as the
    [Read] of the new layer ends, after an attach request exactly when the
    configured load balancer is not empty and a tag request, for the ARN
    of the new layer and with no old tags, exactly when the merged tags are
    not empty. *)
Theorem Create_refreshes_last (lt : opsworksLayerType) (d : ResourceData)
    (sent : list SDK.call) :
  let result := create lt (mkWorld d sent) in
  (result.1 = mkWorld d sent /\ result.2 <> Ok tt) \/
  exists configured attrs req layerId,
    asMap (Get d TypeMap "tags") = Ok configured /\
    AttributeMap lt d = Ok attrs /\
    request_of lt d attrs = Ok req /\
    CreateLayer req = inr (Some layerId) /\
    ((w_d result.1 = SetId d layerId /\ result.2 <> Ok tt /\
      exists sent', w_calls result.1 = sent ++ sent' /\
                    Forall (fun c => is_read_call c = false) sent') \/
     exists loadBalancer,
       Get d TypeString "elastic_load_balancer" = FValue (VString loadBalancer) /\
       let arn :=
         ARN_String Partition "opsworks" Region AccountID ("layer/" ++ layerId)%string in
       let tags := MergeTags configured in
       result
       = read lt
           (mkWorld (SetId d layerId)
              (sent
               ++ (if decide (loadBalancer = "") then []
                   else [SDK.AttachElasticLoadBalancer loadBalancer layerId])
               ++ (if decide (size tags = 0%nat) then []
                   else [SDK.UpdateTags arn (FMap ∅) (FMap tags)])))).
Proof.
  cbn zeta. unfold Create. rewrite bind_getD. cbn [w_d].
  destruct (asMap (Get d TypeMap "tags")) as [configured|e|p] eqn:Htags;
    [rewrite bind_lift_Ok|by left..].
  destruct (AttributeMap lt d) as [attrs|e|p] eqn:Hattrs;
    [rewrite bind_lift_Ok|by left..].
  destruct (request_of lt d attrs) as [req|e|p] eqn:Hreq;
    [rewrite bind_lift_Ok|by left..].
  destruct (CreateLayer req) as [err|[layerId|]] eqn:Hcreate; [by left| |by left].
  right. exists configured, attrs, req, layerId. do 4 (split; [done|]).
  rewrite bind_lift_Ok, bind_modD, bind_getD. cbn [w_d w_calls].
  change (Get (SetId d layerId) TypeString "elastic_load_balancer")
    with (Get d TypeString "elastic_load_balancer").
  change (Id (SetId d layerId)) with layerId.
  destruct (Get d TypeString "elastic_load_balancer") as [[lb|n|b]|l|m|] eqn:Hlb;
    cbn [asString];
    [rewrite bind_lift_Ok
    |left; (split; [done|]); (split; [done|]); exists []; by rewrite app_nil_r..].
  assert (Hfail : forall (w : world) (o : outcome unit) (sent' : list SDK.call),
            w = mkWorld (SetId d layerId) (sent ++ sent') ->
            o <> Ok tt ->
            Forall (fun c => is_read_call c = false) sent' ->
            w_d (w, o).1 = SetId d layerId /\ (w, o).2 <> Ok tt /\
            exists sent', w_calls (w, o).1 = sent ++ sent' /\
                          Forall (fun c => is_read_call c = false) sent').
  { intros w o sent' -> Ho Hsent. split.
    - reflexivity.
    - split.
      + exact Ho.
      + exists sent'. split; [reflexivity|exact Hsent]. }
  assert (Hread : forall (w : world * outcome unit) (attach update : list SDK.call),
            w = read lt (mkWorld (SetId d layerId) (sent ++ attach ++ update)) ->
            (if decide (lb = "") then []
             else [SDK.AttachElasticLoadBalancer lb layerId]) = attach ->
            (if decide (size (MergeTags configured) = 0%nat) then []
             else [SDK.UpdateTags
                     (ARN_String Partition "opsworks" Region AccountID
                        ("layer/" ++ layerId)%string)
                     (FMap ∅) (FMap (MergeTags configured))]) = update ->
            exists loadBalancer,
              FValue (VString lb) = FValue (VString loadBalancer) /\
              w = read lt
                    (mkWorld (SetId d layerId)
                       (sent
                        ++ (if decide (loadBalancer = "") then []
                            else [SDK.AttachElasticLoadBalancer loadBalancer layerId])
                        ++ (if decide (size (MergeTags configured) = 0%nat) then []
                            else [SDK.UpdateTags
                                    (ARN_String Partition "opsworks" Region AccountID
                                       ("layer/" ++ layerId)%string)
                                    (FMap ∅) (FMap (MergeTags configured))])))).
  { intros w attach update -> <- <-. by exists lb. }
  destruct (String.eqb_spec lb "") as [Hempty|Hempty]; cbn [negb when];
    (destruct (Nat.eqb_spec (size (MergeTags configured)) 0) as [Hnone|Hsome];
     cbn [negb when]).
  - right. rewrite !bind_ret.
    eapply Hread; [|by rewrite decide_True|by rewrite decide_True].
    by rewrite app_nil_r.
  - rewrite bind_ret, bind_assoc, bind_send. cbn [w_d w_calls app].
    destruct (SDK.onUpdateTags conn sent _ _ _) as [err|].
    + left. rewrite bind_fail. eapply Hfail; [done|done|by repeat constructor].
    + right. rewrite bind_ret.
      eapply Hread; [|by rewrite decide_True|by rewrite decide_False]. done.
  - rewrite bind_assoc, bind_send. cbn [w_d w_calls].
    destruct (SDK.onAttachElasticLoadBalancer conn sent lb layerId) as [err|];
      cbn [check].
    + left. rewrite bind_fail. eapply Hfail; [done|done|by repeat constructor].
    + right. rewrite !bind_ret.
      eapply Hread; [|by rewrite decide_False|by rewrite decide_True]. done.
  - rewrite bind_assoc, bind_send. cbn [w_d w_calls].
    destruct (SDK.onAttachElasticLoadBalancer conn sent lb layerId) as [err|];
      cbn [check].
    + left. rewrite bind_fail. eapply Hfail; [done|done|by repeat constructor].
    + rewrite bind_ret, bind_assoc, bind_send. cbn [w_d w_calls].
      destruct (SDK.onUpdateTags conn _ _ _ _) as [err|].
      * left. rewrite bind_fail. rewrite <- app_assoc.
        eapply Hfail; [done|done|by repeat constructor].
      * right. rewrite bind_ret.
        eapply Hread; [|by rewrite decide_False|by rewrite decide_False].
        by rewrite <- app_assoc.
Qed.

End Collaborators.
End CreateFacts.
